(** * Go-EuroMillions-API: the updater's ingestion path and the read service

    A shallow embedding of [go-euromillions-api-update.go] (the updater) and
    of the handlers of [go-euromillions-api.go] (the read service) that serve
    stored draws, together with models of the Go library calls they make.

    Go strings are byte strings: [string] is used as a sequence of bytes and
    every comparison below is byte-wise, as Go's [==], [<] and [>] are. *)

From Stdlib Require Import ZArith List Bool Ascii String Lia.
From Stdlib Require Import Permutation Sorted.
Import ListNotations.

Local Open Scope string_scope.
Local Open Scope Z_scope.

(* ================================================================== *)
(** * Models of the Go standard library calls used by the program     *)
(* ================================================================== *)

(** ** Bytes and strings *)
Module GoStrings.

Definition byteVal (c : ascii) : Z := Z.of_N (N_of_ascii c).

(** [isDigit]: an ASCII decimal digit, which is what [\d] means in Go's
    regexp syntax and what the [time] and [strconv] parsers accept. *)
Definition isDigit (c : ascii) : bool :=
  (48 <=? byteVal c) && (byteVal c <=? 57).

Definition digitVal (c : ascii) : Z := byteVal c - 48.

Definition digitChar (d : Z) : ascii := ascii_of_N (Z.to_N (48 + d)).

(** [\s] of Go's regexp syntax: tab, newline, form feed, carriage return,
    space. *)
Definition isSpace (c : ascii) : bool :=
  let n := byteVal c in
  (n =? 9) || (n =? 10) || (n =? 12) || (n =? 13) || (n =? 32).

(** [s[i:]] *)
Fixpoint sliceFrom (s : string) (i : nat) {struct i} : string :=
  match i, s with
  | O, _ => s
  | S i', String _ s' => sliceFrom s' i'
  | S _, EmptyString => EmptyString
  end.

(** [s[i:j]] *)
Definition slice (s : string) (i j : nat) : string :=
  substring i (j - i) s.

(** [strings.Index(s, substr)]; Go's [-1] is [None]. *)
Definition Index (s substr : string) : option nat := String.index 0 substr s.

(** [strings.HasPrefix] followed by the cut: the rest of [s] after
    [prefix], when [s] starts with it. *)
Fixpoint cutPrefix (prefix s : string) : option string :=
  match prefix, s with
  | EmptyString, _ => Some s
  | String p prefix', String c s' =>
      if Ascii.eqb p c then cutPrefix prefix' s' else None
  | String _ _, EmptyString => None
  end.

(** [strings.ToLower] of an ASCII string: the letters [A] to [Z] are
    lowered, every other byte stays. *)
Definition lowerByte (c : ascii) : ascii :=
  let n := byteVal c in
  if (65 <=? n) && (n <=? 90) then ascii_of_N (Z.to_N (n + 32)) else c.

Fixpoint lowerASCII (s : string) : string :=
  match s with
  | EmptyString => EmptyString
  | String c s' => String (lowerByte c) (lowerASCII s')
  end.

(** [c < utf8.RuneSelf] for every byte of [s] *)
Fixpoint isASCII (s : string) : bool :=
  match s with
  | EmptyString => true
  | String c s' => (byteVal c <? 128) && isASCII s'
  end.

Definition byteOf (n : Z) : ascii := ascii_of_N (Z.to_N n).

(** ** [unicode/utf8] *)

Definition utf8_RuneError : Z := 0xFFFD.
Definition utf8_MaxRune : Z := 0x10FFFF.

(** A continuation byte, [locb <= c <= hicb]. *)
Definition utf8_continuation (c : ascii) : bool :=
  (0x80 <=? byteVal c) && (byteVal c <=? 0xBF).

(** [acceptRanges[first[s0] >> 4]]: the values the second byte may take
    after the first byte [s0] of a sequence of three or four bytes. *)
Definition utf8_accept (s0 : Z) (c : ascii) : bool :=
  let lo := if s0 =? 0xE0 then 0xA0 else if s0 =? 0xF0 then 0x90 else 0x80 in
  let hi := if s0 =? 0xED then 0x9F else if s0 =? 0xF4 then 0x8F else 0xBF in
  (lo <=? byteVal c) && (byteVal c <=? hi).

(** The runes [for _, c := range s] yields, that is [utf8.DecodeRuneInString]
    on what is left of [s], again and again: a byte below [0x80] is its own
    rune; a well-formed sequence of two to four bytes (shortest form, no
    surrogate, at most [MaxRune]) is the rune it encodes; any other byte
    yields [RuneError] and is passed alone. *)
Fixpoint utf8_runes (s : string) : list Z :=
  match s with
  | EmptyString => []
  | String c0 s1 =>
      let s0 := byteVal c0 in
      let invalid := utf8_RuneError :: utf8_runes s1 in
      if s0 <? 0x80 then s0 :: utf8_runes s1
      else
        match s1 with
        | EmptyString => invalid
        | String c1 s2 =>
            if (0xC2 <=? s0) && (s0 <=? 0xDF) then
              if utf8_continuation c1
              then Z.lor (Z.shiftl (Z.land s0 0x1F) 6) (Z.land (byteVal c1) 0x3F)
                   :: utf8_runes s2
              else invalid
            else if (0xE0 <=? s0) && (s0 <=? 0xEF) then
              match s2 with
              | EmptyString => invalid
              | String c2 s3 =>
                  if utf8_accept s0 c1 && utf8_continuation c2
                  then Z.lor (Z.shiftl (Z.land s0 0x0F) 12)
                         (Z.lor (Z.shiftl (Z.land (byteVal c1) 0x3F) 6)
                            (Z.land (byteVal c2) 0x3F))
                       :: utf8_runes s3
                  else invalid
              end
            else if (0xF0 <=? s0) && (s0 <=? 0xF4) then
              match s2 with
              | String c2 (String c3 s4) =>
                  if utf8_accept s0 c1 && utf8_continuation c2
                     && utf8_continuation c3
                  then Z.lor (Z.shiftl (Z.land s0 0x07) 18)
                         (Z.lor (Z.shiftl (Z.land (byteVal c1) 0x3F) 12)
                            (Z.lor (Z.shiftl (Z.land (byteVal c2) 0x3F) 6)
                               (Z.land (byteVal c3) 0x3F)))
                       :: utf8_runes s4
                  else invalid
              | _ => invalid
              end
            else invalid
        end
  end.

(** [utf8.AppendRune]: the bytes that encode [r]; a surrogate or a value
    outside [0, MaxRune] is written as [RuneError]. *)
Definition utf8_encode3 (r : Z) : string :=
  String (byteOf (Z.lor 0xE0 (Z.shiftr r 12)))
    (String (byteOf (Z.lor 0x80 (Z.land (Z.shiftr r 6) 0x3F)))
       (String (byteOf (Z.lor 0x80 (Z.land r 0x3F))) EmptyString)).

Definition utf8_AppendRune (r : Z) : string :=
  if (0 <=? r) && (r <=? 0x7F) then String (byteOf r) EmptyString
  else if (0 <=? r) && (r <=? 0x7FF) then
    String (byteOf (Z.lor 0xC0 (Z.shiftr r 6)))
      (String (byteOf (Z.lor 0x80 (Z.land r 0x3F))) EmptyString)
  else if (r <? 0) || (utf8_MaxRune <? r) || ((0xD800 <=? r) && (r <=? 0xDFFF))
  then utf8_encode3 utf8_RuneError
  else if r <=? 0xFFFF then utf8_encode3 r
  else
    String (byteOf (Z.lor 0xF0 (Z.shiftr r 18)))
      (String (byteOf (Z.lor 0x80 (Z.land (Z.shiftr r 12) 0x3F)))
         (String (byteOf (Z.lor 0x80 (Z.land (Z.shiftr r 6) 0x3F)))
            (String (byteOf (Z.lor 0x80 (Z.land r 0x3F))) EmptyString))).

(** ** [unicode] *)

(** [unicode.UpperLower]: the delta that marks a range in which upper and
    lower case letters alternate. *)
Definition unicode_UpperLower : Z := utf8_MaxRune + 1.

(** The ranges of [unicode.CaseRanges] whose delta to [LowerCase] is not
    zero, each as [(Lo, Hi, Delta[LowerCase])], in increasing order; ranges
    that follow one another with one delta are joined.  These are the
    simple lower case mappings of the Unicode Character Database 14.0.0;
    the one to [i] is that of U+0130 and the one to [k] that of U+212A,
    and no other rune above [MaxASCII] is lowered to an ASCII letter. *)
Definition unicode_CaseRanges : list (Z * Z * Z) :=
  let UpperLower := unicode_UpperLower in
  [(0x00C0, 0x00D6, 32); (0x00D8, 0x00DE, 32); (0x0100, 0x012F, UpperLower);
   (0x0130, 0x0130, (-199)); (0x0132, 0x0137, UpperLower);
   (0x0139, 0x0148, UpperLower); (0x014A, 0x0177, UpperLower);
   (0x0178, 0x0178, (-121)); (0x0179, 0x017E, UpperLower);
   (0x0181, 0x0181, 210); (0x0182, 0x0185, UpperLower);
   (0x0186, 0x0186, 206); (0x0187, 0x0188, UpperLower);
   (0x0189, 0x018A, 205); (0x018B, 0x018C, UpperLower); (0x018E, 0x018E, 79);
   (0x018F, 0x018F, 202); (0x0190, 0x0190, 203);
   (0x0191, 0x0192, UpperLower); (0x0193, 0x0193, 205);
   (0x0194, 0x0194, 207); (0x0196, 0x0196, 211); (0x0197, 0x0197, 209);
   (0x0198, 0x0199, UpperLower); (0x019C, 0x019C, 211);
   (0x019D, 0x019D, 213); (0x019F, 0x019F, 214);
   (0x01A0, 0x01A5, UpperLower); (0x01A6, 0x01A6, 218);
   (0x01A7, 0x01A8, UpperLower); (0x01A9, 0x01A9, 218);
   (0x01AC, 0x01AD, UpperLower); (0x01AE, 0x01AE, 218);
   (0x01AF, 0x01B0, UpperLower); (0x01B1, 0x01B2, 217);
   (0x01B3, 0x01B6, UpperLower); (0x01B7, 0x01B7, 219);
   (0x01B8, 0x01B9, UpperLower); (0x01BC, 0x01BD, UpperLower);
   (0x01C4, 0x01C4, 2); (0x01C5, 0x01C6, UpperLower); (0x01C7, 0x01C7, 2);
   (0x01C8, 0x01C9, UpperLower); (0x01CA, 0x01CA, 2);
   (0x01CB, 0x01DC, UpperLower); (0x01DE, 0x01EF, UpperLower);
   (0x01F1, 0x01F1, 2); (0x01F2, 0x01F5, UpperLower);
   (0x01F6, 0x01F6, (-97)); (0x01F7, 0x01F7, (-56));
   (0x01F8, 0x021F, UpperLower); (0x0220, 0x0220, (-130));
   (0x0222, 0x0233, UpperLower); (0x023A, 0x023A, 10795);
   (0x023B, 0x023C, UpperLower); (0x023D, 0x023D, (-163));
   (0x023E, 0x023E, 10792); (0x0241, 0x0242, UpperLower);
   (0x0243, 0x0243, (-195)); (0x0244, 0x0244, 69); (0x0245, 0x0245, 71);
   (0x0246, 0x024F, UpperLower); (0x0370, 0x0373, UpperLower);
   (0x0376, 0x0377, UpperLower); (0x037F, 0x037F, 116); (0x0386, 0x0386, 38);
   (0x0388, 0x038A, 37); (0x038C, 0x038C, 64); (0x038E, 0x038F, 63);
   (0x0391, 0x03A1, 32); (0x03A3, 0x03AB, 32); (0x03CF, 0x03CF, 8);
   (0x03D8, 0x03EF, UpperLower); (0x03F4, 0x03F4, (-60));
   (0x03F7, 0x03F8, UpperLower); (0x03F9, 0x03F9, (-7));
   (0x03FA, 0x03FB, UpperLower); (0x03FD, 0x03FF, (-130));
   (0x0400, 0x040F, 80); (0x0410, 0x042F, 32); (0x0460, 0x0481, UpperLower);
   (0x048A, 0x04BF, UpperLower); (0x04C0, 0x04C0, 15);
   (0x04C1, 0x04CE, UpperLower); (0x04D0, 0x052F, UpperLower);
   (0x0531, 0x0556, 48); (0x10A0, 0x10C5, 7264); (0x10C7, 0x10C7, 7264);
   (0x10CD, 0x10CD, 7264); (0x13A0, 0x13EF, 38864); (0x13F0, 0x13F5, 8);
   (0x1C90, 0x1CBA, (-3008)); (0x1CBD, 0x1CBF, (-3008));
   (0x1E00, 0x1E95, UpperLower); (0x1E9E, 0x1E9E, (-7615));
   (0x1EA0, 0x1EFF, UpperLower); (0x1F08, 0x1F0F, (-8));
   (0x1F18, 0x1F1D, (-8)); (0x1F28, 0x1F2F, (-8)); (0x1F38, 0x1F3F, (-8));
   (0x1F48, 0x1F4D, (-8)); (0x1F59, 0x1F59, (-8)); (0x1F5B, 0x1F5B, (-8));
   (0x1F5D, 0x1F5D, (-8)); (0x1F5F, 0x1F5F, (-8)); (0x1F68, 0x1F6F, (-8));
   (0x1F88, 0x1F8F, (-8)); (0x1F98, 0x1F9F, (-8)); (0x1FA8, 0x1FAF, (-8));
   (0x1FB8, 0x1FB9, (-8)); (0x1FBA, 0x1FBB, (-74)); (0x1FBC, 0x1FBC, (-9));
   (0x1FC8, 0x1FCB, (-86)); (0x1FCC, 0x1FCC, (-9)); (0x1FD8, 0x1FD9, (-8));
   (0x1FDA, 0x1FDB, (-100)); (0x1FE8, 0x1FE9, (-8));
   (0x1FEA, 0x1FEB, (-112)); (0x1FEC, 0x1FEC, (-7));
   (0x1FF8, 0x1FF9, (-128)); (0x1FFA, 0x1FFB, (-126));
   (0x1FFC, 0x1FFC, (-9)); (0x2126, 0x2126, (-7517));
   (0x212A, 0x212A, (-8383)); (0x212B, 0x212B, (-8262));
   (0x2132, 0x2132, 28); (0x2160, 0x216F, 16); (0x2183, 0x2184, UpperLower);
   (0x24B6, 0x24CF, 26); (0x2C00, 0x2C2F, 48); (0x2C60, 0x2C61, UpperLower);
   (0x2C62, 0x2C62, (-10743)); (0x2C63, 0x2C63, (-3814));
   (0x2C64, 0x2C64, (-10727)); (0x2C67, 0x2C6C, UpperLower);
   (0x2C6D, 0x2C6D, (-10780)); (0x2C6E, 0x2C6E, (-10749));
   (0x2C6F, 0x2C6F, (-10783)); (0x2C70, 0x2C70, (-10782));
   (0x2C72, 0x2C73, UpperLower); (0x2C75, 0x2C76, UpperLower);
   (0x2C7E, 0x2C7F, (-10815)); (0x2C80, 0x2CE3, UpperLower);
   (0x2CEB, 0x2CEE, UpperLower); (0x2CF2, 0x2CF3, UpperLower);
   (0xA640, 0xA66D, UpperLower); (0xA680, 0xA69B, UpperLower);
   (0xA722, 0xA72F, UpperLower); (0xA732, 0xA76F, UpperLower);
   (0xA779, 0xA77C, UpperLower); (0xA77D, 0xA77D, (-35332));
   (0xA77E, 0xA787, UpperLower); (0xA78B, 0xA78C, UpperLower);
   (0xA78D, 0xA78D, (-42280)); (0xA790, 0xA793, UpperLower);
   (0xA796, 0xA7A9, UpperLower); (0xA7AA, 0xA7AA, (-42308));
   (0xA7AB, 0xA7AB, (-42319)); (0xA7AC, 0xA7AC, (-42315));
   (0xA7AD, 0xA7AD, (-42305)); (0xA7AE, 0xA7AE, (-42308));
   (0xA7B0, 0xA7B0, (-42258)); (0xA7B1, 0xA7B1, (-42282));
   (0xA7B2, 0xA7B2, (-42261)); (0xA7B3, 0xA7B3, 928);
   (0xA7B4, 0xA7C3, UpperLower); (0xA7C4, 0xA7C4, (-48));
   (0xA7C5, 0xA7C5, (-42307)); (0xA7C6, 0xA7C6, (-35384));
   (0xA7C7, 0xA7CA, UpperLower); (0xA7D0, 0xA7D1, UpperLower);
   (0xA7D6, 0xA7D9, UpperLower); (0xA7F5, 0xA7F6, UpperLower);
   (0xFF21, 0xFF3A, 32); (0x10400, 0x10427, 40); (0x104B0, 0x104D3, 40);
   (0x10570, 0x1057A, 39); (0x1057C, 0x1058A, 39); (0x1058C, 0x10592, 39);
   (0x10594, 0x10595, 39); (0x10C80, 0x10CB2, 64); (0x118A0, 0x118BF, 32);
   (0x16E40, 0x16E5F, 32); (0x1E900, 0x1E921, 34)].

(** [to(LowerCase, r, caseRange)]: the range that holds [r] decides (the
    ranges are disjoint, so the first one met is the one the binary search
    of the library finds); in an alternating range the low bit of the
    offset is set; without a range [r] stays. *)
Fixpoint unicode_to_lower (caseRange : list (Z * Z * Z)) (r : Z) : Z :=
  match caseRange with
  | [] => r
  | (lo, hi, delta) :: rest =>
      if (lo <=? r) && (r <=? hi) then
        if utf8_MaxRune <? delta
        then lo + Z.lor (Z.ldiff (r - lo) 1) 1
        else r + delta
      else unicode_to_lower rest r
  end.

(** [unicode.ToLower] *)
Definition unicode_ToLower (r : Z) : Z :=
  if r <=? 0x7F then
    if (65 <=? r) && (r <=? 90) then r + 32 else r
  else unicode_to_lower unicode_CaseRanges r.

(** [strings.Map(mapping, s)]: every rune of [s] is mapped and written
    back in UTF-8, a negative result is dropped.  (The library returns [s]
    itself when no rune changes and no byte is invalid, which is what
    writing every rune back gives.) *)
Definition Map (mapping : Z -> Z) (s : string) : string :=
  String.concat EmptyString
    (map (fun c => let r := mapping c in
                   if r <? 0 then EmptyString else utf8_AppendRune r)
       (utf8_runes s)).

(** [strings.ToLower]: the ASCII letters of an ASCII string are lowered
    in place; any other string is mapped rune by rune with
    [unicode.ToLower]. *)
Definition ToLower (s : string) : string :=
  if isASCII s then lowerASCII s else Map unicode_ToLower s.

(** The decimal value of a run of digits, most significant first. *)
Fixpoint digitsValue (acc : Z) (s : string) : Z :=
  match s with
  | EmptyString => acc
  | String c s' => digitsValue (acc * 10 + digitVal c) s'
  end.

Fixpoint allDigits (s : string) : bool :=
  match s with
  | EmptyString => true
  | String c s' => isDigit c && allDigits s'
  end.

End GoStrings.

(** ** strconv *)
Module strconv.
Import GoStrings.

Definition minInt64 : Z := - 2 ^ 63.
Definition maxInt64 : Z := 2 ^ 63 - 1.

(** [strconv.Atoi] on a 64-bit platform: an optional sign, then one or more
    decimal digits, and the value must fit [int]; [None] is the
    [*NumError] (syntax or range). *)
Definition Atoi (s : string) : option Z :=
  let '(neg, ds) :=
    match s with
    | String "-"%char r => (true, r)
    | String "+"%char r => (false, r)
    | _ => (false, s)
    end in
  match ds with
  | EmptyString => None
  | _ =>
      if allDigits ds then
        let v := if neg then - digitsValue 0 ds else digitsValue 0 ds in
        if (minInt64 <=? v) && (v <=? maxInt64) then Some v else None
      else None
  end.

End strconv.

(** ** time: [time.Parse] and [Time.Format] for the layouts of the program *)
Module time.
Import GoStrings.

(** The date a parsed [time.Time] denotes (midnight UTC of that day). *)
Record Time := mkTime { Year : Z; Month : Z; Day : Z }.

(** The layout elements [nextStdChunk] recognises in the program's
    layouts, and the literal text between them. *)
Inductive chunk :=
| stdLongYear                (* "2006" *)
| stdZeroMonth               (* "01" *)
| stdMonth                   (* "Jan" *)
| stdZeroDay                 (* "02" *)
| literal (prefix : string).

Definition layout_02_01_2006_dots : list chunk :=       (* "02.01.2006" *)
  [stdZeroDay; literal "."; stdZeroMonth; literal "."; stdLongYear].
Definition layout_02_01_2006_dashes : list chunk :=     (* "02-01-2006" *)
  [stdZeroDay; literal "-"; stdZeroMonth; literal "-"; stdLongYear].
Definition layout_02_01_2006_slashes : list chunk :=    (* "02/01/2006" *)
  [stdZeroDay; literal "/"; stdZeroMonth; literal "/"; stdLongYear].
Definition layout_02_Jan_2006 : list chunk :=           (* "02-Jan-2006" *)
  [stdZeroDay; literal "-"; stdMonth; literal "-"; stdLongYear].
Definition layout_2006_01_02 : list chunk :=            (* "2006-01-02" *)
  [stdLongYear; literal "-"; stdZeroMonth; literal "-"; stdZeroDay].

(** [getnum(s, fixed = true)]: exactly two digits. *)
Definition getnum2 (s : string) : option (Z * string) :=
  match s with
  | String a (String b r) =>
      if isDigit a && isDigit b then Some (digitVal a * 10 + digitVal b, r)
      else None
  | _ => None
  end.

(** [stdLongYear]: four bytes, all digits. *)
Definition getyear (s : string) : option (Z * string) :=
  match s with
  | String a (String b (String c (String d r))) =>
      if isDigit a && isDigit b && isDigit c && isDigit d
      then Some (digitsValue 0 (String a (String b (String c (String d "")))), r)
      else None
  | _ => None
  end.

Definition shortMonthNames : list string :=
  ["Jan"; "Feb"; "Mar"; "Apr"; "May"; "Jun";
   "Jul"; "Aug"; "Sep"; "Oct"; "Nov"; "Dec"].

(** [match(s1, s2)]: equal up to the case of ASCII letters. *)
Definition matchByte (c1 c2 : ascii) : bool :=
  if Ascii.eqb c1 c2 then true
  else
    let l1 := Z.lor (byteVal c1) 32 in
    let l2 := Z.lor (byteVal c2) 32 in
    (l1 =? l2) && (97 <=? l1) && (l1 <=? 122).

Fixpoint matchPrefix (name s : string) : option string :=
  match name, s with
  | EmptyString, _ => Some s
  | String n name', String c s' =>
      if matchByte c n then matchPrefix name' s' else None
  | String _ _, EmptyString => None
  end.

(** [lookup(shortMonthNames, value)]: the month number (from 1) of the
    first name [value] starts with. *)
Fixpoint lookup (tab : list string) (i : Z) (val : string) : option (Z * string) :=
  match tab with
  | [] => None
  | v :: tab' =>
      match matchPrefix v val with
      | Some r => Some (i, r)
      | None => lookup tab' (i + 1) val
      end
  end.

Definition isLeap (year : Z) : bool :=
  (year mod 4 =? 0) && (negb (year mod 100 =? 0) || (year mod 400 =? 0)).

Definition daysIn (m year : Z) : Z :=
  if (m =? 2) && isLeap year then 29
  else if m =? 2 then 28
  else if (m =? 4) || (m =? 6) || (m =? 9) || (m =? 11) then 30
  else 31.

(** The fields [parse] fills in while it walks the layout; month and day
    start at [-1], the year at [0]. *)
Record fields := mkFields { fYear : Z; fMonth : Z; fDay : Z }.

Fixpoint parseChunks (l : list chunk) (f : fields) (value : string)
  : option fields :=
  match l with
  | [] =>
      match value with
      | EmptyString => Some f          (* else: extra text *)
      | _ => None
      end
  | stdLongYear :: l' =>
      match getyear value with
      | Some (y, r) => parseChunks l' (mkFields y (fMonth f) (fDay f)) r
      | None => None
      end
  | stdZeroMonth :: l' =>
      match getnum2 value with
      | Some (m, r) =>
          if (m <=? 0) || (12 <? m) then None      (* month out of range *)
          else parseChunks l' (mkFields (fYear f) m (fDay f)) r
      | None => None
      end
  | stdMonth :: l' =>
      match lookup shortMonthNames 1 value with
      | Some (m, r) => parseChunks l' (mkFields (fYear f) m (fDay f)) r
      | None => None
      end
  | stdZeroDay :: l' =>
      match getnum2 value with
      | Some (d, r) => parseChunks l' (mkFields (fYear f) (fMonth f) d) r
      | None => None
      end
  | literal p :: l' =>
      match cutPrefix p value with
      | Some r => parseChunks l' f r
      | None => None
      end
  end.

(** [time.Parse(layout, value)]; [None] is the [*ParseError]. *)
Definition Parse (layout : list chunk) (value : string) : option Time :=
  match parseChunks layout (mkFields 0 (-1) (-1)) value with
  | None => None
  | Some f =>
      let month := if fMonth f <? 0 then 1 else fMonth f in
      let day := if fDay f <? 0 then 1 else fDay f in
      if (day <? 1) || (daysIn month (fYear f) <? day) then None
      else Some (mkTime (fYear f) month day)
  end.

(** The dates [time.Parse] returns for the program's layouts: a four-digit
    year and a day that exists in its month. *)
Definition validDate (t : Time) : Prop :=
  0 <= Year t <= 9999 /\ 1 <= Month t <= 12 /\
  1 <= Day t <= daysIn (Month t) (Year t).

(** [appendInt(b, x, width)] for a non-negative [x] below [10^width]. *)
Definition pad2 (x : Z) : string :=
  String (digitChar (x / 10 mod 10)) (String (digitChar (x mod 10)) "").

Definition pad4 (x : Z) : string :=
  String (digitChar (x / 1000 mod 10))
    (String (digitChar (x / 100 mod 10)) (pad2 x)).

(** [t.Format("2006-01-02")] *)
Definition Format_2006_01_02 (t : Time) : string :=
  pad4 (Year t) ++ "-" ++ pad2 (Month t) ++ "-" ++ pad2 (Day t).

(** [t1.Before(t2)] on the dates two parsed times denote. *)
Definition before (t1 t2 : Time) : bool :=
  (Year t1 <? Year t2)
  || ((Year t1 =? Year t2)
      && ((Month t1 <? Month t2)
          || ((Month t1 =? Month t2) && (Day t1 <? Day t2)))).

(** The abbreviation of month [m] (from 1) in [shortMonthNames]. *)
Definition shortMonthName (m : Z) : string :=
  nth (Z.to_nat (m - 1)) shortMonthNames EmptyString.

End time.

(** ** regexp: the five expressions of the updater

    Each expression is a fixed pattern over ASCII bytes in which every
    repetition is followed by a byte outside its class, so the leftmost-first
    match Go's engine reports is found by one scan. *)
Module regexp.
Import GoStrings.

(** The first position of [s], from the left, at which [m] matches. *)
Fixpoint findFirst {A : Type} (m : string -> option A) (s : string)
  : option A :=
  match m s with
  | Some a => Some a
  | None =>
      match s with
      | EmptyString => None
      | String _ s' => findFirst m s'
      end
  end.

(** [\d{n}] at the head of [s]: the [n] digits and the rest. *)
Fixpoint digitsN (n : nat) (s : string) : option (string * string) :=
  match n with
  | O => Some (EmptyString, s)
  | S n' =>
      match s with
      | String c s' =>
          if isDigit c then
            match digitsN n' s' with
            | Some (d, r) => Some (String c d, r)
            | None => None
            end
          else None
      | EmptyString => None
      end
  end.

(** [\d{1,2}], greedy. *)
Definition digits12 (s : string) : option (string * string) :=
  match s with
  | String a (String b r) =>
      if isDigit a then
        if isDigit b then Some (String a (String b ""), r)
        else Some (String a "", String b r)
      else None
  | String a EmptyString =>
      if isDigit a then Some (String a "", EmptyString) else None
  | EmptyString => None
  end.

Fixpoint skipSpaces (s : string) : string :=
  match s with
  | String c s' => if isSpace c then skipSpaces s' else s
  | EmptyString => EmptyString
  end.

(** [\s+], greedy. *)
Definition spaces1 (s : string) : option string :=
  match s with
  | String c s' => if isSpace c then Some (skipSpaces s') else None
  | EmptyString => None
  end.

(** [>(\d+)<] with [FindAllStringSubmatch(s, -1)]: the first groups of the
    successive non-overlapping matches.  [open] holds the digits read since
    a [>] that may still start a match. *)
Fixpoint gtDigitsLt_scan (open : option string) (s : string) : list string :=
  match s with
  | EmptyString => []
  | String c s' =>
      if Ascii.eqb c ">" then gtDigitsLt_scan (Some EmptyString) s'
      else
        match open with
        | None => gtDigitsLt_scan None s'
        | Some ds =>
            if isDigit c then gtDigitsLt_scan (Some (ds ++ String c "")) s'
            else if Ascii.eqb c "<" then
              match ds with
              | EmptyString => gtDigitsLt_scan None s'
              | _ => ds :: gtDigitsLt_scan None s'
              end
            else gtDigitsLt_scan None s'
        end
  end.

Definition gtDigitsLt_FindAll (s : string) : list string :=
  gtDigitsLt_scan None s.

(** [\d{2}SEP\d{2}SEP\d{4}] at the head of [s]: the matched text and the
    rest. *)
Definition datePattern (sep : ascii) (s : string) : option (string * string) :=
  match digitsN 2 s with
  | Some (d, String c1 r1) =>
      if Ascii.eqb c1 sep then
        match digitsN 2 r1 with
        | Some (m, String c2 r2) =>
            if Ascii.eqb c2 sep then
              match digitsN 4 r2 with
              | Some (y, r3) =>
                  Some (d ++ String sep m ++ String sep y, r3)
              | None => None
              end
            else None
        | _ => None
        end
      else None
  | _ => None
  end.

(** [Data do Sorteio - (\d{2}\/\d{2}\/\d{4})] with [FindStringSubmatch]:
    the first group of the leftmost match. *)
Definition dataDoSorteio_Find (s : string) : option string :=
  findFirst (fun t =>
    match cutPrefix "Data do Sorteio - " t with
    | Some r =>
        match datePattern "/" r with
        | Some (g, _) => Some g
        | None => None
        end
    | None => None
    end) s.

(** [<span>(\d{2}\.\d{2}\.\d{4})</span>] with [FindStringSubmatch]. *)
Definition spanDate_Find (s : string) : option string :=
  findFirst (fun t =>
    match cutPrefix "<span>" t with
    | Some r =>
        match datePattern "." r with
        | Some (g, r') =>
            match cutPrefix "</span>" r' with
            | Some _ => Some g
            | None => None
            end
        | None => None
        end
    | None => None
    end) s.

(** [(\d{1,2})\s+] *)
Definition numThenSpaces (s : string) : option (string * string) :=
  match digits12 s with
  | Some (d, r) =>
      match spaces1 r with
      | Some r' => Some (d, r')
      | None => None
      end
  | None => None
  end.

(** [<li>(\d{1,2})\s+(\d{1,2})\s+(\d{1,2})\s+(\d{1,2})\s+(\d{1,2})\s+\+\s+(\d{1,2})\s+(\d{1,2})]
    at the head of [s]: the seven groups. *)
Definition liNumbers_here (s : string) : option (list string) :=
  match cutPrefix "<li>" s with
  | None => None
  | Some r0 =>
  match numThenSpaces r0 with None => None | Some (g1, r1) =>
  match numThenSpaces r1 with None => None | Some (g2, r2) =>
  match numThenSpaces r2 with None => None | Some (g3, r3) =>
  match numThenSpaces r3 with None => None | Some (g4, r4) =>
  match numThenSpaces r4 with None => None | Some (g5, r5) =>
  match cutPrefix "+" r5 with None => None | Some r6 =>
  match spaces1 r6 with None => None | Some r7 =>
  match numThenSpaces r7 with None => None | Some (g6, r8) =>
  match digits12 r8 with None => None | Some (g7, _) =>
    Some [g1; g2; g3; g4; g5; g6; g7]
  end end end end end end end end end
  end.

(** The first element of [FindAllStringSubmatch(s, -1)] for that
    expression (its groups 1 to 7), the only one the updater consults;
    [None] when the result is empty. *)
Definition liNumbers_FindFirst (s : string) : option (list string) :=
  findFirst liNumbers_here s.

End regexp.

(** ** encoding/csv: [Reader.Read] with the default settings *)
Module csv.
Import GoStrings.

Inductive csvError := ErrBareQuote | ErrQuote | ErrFieldCount.

Inductive readResult :=
| Record_ (record : list string) (rest : string)
| EOF
| ParseError (e : csvError).

Inductive state := StartRecord | StartField | InField | InQuoted | QuoteSeen.

(** One record, read byte by byte.  A carriage return before a line feed,
    or before the end of the input, is dropped (so [\r\n] reads as [\n]);
    empty lines before a record are skipped; a field that opens with a
    quote runs to the closing quote, across lines, with a doubled quote
    standing for one. *)
Fixpoint readRecord (st : state) (done : list string) (field : string)
    (s : string) : readResult :=
  match s with
  | EmptyString =>
      match st with
      | StartRecord => EOF
      | StartField => Record_ (done ++ [EmptyString]) EmptyString
      | InField | QuoteSeen => Record_ (done ++ [field]) EmptyString
      | InQuoted => ParseError ErrQuote
      end
  | String c s' =>
      let dropped :=
        Ascii.eqb c "013" &&
        match s' with
        | EmptyString => true
        | String c' _ => Ascii.eqb c' "010"
        end in
      if dropped then readRecord st done field s'
      else
        let newline := Ascii.eqb c "010" in
        let comma := Ascii.eqb c "," in
        let quote := Ascii.eqb c "034" in
        match st with
        | StartRecord =>
            if newline then readRecord StartRecord done field s'
            else if quote then readRecord InQuoted done EmptyString s'
            else if comma then readRecord StartField (done ++ [EmptyString]) EmptyString s'
            else readRecord InField done (String c "") s'
        | StartField =>
            if newline then Record_ (done ++ [EmptyString]) s'
            else if quote then readRecord InQuoted done EmptyString s'
            else if comma then readRecord StartField (done ++ [EmptyString]) EmptyString s'
            else readRecord InField done (String c "") s'
        | InField =>
            if newline then Record_ (done ++ [field]) s'
            else if comma then readRecord StartField (done ++ [field]) EmptyString s'
            else if quote then ParseError ErrBareQuote
            else readRecord InField done (field ++ String c "") s'
        | InQuoted =>
            if quote then readRecord QuoteSeen done field s'
            else readRecord InQuoted done (field ++ String c "") s'
        | QuoteSeen =>
            if quote then readRecord InQuoted done (field ++ String c "") s'
            else if comma then readRecord StartField (done ++ [field]) EmptyString s'
            else if newline then Record_ (done ++ [field]) s'
            else ParseError ErrQuote
        end
  end.

(** The reader: what is left of the input, and [FieldsPerRecord] ([0]
    until the first record sets it). *)
Record Reader := mkReader { input : string; FieldsPerRecord : Z }.

Definition NewReader (data : string) : Reader := mkReader data 0.

Inductive ReadOutcome :=
| Ok (record : list string)
| Err_EOF
| Err_Parse (e : csvError).

(** [r.Read()] *)
Definition Read (r : Reader) : ReadOutcome * Reader :=
  match readRecord StartRecord [] EmptyString (input r) with
  | EOF => (Err_EOF, mkReader EmptyString (FieldsPerRecord r))
  | ParseError e => (Err_Parse e, mkReader EmptyString (FieldsPerRecord r))
  | Record_ rec rest =>
      let n := Z.of_nat (List.length rec) in
      if FieldsPerRecord r =? 0 then (Ok rec, mkReader rest n)
      else if n =? FieldsPerRecord r then (Ok rec, mkReader rest (FieldsPerRecord r))
      else (Err_Parse ErrFieldCount, mkReader rest (FieldsPerRecord r))
  end.

(** A byte that stands for itself in a field: no comma, no quotation mark,
    no carriage return, no line feed. *)
Definition plainByte (c : ascii) : bool :=
  negb (Ascii.eqb c "," || Ascii.eqb c "034" || Ascii.eqb c "013"
        || Ascii.eqb c "010").

Fixpoint plainField (f : string) : bool :=
  match f with
  | EmptyString => true
  | String c f' => plainByte c && plainField f'
  end.

(** A record written on one line: the fields joined by commas, then a line
    feed. *)
Definition line (fields : list string) : string :=
  String.concat "," fields ++ String "010" EmptyString.

End csv.

(* ================================================================== *)
(** * The store                                                        *)
(* ================================================================== *)

Module Store.
Import GoStrings.

(** Modelled from the spec: the schema of the [results] table, which is
    created outside the repository: "a single table of draws keyed by
    unique date, with five main-number columns and two star-number
    columns, all integers".  The columns carry the names the program's SQL
    statements use; the date is the text the updater binds. *)
Record Row := mkRow {
  date : string;
  number_1 : Z; number_2 : Z; number_3 : Z; number_4 : Z; number_5 : Z;
  star_1 : Z; star_2 : Z
}.

(** The database file [sql.Open] is pointed at: it holds the [results]
    table, with its rows in insertion order, or it does not (a fresh or
    foreign file), and then every statement on the table fails. *)
Inductive DB :=
| NoTable
| Table (rows : list Row).

Inductive sqlError :=
| ErrNoRows              (* sql.ErrNoRows *)
| NoSuchTable
| UniqueConstraint       (* the date is already stored *)
| DatatypeMismatch.      (* a bound text is not an integer *)

(** [SELECT date FROM results ORDER BY date DESC LIMIT 1]: the greatest
    stored date in byte order. *)
Definition laterDate (acc : option string) (r : Row) : option string :=
  match acc with
  | None => Some (date r)
  | Some m => if (m <? date r)%string then Some (date r) else Some m
  end.

Definition latestDate (rows : list Row) : option string :=
  fold_left laterDate rows None.

Definition selectLatestDate (d : DB) : sqlError + string :=
  match d with
  | NoTable => inl NoSuchTable
  | Table rows =>
      match latestDate rows with
      | None => inl ErrNoRows
      | Some m => inr m
      end
  end.

(** Modelled from the spec: the value an integer column takes from a text
    the updater binds.  The text is stored as the integer it spells (an
    optional sign and decimal digits, within 64 bits); a table whose
    number columns are "all integers" takes no other text. *)
Definition integerOfText (text : string) : option Z := strconv.Atoi text.

Fixpoint hasDate (d : string) (rows : list Row) : bool :=
  match rows with
  | [] => false
  | r :: rows' => (date r =? d)%string || hasDate d rows'
  end.

(** Modelled from the spec: what the table does with
    [INSERT INTO results (date, number_1, ..., star_2) VALUES (?, ..., ?)]
    and the eight bound texts, taken in the order of the column list: "the
    store enforces date uniqueness, and a duplicate-date attempt is
    reported", "inserts are append-only", and the number columns take the
    integers the texts spell. *)
Definition insertRow (rows : list Row) (d n1 n2 n3 n4 n5 s1 s2 : string)
  : sqlError + list Row :=
  match integerOfText n1, integerOfText n2, integerOfText n3,
        integerOfText n4, integerOfText n5,
        integerOfText s1, integerOfText s2 with
  | Some v1, Some v2, Some v3, Some v4, Some v5, Some w1, Some w2 =>
      if hasDate d rows then inl UniqueConstraint
      else inr (rows ++ [mkRow d v1 v2 v3 v4 v5 w1 w2])%list
  | _, _, _, _, _, _, _ => inl DatatypeMismatch
  end.

(** [SELECT ... FROM results WHERE date = ?] read with [QueryRow]: the
    first stored row of that date. *)
Fixpoint selectByDate (d : string) (rows : list Row) : option Row :=
  match rows with
  | [] => None
  | r :: rows' => if (date r =? d)%string then Some r else selectByDate d rows'
  end.

(** [ORDER BY date DESC]: an insertion sort, latest date first (the order
    among rows of one date, which the unique date excludes, is left open by
    the statement). *)
Fixpoint insertDesc (r : Row) (sorted : list Row) : list Row :=
  match sorted with
  | [] => [r]
  | x :: sorted' =>
      if (date x <? date r)%string then r :: x :: sorted'
      else x :: insertDesc r sorted'
  end.

Definition orderByDateDesc (rows : list Row) : list Row :=
  fold_right insertDesc [] rows.

(** [SELECT date, number_1, ... FROM results ORDER BY date DESC LIMIT 1]:
    the first row in that order. *)
Definition selectLatestRow (rows : list Row) : option Row :=
  hd_error (orderByDateDesc rows).

(** No two rows of one date. *)
Definition uniqueDates (rows : list Row) : Prop := NoDup (map date rows).

(** Rows whose dates go strictly up in byte order, the first one above
    [c]. *)
Fixpoint ascendingFrom (c : string) (rows : list Row) : Prop :=
  match rows with
  | [] => True
  | r :: rows' => (c <? date r)%string = true /\ ascendingFrom (date r) rows'
  end.

(** Latest date first: no row is followed by a row of a later date. *)
Definition notBefore (a b : Row) : Prop := (date a <? date b)%string = false.

End Store.

(* ================================================================== *)
(** * go-euromillions-api-update.go                                    *)
(* ================================================================== *)

Module Update.
Import GoStrings Store.

(** The [error] values the updater builds with [fmt.Errorf], one
    constructor per call site, carrying the arguments of the format; and
    the errors of the libraries they wrap. *)
Inductive error :=
| transportError (url : string)                 (* net/http *)
| time_ParseError (value : string)              (* time *)
| csv_ParseError (e : csv.csvError)             (* encoding/csv *)
| io_EOF
| strconv_NumError (s : string)                 (* strconv *)
| sql_Error (e : sqlError)                      (* database/sql *)
| database_query_error (cause : error)
| failed_to_fetch_page (cause : error)
| date_parsing_error (cause : error)
| could_not_find_the_date
| error_parsing_date_from_website (cause : error)
| expected_7_numbers_found (n : Z)
| could_not_find_the_numbers_section
| invalid_number_of_results (got : Z)
| failed_to_fetch_CSV (cause : error)
| failed_to_read_CSV_header (cause : error)
| no_data_found_in_CSV
| failed_to_read_CSV_record (cause : error)
| invalid_CSV_format (columns : Z)
| invalid_number_at_position (position : Z) (num : string)
| unsupported_site_ID (siteID : Z)
| failed_to_prepare_SQL_statement (cause : error)
| failed_to_execute_SQL_statement (cause : error).

(** The lines the updater writes with the [log] package, one constructor
    per call site ([Usage] stands for the text [flag.Usage] prints). *)
Inductive LogEvent :=
| Fetching_URL (url : string)
| Fetching_CSV_from_URL (url : string)
| Executing_option_for_Site_ID (siteID : Z)
| Last_date_in_database (oldDate : string)
| Raw_HTML_snippet_for_date_search (dateSection : string)
| Raw_HTML_snippet_for_numbers_search (numSection : string)
| Numbers_found_by_regex (matches : list string)
| Exiting_the_date_is_the_same (newDate : string)
| OK_New_date (newDate : string)
| Numbers (numbers : list string)
| Data_inserted_successfully
| Exiting_the_old_date_is_more_recent
| Error_processing_site (id : Z) (err : error)
| Fatal (err : error)
| Fatal_Invalid_site_ID (err : error)
| Usage.

(** What the outside answers during one attempt: the body each GET
    returns, or [None] when the exchange fails (network error, timeout).
    [getWebPage] and [getCSV] send different headers (a User-Agent drawn
    from [userAgents], and a Referer for pages), so each has its own
    view. *)
Record World := mkWorld {
  webPage : string -> option string;
  csvFile : string -> option string
}.

(** The state the updater acts on: the database and the log written so
    far. *)
Record St := mkSt { db : DB; logged : list LogEvent }.

(** Computations that read and write that state and may return an
    [error]. *)
Definition M (A : Type) : Type := St -> (error + A) * St.

Definition ret {A} (a : A) : M A := fun st => (inr a, st).
Definition fail {A} (e : error) : M A := fun st => (inl e, st).
Definition bind {A B} (m : M A) (k : A -> M B) : M B :=
  fun st =>
    match m st with
    | (inl e, st') => (inl e, st')
    | (inr a, st') => k a st'
    end.

Declare Scope go_scope.
Delimit Scope go_scope with go.
Notation "x <- m ;; k" := (bind m (fun x => k))
  (at level 61, m at next level, right associativity) : go_scope.
Notation "' p <- m ;; k" := (bind m (fun x => match x with p => k end))
  (at level 61, p pattern, m at next level, right associativity) : go_scope.
Notation "m ;; k" := (bind m (fun _ => k))
  (at level 61, right associativity) : go_scope.
Local Open Scope go_scope.

(** [log.Printf] / [log.Println] *)
Definition logPrint (ev : LogEvent) : M unit :=
  fun st => (inr tt, mkSt (db st) (logged st ++ [ev])%list).

(** [val, err := f(); if err != nil { return wrap(err) }] for a library
    call that touches no state. *)
Definition orReturn {A} (r : option A) (e : error) : M A :=
  match r with
  | Some a => ret a
  | None => fail e
  end.

(** The quotation mark of the HTML attributes the updater looks for. *)
Definition q : string := String "034" EmptyString.

Definition getBetween (s start end_ : string) : string :=
  match Index s start with
  | None => EmptyString
  | Some initialPos =>
      let initialPos := (initialPos + String.length start)%nat in
      match Index (sliceFrom s initialPos) end_ with
      | None => EmptyString
      | Some endPos => slice s initialPos (initialPos + endPos)
      end
  end.

(** [for i, num := range numbers { if _, err := strconv.Atoi(num); ... }] *)
Fixpoint checkNumbers (i : Z) (numbers : list string) : M unit :=
  match numbers with
  | [] => ret tt
  | num :: rest =>
      match strconv.Atoi num with
      | None => fail (invalid_number_at_position (i + 1) num)
      | Some _ => checkNumbers (i + 1) rest
      end
  end.

Section Attempt.

Variable verboseFlag : bool.
Variable world : World.

Definition logVerbose (ev : LogEvent) : M unit :=
  if verboseFlag then logPrint ev else ret tt.

Definition getWebPage (url : string) : M string :=
  logVerbose (Fetching_URL url) ;;
  orReturn (webPage world url) (transportError url).

Definition getCSV (url : string) : M string :=
  logVerbose (Fetching_CSV_from_URL url) ;;
  orReturn (csvFile world url) (transportError url).

(** [fmt.Errorf("...: %v", err)] around a failed call *)
Definition wrapping {A} (wrap : error -> error) (m : M A) : M A :=
  fun st =>
    match m st with
    | (inl e, st') => (inl (wrap e), st')
    | ok => ok
    end.

(** [db.QueryRow("SELECT date FROM results ORDER BY date DESC LIMIT 1").Scan(&oldDate)]
    and the test on its error: no row leaves [oldDate] empty. *)
Definition queryOldDate : M string :=
  fun st =>
    match selectLatestDate (db st) with
    | inr d => (inr d, st)
    | inl ErrNoRows => (inr EmptyString, st)
    | inl e => (inl (database_query_error (sql_Error e)), st)
    end.

(** [db.Prepare("INSERT INTO results ...")] *)
Definition prepareInsert : M unit :=
  fun st =>
    match db st with
    | NoTable => (inl (failed_to_prepare_SQL_statement (sql_Error NoSuchTable)), st)
    | Table _ => (inr tt, st)
    end.

(** [stmt.Exec(newDate, numbers[0], ..., numbers[6])] *)
Definition execInsert (newDate n0 n1 n2 n3 n4 n5 n6 : string) : M unit :=
  fun st =>
    match db st with
    | NoTable => (inl (failed_to_execute_SQL_statement (sql_Error NoSuchTable)), st)
    | Table rows =>
        match insertRow rows newDate n0 n1 n2 n3 n4 n5 n6 with
        | inl e => (inl (failed_to_execute_SQL_statement (sql_Error e)), st)
        | inr rows' => (inr tt, mkSt (Table rows') (logged st))
        end
    end.

(** [case 1] of the [switch]: the date and the captured numbers. *)
Definition case1 : M (string * list string) :=
  let url := "https://www.euromilhoes.com/" in
  response <- wrapping failed_to_fetch_page (getWebPage url) ;;
  let full := getBetween response "last-results-container" "selector-wrapper" in
  let dataStr := getBetween full "<span>" "</span>" in
  t <- orReturn (time.Parse time.layout_02_01_2006_dots dataStr)
         (date_parsing_error (time_ParseError dataStr)) ;;
  let newDate := time.Format_2006_01_02 t in
  let numFull := getBetween full ("<ul class=" ++ q ++ "results" ++ q ++ ">") "</ul>" in
  let numbers := regexp.gtDigitsLt_FindAll numFull in
  ret (newDate, numbers).

Definition case2 : M (string * list string) :=
  let url := "https://www.euro-millions.com/results" in
  response <- wrapping failed_to_fetch_page (getWebPage url) ;;
  let full := getBetween response ("<ul class=" ++ q ++ "balls" ++ q ++ ">") "</ul>" in
  let dataStr := getBetween response ("<li><a href=" ++ q ++ "/results/") q in
  t <- orReturn (time.Parse time.layout_02_01_2006_dashes dataStr)
         (date_parsing_error (time_ParseError dataStr)) ;;
  let newDate := time.Format_2006_01_02 t in
  let numbers := regexp.gtDigitsLt_FindAll full in
  ret (newDate, numbers).

Definition case3 : M (string * list string) :=
  let url := "https://www.jogossantacasa.pt/web/SCCartazResult/" in
  response <- wrapping failed_to_fetch_page (getWebPage url) ;;
  dataStr <- orReturn (regexp.dataDoSorteio_Find response)
               could_not_find_the_date ;;
  t <- orReturn (time.Parse time.layout_02_01_2006_slashes dataStr)
         (error_parsing_date_from_website (time_ParseError dataStr)) ;;
  let newDate := time.Format_2006_01_02 t in
  numbers <- orReturn (regexp.liNumbers_FindFirst response)
               (expected_7_numbers_found 0) ;;
  ret (newDate, numbers).

Definition case4 : M (string * list string) :=
  let url := "https://www.euromilhoes.com/" in
  response <- wrapping failed_to_fetch_page (getWebPage url) ;;
  let dateSection :=
    getBetween response ("<section class=" ++ q ++ "last-results" ++ q ++ ">") "</section>" in
  logVerbose (Raw_HTML_snippet_for_date_search dateSection) ;;
  dataStr <- orReturn (regexp.spanDate_Find dateSection)
               could_not_find_the_date ;;
  t <- orReturn (time.Parse time.layout_02_01_2006_dots dataStr)
         (date_parsing_error (time_ParseError dataStr)) ;;
  let newDate := time.Format_2006_01_02 t in
  let numSection :=
    getBetween response ("<ul class=" ++ q ++ "results" ++ q ++ ">") "</ul>" in
  if (numSection =? EmptyString)%string then fail could_not_find_the_numbers_section
  else
    logVerbose (Raw_HTML_snippet_for_numbers_search numSection) ;;
    let matches := regexp.gtDigitsLt_FindAll numSection in
    logVerbose (Numbers_found_by_regex matches) ;;
    if Z.of_nat (List.length matches) <? 7
    then fail (invalid_number_of_results (Z.of_nat (List.length matches)))
    else ret (newDate, matches).

Definition case5 : M (string * list string) :=
  let url := "https://www.national-lottery.co.uk/results/euromillions/draw-history/csv" in
  csvData <- wrapping failed_to_fetch_CSV (getCSV url) ;;
  let r := csv.NewReader csvData in
  let '(header, r) := csv.Read r in
  match header with
  | csv.Err_EOF => fail (failed_to_read_CSV_header io_EOF)
  | csv.Err_Parse e => fail (failed_to_read_CSV_header (csv_ParseError e))
  | csv.Ok _ =>
      let '(second, r) := csv.Read r in
      match second with
      | csv.Err_EOF => fail no_data_found_in_CSV
      | csv.Err_Parse e => fail (failed_to_read_CSV_record (csv_ParseError e))
      | csv.Ok record =>
          match record with
          | r0 :: r1 :: r2 :: r3 :: r4 :: r5 :: r6 :: r7 :: _ =>
              t <- orReturn (time.Parse time.layout_02_Jan_2006 r0)
                     (date_parsing_error (time_ParseError r0)) ;;
              let newDate := time.Format_2006_01_02 t in
              let numbers := [r1; r2; r3; r4; r5; r6; r7] in
              checkNumbers 0 numbers ;;
              ret (newDate, numbers)
          | _ => fail (invalid_CSV_format (Z.of_nat (List.length record)))
          end
      end
  end.

(** The [switch siteID] statement: what it leaves in [newDate] and
    [numbers]. *)
Definition switch_siteID (siteID : Z) : M (string * list string) :=
  match siteID with
  | 1 => case1
  | 2 => case2
  | 3 => case3
  | 4 => case4
  | 5 => case5
  | _ => fail (unsupported_site_ID siteID)
  end.

(** The statements after the [switch]: the comparison with the latest
    stored date and the insertion. *)
Definition compareAndInsert (oldDate newDate : string) (numbers : list string)
  : M unit :=
  if (newDate =? oldDate)%string then
    logPrint (Exiting_the_date_is_the_same newDate) ;;
    ret tt
  else if (oldDate <? newDate)%string then
    logPrint (OK_New_date newDate) ;;
    logPrint (Numbers numbers) ;;
    match numbers with
    | [n0; n1; n2; n3; n4; n5; n6] =>
        prepareInsert ;;
        execInsert newDate n0 n1 n2 n3 n4 n5 n6 ;;
        logPrint Data_inserted_successfully ;;
        ret tt
    | _ => fail (invalid_number_of_results (Z.of_nat (List.length numbers)))
    end
  else
    logPrint Exiting_the_old_date_is_more_recent ;;
    ret tt.

Definition runUpdate (siteID : Z) : M unit :=
  logPrint (Executing_option_for_Site_ID siteID) ;;
  oldDate <- queryOldDate ;;
  logVerbose (Last_date_in_database oldDate) ;;
  ' (newDate, numbers) <- switch_siteID siteID ;;
  compareAndInsert oldDate newDate numbers.

End Attempt.

(** The state a source is read from does not matter to what is read: the
    [switch] only logs.  [extraction] is what it leaves in [newDate] and
    [numbers] (or the error it returns), [extractionLog] what it logs. *)
Definition st0 : St := mkSt NoTable [].

Definition extraction (verbose : bool) (w : World) (siteID : Z)
  : error + (string * list string) :=
  fst (switch_siteID verbose w siteID st0).

Definition extractionLog (verbose : bool) (w : World) (siteID : Z)
  : list LogEvent :=
  logged (snd (switch_siteID verbose w siteID st0)).

(** The value [oldDate] holds after the query: the latest stored date, or
    the empty string when the table has no row. *)
Definition cursor (rows : list Row) : string :=
  match latestDate rows with
  | Some m => m
  | None => EmptyString
  end.

(** The sources on which an attempt was started, in the order of the
    log. *)
Fixpoint attempted (l : list LogEvent) : list Z :=
  match l with
  | [] => []
  | Executing_option_for_Site_ID id :: l' => id :: attempted l'
  | _ :: l' => attempted l'
  end.

(** A computation that only logs: it returns the same value and appends
    the same lines from every state, leaves the database alone and starts
    no attempt. *)
Definition onlyLogs {A : Type} (m : M A) : Prop :=
  attempted (logged (snd (m st0))) = [] /\
  forall st,
    m st = (fst (m st0), mkSt (db st) (logged st ++ logged (snd (m st0)))%list).

(** The lines an attempt logs before the comparison. *)
Definition entryLog (verbose : bool) (w : World) (siteID : Z) (oldDate : string)
  : list LogEvent :=
  ([Executing_option_for_Site_ID siteID]
   ++ (if verbose then [Last_date_in_database oldDate] else [])
   ++ extractionLog verbose w siteID)%list.

(** The number of stored rows of a date. *)
Fixpoint countDate (d : string) (rows : list Row) : nat :=
  match rows with
  | [] => O
  | r :: rows' =>
      if (date r =? d)%string then S (countDate d rows') else countDate d rows'
  end.

(** The command line, after [flag.Parse]. *)
Record Flags := mkFlags {
  databasePath : string;
  siteIDStr : string;
  verboseFlag : bool;
  outputFile : string
}.

(** The body of [for _, id := range sitesToUpdate]: an error is logged and
    the loop goes on (the pause between two sources changes no state). *)
Definition updateSite (verbose : bool) (web : Z -> World) (id : Z) (st : St)
  : St :=
  match runUpdate verbose (web id) id st with
  | (inl err, st') =>
      mkSt (db st') (logged st' ++ [Error_processing_site id err])%list
  | (inr _, st') => st'
  end.

Fixpoint updateSites (verbose : bool) (web : Z -> World) (ids : list Z)
    (st : St) : St :=
  match ids with
  | [] => st
  | id :: ids' => updateSites verbose web ids' (updateSite verbose web id st)
  end.

Definition sitesToUpdate : list Z := [1; 2; 3; 4; 5].

(** [main] once [flag.Parse] has accepted the command line, with the log
    file, when one is named, open: the exit status of the process and the
    state it leaves.  [web id] is what the outside answers during the
    attempt on source [id]; [st] holds the database found at
    [databasePath].  Where the log goes ([outputFile]) does not change what
    is logged.  The two ways the process can end before that are in
    [process] below. *)
Definition main (flags : Flags) (web : Z -> World) (st : St) : Z * St :=
  if (databasePath flags =? EmptyString)%string
     || (siteIDStr flags =? EmptyString)%string
  then (1, mkSt (db st) (logged st ++ [Usage])%list)
  else if (siteIDStr flags =? "all")%string then
    (0, updateSites (verboseFlag flags) web sitesToUpdate st)
  else
    match strconv.Atoi (siteIDStr flags) with
    | None =>
        (1, mkSt (db st)
              (logged st ++ [Fatal_Invalid_site_ID (strconv_NumError (siteIDStr flags))])%list)
    | Some siteID =>
        match runUpdate (verboseFlag flags) (web siteID) siteID st with
        | (inl err, st') => (1, mkSt (db st') (logged st' ++ [Fatal err])%list)
        | (inr _, st') => (0, st')
        end
    end.

(** What [flag.Parse()] at the head of [main] makes of the arguments.  The
    flags are those of the default flag set, whose error handling is
    [flag.ExitOnError]: on [-h] or [-help], which the program does not
    define, the flag package prints the usage and ends the process with
    status 0 (Go 1.15 and later); on arguments it refuses it ends the
    process with status 2; otherwise [main] goes on with the flags set. *)
Inductive CommandLine :=
| ErrHelp
| Refused
| Parsed (flags : Flags).

(** The process from its start: the exit status and the table it leaves.
    [logFileOpens] tells whether [os.OpenFile(outputFile, ...)] succeeds;
    when it does not, [log.Fatalf] ends the process with status 1 before
    any source is attempted.  [sql.Open] only records the path, and with
    the driver the program imports it returns no error.  What follows is
    [main] above. *)
Definition process (cl : CommandLine) (logFileOpens : bool)
    (web : Z -> World) (st : St) : Z * DB :=
  match cl with
  | ErrHelp => (0, db st)
  | Refused => (2, db st)
  | Parsed flags =>
      if (databasePath flags =? EmptyString)%string
         || (siteIDStr flags =? EmptyString)%string
      then (1, db st)
      else if negb (outputFile flags =? EmptyString)%string && negb logFileOpens
      then (1, db st)
      else (fst (main flags web st), db (snd (main flags web st)))
  end.

(** The sources [main] runs an attempt on: all five, the one selected, or
    none when the command line is refused. *)
Definition sitesSelected (flags : Flags) : list Z :=
  if (databasePath flags =? EmptyString)%string
     || (siteIDStr flags =? EmptyString)%string
  then []
  else if (siteIDStr flags =? "all")%string then sitesToUpdate
  else
    match strconv.Atoi (siteIDStr flags) with
    | Some siteID => [siteID]
    | None => []
    end.

(** A source has nothing to add to a table when an attempt on it leaves
    the table as it is. *)
Definition settled (verbose : bool) (w : World) (siteID : Z) (rows : list Row)
  : Prop :=
  forall l,
    db (snd (runUpdate verbose w siteID (mkSt (Table rows) l))) = Table rows.

End Update.

(* ================================================================== *)
(** * go-euromillions-api.go: the handlers that serve stored draws     *)
(* ================================================================== *)

(** The handlers for the list of all draws and for one date, and
    [sendResponse]; the request lines the service logs when [verbose] is
    set are left out. *)
Module Api.
Import GoStrings Store.

Record Result := mkResult {
  Date : string;
  Numbers : list Z;
  Stars : list Z
}.

(** The XML root element [<results>] around the [<result>] elements. *)
Record AllResults := mkAllResults { Results : list Result }.

(** One line of the plain text format. *)
Record PlainLine := mkPlainLine {
  lineDate : string;
  lineNumbers : Z * Z * Z * Z * Z;
  lineStars : Z * Z
}.

(** What a handler writes: the value handed to the JSON or XML encoder,
    the plain text lines, or the text of [http.Error]. *)
Inductive Body :=
| json_Result (v : Result)              (* json.NewEncoder(w).Encode(results[0]) *)
| json_Results (v : list Result)        (* json.NewEncoder(w).Encode(results) *)
| xml_Result (v : Result)               (* xml.NewEncoder(w).Encode(results[0]) *)
| xml_AllResults (v : AllResults)       (* xml.NewEncoder(w).Encode(allResults) *)
| plaintext (lines : list PlainLine)
| errorText (msg : string)
| panic_index_out_of_range.

Record Response := mkResponse {
  StatusCode : Z;
  ContentType : string;
  body : Body
}.

(** The parts of the request the handlers read: the method, the path and
    the [format] parameter of the query. *)
Record Request := mkRequest {
  Method : string;
  Path : string;
  format : string
}.

Definition http_Error (msg : string) (code : Z) : Response :=
  mkResponse code "text/plain; charset=utf-8" (errorText msg).

Definition StatusOK : Z := 200.
Definition StatusBadRequest : Z := 400.
Definition StatusNotFound : Z := 404.
Definition StatusMethodNotAllowed : Z := 405.
Definition StatusInternalServerError : Z := 500.

(** [rows.Scan(&res.Date, &n1, ..., &s2)] and the two slices built from
    the scanned values. *)
Definition scanRow (r : Row) : Result :=
  mkResult (date r)
    [number_1 r; number_2 r; number_3 r; number_4 r; number_5 r]
    [star_1 r; star_2 r].

Fixpoint plainLines (results : list Result) : option (list PlainLine) :=
  match results with
  | [] => Some []
  | r :: rest =>
      match Numbers r, Stars r with
      | n0 :: n1 :: n2 :: n3 :: n4 :: _, s0 :: s1 :: _ =>
          match plainLines rest with
          | Some ls => Some (mkPlainLine (Date r) (n0, n1, n2, n3, n4) (s0, s1) :: ls)
          | None => None
          end
      | _, _ => None
      end
  end.

Definition sendResponse (r : Request) (results : list Result) : Response :=
  let fmt := ToLower (format r) in
  if (fmt =? "xml")%string then
    match results with
    | [one] => mkResponse StatusOK "application/xml" (xml_Result one)
    | _ => mkResponse StatusOK "application/xml" (xml_AllResults (mkAllResults results))
    end
  else if (fmt =? "plaintext")%string then
    match plainLines results with
    | Some ls => mkResponse StatusOK "text/plain" (plaintext ls)
    | None => mkResponse StatusOK "text/plain" panic_index_out_of_range
    end
  else
    match results with
    | [one] => mkResponse StatusOK "application/json" (json_Result one)
    | _ => mkResponse StatusOK "application/json" (json_Results results)
    end.

Definition getAllResults (d : DB) (r : Request) : Response :=
  match d with
  | NoTable => http_Error "Error querying database" StatusInternalServerError
  | Table rows =>
      let results := map scanRow (orderByDateDesc rows) in
      match results with
      | [] => http_Error "No results found" StatusNotFound
      | _ => sendResponse r results
      end
  end.

Definition resultsHandler (d : DB) (r : Request) : Response :=
  if negb (Method r =? "GET")%string
  then http_Error "Method Not Allowed" StatusMethodNotAllowed
  else getAllResults d r.

Definition dateHandler (d : DB) (r : Request) : Response :=
  if negb (Method r =? "GET")%string
  then http_Error "Method Not Allowed" StatusMethodNotAllowed
  else
    let date := sliceFrom (Path r) (String.length "/results/date/") in
    if (date =? EmptyString)%string
    then http_Error "Date parameter is required (format YYYY-MM-DD)" StatusBadRequest
    else
      match time.Parse time.layout_2006_01_02 date with
      | None => http_Error "Invalid date format (use YYYY-MM-DD)" StatusBadRequest
      | Some _ =>
          match d with
          | NoTable => http_Error "Error querying database" StatusInternalServerError
          | Table rows =>
              match selectByDate date rows with
              | None =>
                  http_Error "No results found for the specified date" StatusNotFound
              | Some row => sendResponse r [scanRow row]
              end
          end
      end.

(** [latestHandler] *)
Definition latestHandler (d : DB) (r : Request) : Response :=
  if negb (Method r =? "GET")%string
  then http_Error "Method Not Allowed" StatusMethodNotAllowed
  else
    match d with
    | NoTable => http_Error "Error querying database" StatusInternalServerError
    | Table rows =>
        match selectLatestRow rows with
        | None => http_Error "No results found" StatusNotFound
        | Some row => sendResponse r [scanRow row]
        end
    end.

(** [http.NotFound(w, r)] *)
Definition http_NotFound : Response :=
  http_Error "404 page not found" StatusNotFound.

(** [defaultHandler] *)
Definition defaultHandler (d : DB) (r : Request) : Response :=
  if negb (Method r =? "GET")%string || negb (Path r =? "/")%string
  then http_NotFound
  else latestHandler d r.

(** The plain text line of a stored row. *)
Definition plainLineOf (r : Row) : PlainLine :=
  mkPlainLine (date r)
    (number_1 r, number_2 r, number_3 r, number_4 r, number_5 r)
    (star_1 r, star_2 r).

End Api.

(* ================================================================== *)
(** * Source content used in the examples                              *)
(* ================================================================== *)

Module Fixtures.
Import Update.

Definition li (n : string) : string := "<li>" ++ n ++ "</li>".

(** A page of source 1 and 4 (one endpoint, two containers). *)
Definition euromilhoes (dateText : string) (nums : list string) : string :=
  "<div class=" ++ q ++ "last-results-container" ++ q ++ ">"
  ++ "<span>" ++ dateText ++ "</span>"
  ++ "<ul class=" ++ q ++ "results" ++ q ++ ">"
  ++ String.concat EmptyString (map li nums) ++ "</ul></div>"
  ++ "<div class=" ++ q ++ "selector-wrapper" ++ q ++ "></div>"
  ++ "<section class=" ++ q ++ "last-results" ++ q ++ ">"
  ++ "<span>" ++ dateText ++ "</span></section>".

(** A page of source 2. *)
Definition euro_millions (dateText : string) (nums : list string) : string :=
  "<li><a href=" ++ q ++ "/results/" ++ dateText ++ q ++ ">latest</a></li>"
  ++ "<ul class=" ++ q ++ "balls" ++ q ++ ">"
  ++ String.concat EmptyString (map li nums) ++ "</ul>".

(** The CSV payload of Scenario B. *)
Definition scenarioB_csv : string :=
  "DrawDate,Ball1,Ball2,Ball3,Ball4,Ball5,Star1,Star2" ++ String "010" EmptyString
  ++ "22-Jan-2024,3,17,22,41,49,5,11" ++ String "010" EmptyString.

Definition offline : World := mkWorld (fun _ => None) (fun _ => None).

Definition serving (url body : string) : World :=
  mkWorld (fun u => if (u =? url)%string then Some body else None)
          (fun u => if (u =? url)%string then Some body else None).

(** The outside answering on two endpoints. *)
Definition servingBoth (urlA bodyA urlB bodyB : string) : World :=
  mkWorld (fun u => if (u =? urlA)%string then Some bodyA
                    else if (u =? urlB)%string then Some bodyB else None)
          (fun _ => None).

Definition url1 : string := "https://www.euromilhoes.com/".
Definition url2 : string := "https://www.euro-millions.com/results".
Definition url5 : string :=
  "https://www.national-lottery.co.uk/results/euromillions/draw-history/csv".

Definition row_2024_01_15 : Store.Row :=
  Store.mkRow "2024-01-15" 1 2 3 4 5 6 7.

Definition seven : list string := ["3"; "17"; "22"; "41"; "49"; "5"; "11"].

(** Scenario C: the endpoint of sources 1 and 4 shows the draw of
    2024-02-05; the other endpoints do not answer. *)
Definition scenarioC_web : Z -> World :=
  fun _ => serving url1 (euromilhoes "05.02.2024" seven).

(** The same run when source 2 is ahead and already shows the draw of
    2024-02-09. *)
Definition source2_ahead_web : Z -> World :=
  fun _ => servingBoth url1 (euromilhoes "05.02.2024" seven)
                       url2 (euro_millions "09-02-2024" seven).

Definition row_2024_02_05 : Store.Row :=
  Store.mkRow "2024-02-05" 3 17 22 41 49 5 11.

Definition row_2024_02_09 : Store.Row :=
  Store.mkRow "2024-02-09" 3 17 22 41 49 5 11.

Definition store_2024_01_15 : St := mkSt (Store.Table [row_2024_01_15]) [].

End Fixtures.

(* ================================================================== *)
(** * Properties of the library models                                 *)
(* ================================================================== *)

Section Digits.
Import GoStrings.

Lemma digitChar_spec (d : Z) :
  0 <= d <= 9 -> isDigit (digitChar d) = true /\ digitVal (digitChar d) = d.
Proof.
  intros H.
  assert (C : d = 0 \/ d = 1 \/ d = 2 \/ d = 3 \/ d = 4 \/ d = 5 \/ d = 6
              \/ d = 7 \/ d = 8 \/ d = 9) by lia.
  repeat (destruct C as [-> | C]; [split; reflexivity|]).
  subst d; split; reflexivity.
Qed.

Lemma isDigit_range (c : ascii) :
  isDigit c = true -> 0 <= digitVal c <= 9.
Proof.
  unfold isDigit, digitVal. intros H.
  apply andb_true_iff in H as [H1 H2]. lia.
Qed.

End Digits.

Section StringOrder.

Lemma ascii_compare_N (a b : ascii) :
  Ascii.compare a b = N.compare (N_of_ascii a) (N_of_ascii b).
Proof. reflexivity. Qed.

Lemma ascii_compare_refl (a : ascii) : Ascii.compare a a = Eq.
Proof. rewrite ascii_compare_N. apply N.compare_refl. Qed.

Lemma ascii_compare_lt_trans (a b c : ascii) :
  Ascii.compare a b = Lt -> Ascii.compare b c = Lt -> Ascii.compare a c = Lt.
Proof.
  rewrite !ascii_compare_N, !N.compare_lt_iff. lia.
Qed.

Lemma string_compare_refl (s : string) : String.compare s s = Eq.
Proof.
  induction s as [|a s IH]; simpl; [reflexivity|].
  now rewrite ascii_compare_refl.
Qed.

Lemma string_compare_lt_trans (s1 s2 s3 : string) :
  String.compare s1 s2 = Lt -> String.compare s2 s3 = Lt ->
  String.compare s1 s3 = Lt.
Proof.
  revert s2 s3.
  induction s1 as [|a s1 IH]; intros [|b s2] [|c s3]; simpl;
    try discriminate; try reflexivity.
  destruct (Ascii.compare a b) eqn:Hab; try discriminate;
    destruct (Ascii.compare b c) eqn:Hbc; try discriminate; intros H12 H23.
  - apply Ascii.compare_eq_iff in Hab, Hbc. subst.
    rewrite ascii_compare_refl. eauto.
  - apply Ascii.compare_eq_iff in Hab. subst. now rewrite Hbc.
  - apply Ascii.compare_eq_iff in Hbc. subst. now rewrite Hab.
  - now rewrite (ascii_compare_lt_trans _ _ _ Hab Hbc).
Qed.

Lemma ltb_lt (a b : string) : (a <? b)%string = true <-> String.compare a b = Lt.
Proof.
  unfold String.ltb. destruct (String.compare a b); split; congruence.
Qed.

Lemma ltb_irrefl (a : string) : (a <? a)%string = false.
Proof. unfold String.ltb. now rewrite string_compare_refl. Qed.

Lemma ltb_asym (a b : string) :
  (a <? b)%string = true -> (b <? a)%string = false.
Proof.
  unfold String.ltb. rewrite (String.compare_antisym a b).
  destruct (String.compare b a); simpl; congruence.
Qed.

Lemma ltb_neq (a b : string) :
  (a <? b)%string = true -> (b =? a)%string = false.
Proof.
  intros H. apply String.eqb_neq. intros ->.
  rewrite ltb_irrefl in H. discriminate.
Qed.

(** Byte order is total: two strings are equal or one is below the other. *)
Lemma ltb_total (a b : string) :
  (a <? b)%string = false -> (b =? a)%string = false -> (b <? a)%string = true.
Proof.
  intros Hab Hne. unfold String.ltb in *.
  rewrite String.compare_antisym.
  destruct (String.compare a b) eqn:E; try discriminate; try reflexivity.
  apply String.compare_eq_iff in E. subst.
  rewrite String.eqb_refl in Hne. discriminate.
Qed.

Lemma empty_ltb (c : ascii) (s : string) : (EmptyString <? String c s)%string = true.
Proof. reflexivity. Qed.

End StringOrder.

Section TimeFacts.
Import GoStrings time.

Lemma getnum2_range s n r : getnum2 s = Some (n, r) -> 0 <= n <= 99.
Proof.
  destruct s as [|a [|b s]]; simpl; try discriminate.
  destruct (isDigit a) eqn:Ha; destruct (isDigit b) eqn:Hb; simpl;
    try discriminate.
  intros [= <- _].
  apply isDigit_range in Ha, Hb. lia.
Qed.

Lemma getyear_range s y r : getyear s = Some (y, r) -> 0 <= y <= 9999.
Proof.
  destruct s as [|a [|b [|c [|d s]]]]; simpl; try discriminate.
  destruct (isDigit a) eqn:Ha; destruct (isDigit b) eqn:Hb;
    destruct (isDigit c) eqn:Hc; destruct (isDigit d) eqn:Hd; simpl;
    try discriminate.
  intros [= <- _].
  apply isDigit_range in Ha, Hb, Hc, Hd. lia.
Qed.

Lemma lookup_range tab i s m r :
  lookup tab i s = Some (m, r) -> i <= m < i + Z.of_nat (List.length tab).
Proof.
  revert i. induction tab as [|v tab IH]; intros i; simpl; try discriminate.
  destruct (matchPrefix v s).
  - intros [= <- _]. lia.
  - intros H. apply IH in H. lia.
Qed.

Lemma daysIn_le_31 m y : daysIn m y <= 31.
Proof.
  unfold daysIn.
  repeat match goal with |- context [if ?b then _ else _] => destruct b end; lia.
Qed.

End TimeFacts.

Section TimeRoundTrip.
Import GoStrings time.

Lemma Parse_day_month_year_valid (sep1 sep2 : string) (value : string) (t : Time) :
  Parse [stdZeroDay; literal sep1; stdZeroMonth; literal sep2; stdLongYear] value
    = Some t ->
  validDate t.
Proof.
  unfold Parse. simpl.
  destruct (getnum2 value) as [[d r1]|] eqn:Hd; try discriminate.
  destruct (cutPrefix sep1 r1) as [r2|]; try discriminate.
  destruct (getnum2 r2) as [[m r3]|] eqn:Hm; try discriminate.
  destruct ((m <=? 0) || (12 <? m)) eqn:Hrange; try discriminate.
  destruct (cutPrefix sep2 r3) as [r4|]; try discriminate.
  destruct (getyear r4) as [[y r5]|] eqn:Hy; try discriminate.
  destruct r5; try discriminate. simpl.
  apply getyear_range in Hy. apply getnum2_range in Hd.
  apply orb_false_iff in Hrange as [H1 H2].
  destruct (m <? 0) eqn:Hm0; [lia|].
  destruct (d <? 0) eqn:Hd0; [lia|].
  destruct ((d <? 1) || (daysIn m y <? d)) eqn:Hday; try discriminate.
  apply orb_false_iff in Hday as [H3 H4].
  intros [= <-]. unfold validDate; simpl. lia.
Qed.

Lemma Parse_02_Jan_2006_valid (value : string) (t : Time) :
  Parse layout_02_Jan_2006 value = Some t -> validDate t.
Proof.
  unfold Parse, layout_02_Jan_2006.
  cbn [parseChunks].
  destruct (getnum2 value) as [[d r1]|] eqn:Hd; try discriminate.
  destruct (cutPrefix "-" r1) as [r2|]; try discriminate.
  destruct (lookup shortMonthNames 1 r2) as [[m r3]|] eqn:Hm; try discriminate.
  destruct (cutPrefix "-" r3) as [r4|]; try discriminate.
  destruct (getyear r4) as [[y r5]|] eqn:Hy; try discriminate.
  destruct r5; try discriminate. cbn [fYear fMonth fDay].
  apply getyear_range in Hy. apply getnum2_range in Hd.
  apply lookup_range in Hm. simpl in Hm.
  destruct (m <? 0) eqn:Hm0; [lia|].
  destruct (d <? 0) eqn:Hd0; [lia|].
  destruct ((d <? 1) || (daysIn m y <? d)) eqn:Hday; try discriminate.
  apply orb_false_iff in Hday as [H3 H4].
  intros [= <-]. unfold validDate; simpl. lia.
Qed.

Lemma getnum2_pad2 (x : Z) (r : string) :
  0 <= x <= 99 -> getnum2 (pad2 x ++ r) = Some (x, r).
Proof.
  intros Hx. unfold pad2. simpl.
  destruct (digitChar_spec (x / 10 mod 10)) as [D1 V1].
  { pose proof (Z.mod_pos_bound (x / 10) 10); lia. }
  destruct (digitChar_spec (x mod 10)) as [D2 V2].
  { pose proof (Z.mod_pos_bound x 10); lia. }
  rewrite D1, D2, V1, V2. simpl. f_equal. f_equal.
  rewrite (Z.mod_small (x / 10) 10).
  - pose proof (Z.div_mod x 10). lia.
  - split; [apply Z.div_pos; lia | apply Z.div_lt_upper_bound; lia].
Qed.

Lemma getyear_pad4 (x : Z) (r : string) :
  0 <= x <= 9999 -> getyear (pad4 x ++ r) = Some (x, r).
Proof.
  intros Hx. unfold pad4, pad2. simpl.
  destruct (digitChar_spec (x / 1000 mod 10)) as [D1 V1].
  { pose proof (Z.mod_pos_bound (x / 1000) 10); lia. }
  destruct (digitChar_spec (x / 100 mod 10)) as [D2 V2].
  { pose proof (Z.mod_pos_bound (x / 100) 10); lia. }
  destruct (digitChar_spec (x / 10 mod 10)) as [D3 V3].
  { pose proof (Z.mod_pos_bound (x / 10) 10); lia. }
  destruct (digitChar_spec (x mod 10)) as [D4 V4].
  { pose proof (Z.mod_pos_bound x 10); lia. }
  rewrite D1, D2, D3, D4, V1, V2, V3, V4. simpl. f_equal. f_equal.
  Z.to_euclidean_division_equations. lia.
Qed.

(** What [Format] writes, [Parse] reads back with the same layout. *)
Lemma Parse_Format_2006_01_02 (t : Time) :
  validDate t -> Parse layout_2006_01_02 (Format_2006_01_02 t) = Some t.
Proof.
  intros (Hy & Hm & Hd).
  pose proof (daysIn_le_31 (Month t) (Year t)) as H31.
  unfold Parse, layout_2006_01_02, Format_2006_01_02.
  cbn [parseChunks].
  rewrite getyear_pad4 by assumption.
  change (cutPrefix "-" ("-" ++ pad2 (Month t) ++ "-" ++ pad2 (Day t)))
    with (Some (pad2 (Month t) ++ "-" ++ pad2 (Day t))).
  cbn iota. rewrite getnum2_pad2 by lia.
  replace ((Month t <=? 0) || (12 <? Month t)) with false
    by (symmetry; apply orb_false_iff; split; lia).
  change (cutPrefix "-" ("-" ++ pad2 (Day t))) with (Some (pad2 (Day t))).
  cbn iota.
  replace (pad2 (Day t)) with (pad2 (Day t) ++ EmptyString)
    by (unfold pad2; reflexivity).
  rewrite getnum2_pad2 by lia.
  cbn [fYear fMonth fDay].
  replace (Month t <? 0) with false by (symmetry; apply Z.ltb_ge; lia).
  replace (Day t <? 0) with false by (symmetry; apply Z.ltb_ge; lia).
  replace ((Day t <? 1) || (daysIn (Month t) (Year t) <? Day t)) with false
    by (symmetry; apply orb_false_iff; split; apply Z.ltb_ge; lia).
  destruct t; reflexivity.
Qed.

Lemma Format_nonempty (t : Time) :
  exists c s, Format_2006_01_02 t = String c s.
Proof. unfold Format_2006_01_02, pad4. simpl. eauto. Qed.

End TimeRoundTrip.

(* ================================================================== *)
(** * Properties of the store                                          *)
(* ================================================================== *)

Section StoreFacts.
Import Store Update.

Lemma latestDate_snoc (rows : list Row) (r : Row) :
  latestDate (rows ++ [r]) = laterDate (latestDate rows) r.
Proof. unfold latestDate. now rewrite fold_left_app. Qed.

(** Folding [laterDate] from [Some m] ends on a date that is not below
    [m] nor below any date met on the way. *)
Lemma fold_laterDate_bound (rows : list Row) (m : string) :
  exists m', fold_left laterDate rows (Some m) = Some m'
    /\ (m' <? m)%string = false
    /\ forall r, In r rows -> (m' <? date r)%string = false.
Proof.
  revert m. induction rows as [|x rows IH]; intros m; simpl.
  - exists m. split; [reflexivity|]. split; [apply ltb_irrefl | contradiction].
  - destruct (m <? date x)%string eqn:Hmx.
    + destruct (IH (date x)) as (m' & E & Hx & Hall).
      exists m'. split; [exact E|]. split.
      * destruct (m' <? m)%string eqn:C; [|reflexivity].
        pose proof (string_compare_lt_trans _ _ _
                      (proj1 (ltb_lt _ _) C) (proj1 (ltb_lt _ _) Hmx)) as T.
        apply ltb_lt in T. congruence.
      * intros r [<- | Hr]; auto.
    + destruct (IH m) as (m' & E & Hm & Hall).
      exists m'. split; [exact E|]. split; [exact Hm|].
      intros r [<- | Hr]; auto.
      destruct (m' <? date x)%string eqn:C; [|reflexivity].
      destruct (String.eqb m m') eqn:Q.
      * apply String.eqb_eq in Q. subst. congruence.
      * pose proof (ltb_total _ _ Hm Q) as Lt1.
        pose proof (string_compare_lt_trans _ _ _
                      (proj1 (ltb_lt _ _) Lt1) (proj1 (ltb_lt _ _) C)) as T.
        apply ltb_lt in T. congruence.
Qed.

Lemma latestDate_upper_bound (rows : list Row) (m : string) :
  latestDate rows = Some m ->
  forall r, In r rows -> (m <? date r)%string = false.
Proof.
  unfold latestDate. destruct rows as [|x rows]; simpl; [discriminate|].
  destruct (fold_laterDate_bound rows (date x)) as (m' & E & Hx & Hall).
  rewrite E. intros [= <-] r [<- | Hr]; auto.
Qed.

Lemma latestDate_None (rows : list Row) :
  latestDate rows = None -> rows = [].
Proof.
  unfold latestDate. destruct rows as [|x rows]; simpl; [reflexivity|].
  destruct (fold_laterDate_bound rows (date x)) as (m' & E & _).
  rewrite E. discriminate.
Qed.

Lemma hasDate_In (d : string) (rows : list Row) :
  hasDate d rows = true <-> exists r, In r rows /\ date r = d.
Proof.
  induction rows as [|x rows IH]; simpl.
  - split; [discriminate | intros (r & [] & _)].
  - rewrite orb_true_iff, IH, String.eqb_eq. split.
    + intros [E | (r & Hr & E)]; eauto.
    + intros (r & [<- | Hr] & E); eauto.
Qed.

(** A date above the cursor is not stored. *)
Lemma above_cursor_not_stored (rows : list Row) (d : string) :
  (cursor rows <? d)%string = true -> hasDate d rows = false.
Proof.
  intros Hlt. destruct (hasDate d rows) eqn:Hd; [|reflexivity].
  apply hasDate_In in Hd as (r & Hr & <-).
  unfold cursor in Hlt. destruct (latestDate rows) as [m|] eqn:L.
  - rewrite (latestDate_upper_bound _ _ L _ Hr) in Hlt. discriminate.
  - apply latestDate_None in L. subst. contradiction.
Qed.

(** A stored date is not above the cursor. *)
Lemma stored_not_above_cursor (rows : list Row) (d : string) :
  hasDate d rows = true -> (cursor rows <? d)%string = false.
Proof.
  intros H. destruct (cursor rows <? d)%string eqn:C; [|reflexivity].
  apply above_cursor_not_stored in C. congruence.
Qed.

Lemma cursor_snoc (rows : list Row) (r : Row) :
  (cursor rows <? date r)%string = true -> cursor (rows ++ [r]) = date r.
Proof.
  unfold cursor. rewrite latestDate_snoc.
  destruct (latestDate rows) as [m|]; simpl; [|reflexivity].
  now intros ->.
Qed.

Lemma hasDate_app (d : string) (a b : list Row) :
  hasDate d (a ++ b) = hasDate d a || hasDate d b.
Proof.
  induction a as [|x a IH]; simpl; [reflexivity|].
  now rewrite IH, orb_assoc.
Qed.

Lemma selectByDate_snoc (rows : list Row) (r : Row) :
  hasDate (date r) rows = false -> selectByDate (date r) (rows ++ [r]) = Some r.
Proof.
  induction rows as [|x rows IH]; simpl.
  - now rewrite String.eqb_refl.
  - intros H. apply orb_false_iff in H as [H1 H2]. rewrite H1. auto.
Qed.

Lemma countDate_snoc (rows : list Row) (r : Row) :
  hasDate (date r) rows = false -> countDate (date r) (rows ++ [r]) = 1%nat.
Proof.
  induction rows as [|x rows IH]; simpl.
  - now rewrite String.eqb_refl.
  - intros H. apply orb_false_iff in H as [H1 H2]. rewrite H1. auto.
Qed.

Lemma snoc_neq {A : Type} (l : list A) (x : A) : (l ++ [x])%list <> l.
Proof.
  intros E. apply (f_equal (@List.length A)) in E.
  rewrite length_app in E. simpl in E. lia.
Qed.

Lemma insertDesc_length r l : List.length (insertDesc r l) = S (List.length l).
Proof.
  induction l as [|x l IH]; simpl; [reflexivity|].
  destruct (date x <? date r)%string; simpl; congruence.
Qed.

Lemma orderByDateDesc_length rows :
  List.length (orderByDateDesc rows) = List.length rows.
Proof.
  induction rows as [|x rows IH]; simpl; [reflexivity|].
  now rewrite insertDesc_length, IH.
Qed.

End StoreFacts.

(* ================================================================== *)
(** * The updater: what an attempt does                                *)
(* ================================================================== *)

Section Frame.
Import Store Update.

Lemma attempted_app (a b : list LogEvent) :
  attempted (a ++ b) = (attempted a ++ attempted b)%list.
Proof.
  induction a as [|e a IH]; simpl; [reflexivity|].
  destruct e; simpl; congruence.
Qed.

Lemma onlyLogs_ret {A} (a : A) : onlyLogs (ret a).
Proof.
  split; [reflexivity|]. intros st. unfold ret. simpl.
  rewrite app_nil_r. now destruct st.
Qed.

Lemma onlyLogs_fail {A} (e : error) : onlyLogs (@fail A e).
Proof.
  split; [reflexivity|]. intros st. unfold fail. simpl.
  rewrite app_nil_r. now destruct st.
Qed.

Lemma onlyLogs_bind {A B} (m : M A) (k : A -> M B) :
  onlyLogs m -> (forall a, onlyLogs (k a)) -> onlyLogs (bind m k).
Proof.
  intros [Qm Hm] Hk.
  assert (E0 : m st0 = (fst (m st0), mkSt NoTable (logged (snd (m st0))))).
  { rewrite (Hm st0) at 1. reflexivity. }
  unfold onlyLogs, bind. rewrite E0.
  destruct (fst (m st0)) as [e|a] eqn:R.
  - split; [exact Qm|]. intros st. rewrite (Hm st), ?R. reflexivity.
  - destruct (Hk a) as [Qk Hka].
    rewrite (Hka (mkSt NoTable _)). simpl. split.
    + rewrite attempted_app, Qm, Qk. reflexivity.
    + intros st. rewrite (Hm st), ?R, (Hka (mkSt (db st) _)). simpl.
      now rewrite app_assoc.
Qed.

Lemma onlyLogs_orReturn {A} (r : option A) (e : error) : onlyLogs (orReturn r e).
Proof. destruct r; [apply onlyLogs_ret | apply onlyLogs_fail]. Qed.

Lemma onlyLogs_wrapping {A} (wrap : error -> error) (m : M A) :
  onlyLogs m -> onlyLogs (wrapping wrap m).
Proof.
  intros [Qm Hm].
  assert (E0 : m st0 = (fst (m st0), mkSt NoTable (logged (snd (m st0))))).
  { rewrite (Hm st0) at 1. reflexivity. }
  unfold onlyLogs, wrapping. rewrite E0.
  destruct (fst (m st0)) as [e|a] eqn:R; simpl; (split; [exact Qm|]);
    intros st; rewrite (Hm st), ?R; reflexivity.
Qed.

Lemma onlyLogs_checkNumbers (numbers : list string) (i : Z) :
  onlyLogs (checkNumbers i numbers).
Proof.
  revert i. induction numbers as [|num rest IH]; intros i; simpl.
  - apply onlyLogs_ret.
  - destruct (strconv.Atoi num); [apply IH | apply onlyLogs_fail].
Qed.

Variable verbose : bool.
Variable w : World.

Lemma onlyLogs_logVerbose (ev : LogEvent) :
  (forall id, ev <> Executing_option_for_Site_ID id) ->
  onlyLogs (logVerbose verbose ev).
Proof.
  intros Hev. unfold logVerbose. destruct verbose; [|apply onlyLogs_ret].
  split.
  - simpl. destruct ev; try reflexivity. now destruct (Hev siteID).
  - intros st. reflexivity.
Qed.

Lemma onlyLogs_getWebPage (url : string) : onlyLogs (getWebPage verbose w url).
Proof.
  apply onlyLogs_bind; [apply onlyLogs_logVerbose; discriminate|].
  intros _. apply onlyLogs_orReturn.
Qed.

Lemma onlyLogs_getCSV (url : string) : onlyLogs (getCSV verbose w url).
Proof.
  apply onlyLogs_bind; [apply onlyLogs_logVerbose; discriminate|].
  intros _. apply onlyLogs_orReturn.
Qed.

Ltac only_logs :=
  repeat first
    [ apply onlyLogs_ret | apply onlyLogs_fail | apply onlyLogs_orReturn
    | apply onlyLogs_checkNumbers
    | apply onlyLogs_wrapping | apply onlyLogs_getWebPage
    | apply onlyLogs_getCSV
    | apply onlyLogs_logVerbose; discriminate
    | apply onlyLogs_bind; [|intros ?] ].

Lemma onlyLogs_case1 : onlyLogs (case1 verbose w).
Proof. unfold case1. only_logs. Qed.

Lemma onlyLogs_case2 : onlyLogs (case2 verbose w).
Proof. unfold case2. only_logs. Qed.

Lemma onlyLogs_case3 : onlyLogs (case3 verbose w).
Proof. unfold case3. only_logs. Qed.

Lemma onlyLogs_case4 : onlyLogs (case4 verbose w).
Proof.
  unfold case4. only_logs.
  match goal with |- context [if ?b then _ else _] => destruct b end;
    only_logs.
  match goal with |- context [if ?b then _ else _] => destruct b end;
    only_logs.
Qed.

Lemma onlyLogs_case5 : onlyLogs (case5 verbose w).
Proof.
  unfold case5. only_logs.
  repeat match goal with
         | |- onlyLogs (let '(_, _) := ?x in _) => destruct x
         | |- onlyLogs (match ?x with _ => _ end) => destruct x
         end; only_logs.
Qed.

Lemma switch_siteID_cases (siteID : Z) :
  switch_siteID verbose w siteID = case1 verbose w
  \/ switch_siteID verbose w siteID = case2 verbose w
  \/ switch_siteID verbose w siteID = case3 verbose w
  \/ switch_siteID verbose w siteID = case4 verbose w
  \/ switch_siteID verbose w siteID = case5 verbose w
  \/ switch_siteID verbose w siteID = fail (unsupported_site_ID siteID).
Proof.
  destruct siteID as [|p|p]; simpl; auto 10.
  destruct p as [[p|p|]|[p|p|]|]; simpl; auto 10; destruct p; auto 10.
Qed.

Lemma onlyLogs_switch (siteID : Z) : onlyLogs (switch_siteID verbose w siteID).
Proof.
  destruct (switch_siteID_cases siteID) as [E|[E|[E|[E|[E|E]]]]]; rewrite E.
  - apply onlyLogs_case1.
  - apply onlyLogs_case2.
  - apply onlyLogs_case3.
  - apply onlyLogs_case4.
  - apply onlyLogs_case5.
  - apply onlyLogs_fail.
Qed.

(** The [switch], from any state: the extraction and its log lines. *)
Lemma switch_siteID_frame (siteID : Z) (st : St) :
  switch_siteID verbose w siteID st
  = (extraction verbose w siteID,
     mkSt (db st) (logged st ++ extractionLog verbose w siteID)).
Proof. apply (proj2 (onlyLogs_switch siteID)). Qed.

Lemma extractionLog_attempted (siteID : Z) :
  attempted (extractionLog verbose w siteID) = [].
Proof. apply (proj1 (onlyLogs_switch siteID)). Qed.

End Frame.

Section Extraction.
Import Store Update.

Variable verbose : bool.
Variable w : World.

Ltac split_match H :=
  match type of H with
  | context [match ?x with _ => _ end] =>
      lazymatch x with
      | context [match _ with _ => _ end] => fail
      | _ => destruct x eqn:?; cbn beta iota in H; try discriminate H
      end
  end.

Ltac run_case H :=
  cbv [extraction st0 case1 case2 case3 case4 case5 bind wrapping getWebPage
       getCSV logVerbose orReturn ret fail logPrint fst snd] in H;
  repeat split_match H.

Ltac dated :=
  match goal with
  | H : inr (?d, _) = inr (_, _) |- _ =>
      injection H as <- <-; eexists; split; [|reflexivity]
  end;
  first [ eapply Parse_day_month_year_valid; eassumption
        | eapply Parse_02_Jan_2006_valid; eassumption ].

(** Every date the [switch] leaves in [newDate] was written by
    [Format] from a date [time.Parse] accepted. *)
Lemma extraction_date (siteID : Z) (newDate : string) (numbers : list string) :
  extraction verbose w siteID = inr (newDate, numbers) ->
  exists t, time.validDate t /\ newDate = time.Format_2006_01_02 t.
Proof.
  unfold extraction.
  destruct (switch_siteID_cases verbose w siteID) as [E|[E|[E|[E|[E|E]]]]];
    rewrite E; intros H.
  - run_case H; dated.
  - run_case H; dated.
  - run_case H; dated.
  - run_case H; dated.
  - run_case H; dated.
  - discriminate H.
Qed.

Lemma findFirst_Some {A : Type} (m : string -> option A) (s : string) (a : A) :
  regexp.findFirst m s = Some a -> exists t, m t = Some a.
Proof.
  induction s as [|c s IH]; simpl.
  - destruct (m EmptyString) eqn:E; [|discriminate]. intros [= <-]. eauto.
  - destruct (m (String c s)) eqn:E; [intros [= <-]; eauto | exact IH].
Qed.

Lemma liNumbers_FindFirst_length (s : string) (l : list string) :
  regexp.liNumbers_FindFirst s = Some l -> List.length l = 7%nat.
Proof.
  intros H. apply findFirst_Some in H as (t & H).
  unfold regexp.liNumbers_here in H.
  repeat match type of H with
         | match ?x with _ => _ end = _ =>
             destruct x as [[? ?]|] eqn:?; try discriminate H
         | match ?x with _ => _ end = _ =>
             destruct x eqn:?; try discriminate H
         end.
  injection H; intros <-; reflexivity.
Qed.

(** The token counts the [switch] can leave: sources 3 and 5 always leave
    seven, source 4 never fewer than seven. *)
Lemma extraction_count (siteID : Z) (newDate : string) (numbers : list string) :
  extraction verbose w siteID = inr (newDate, numbers) ->
  (siteID = 3 \/ siteID = 5 -> List.length numbers = 7%nat)
  /\ (siteID = 4 -> (7 <= List.length numbers)%nat).
Proof.
  intros H. unfold extraction in H. split.
  - intros [-> | ->].
    + change (switch_siteID verbose w 3) with (case3 verbose w) in H.
      run_case H; injection H as _ <-;
        match goal with
        | E : regexp.liNumbers_FindFirst _ = Some _ |- _ =>
            exact (liNumbers_FindFirst_length _ _ E)
        end.
    + change (switch_siteID verbose w 5) with (case5 verbose w) in H.
      run_case H; injection H as _ <-; reflexivity.
  - intros ->.
    change (switch_siteID verbose w 4) with (case4 verbose w) in H.
    run_case H; injection H as _ <-;
      match goal with
      | E : (Z.of_nat _ <? 7) = false |- _ =>
          apply Z.ltb_ge in E; apply Nat2Z.inj_le; exact E
      end.
Qed.

End Extraction.

Section Attempts.
Import Store Update.

Variable verbose : bool.
Variable w : World.

(** Without the table the query fails and the attempt ends there. *)
Lemma runUpdate_NoTable (siteID : Z) (st : St) :
  db st = NoTable ->
  runUpdate verbose w siteID st
  = (inl (database_query_error (sql_Error NoSuchTable)),
     mkSt NoTable (logged st ++ [Executing_option_for_Site_ID siteID])).
Proof.
  intros H. unfold runUpdate, bind, logPrint, queryOldDate. simpl.
  rewrite H. reflexivity.
Qed.

Lemma queryOldDate_Table (rows : list Row) (l : list LogEvent) :
  queryOldDate (mkSt (Table rows) l) = (inr (cursor rows), mkSt (Table rows) l).
Proof.
  unfold queryOldDate, cursor. simpl. now destruct (latestDate rows).
Qed.

(** With the table, the attempt reads the cursor, runs the [switch] and,
    when that yields a date and numbers, goes on to the comparison. *)
Lemma runUpdate_Table (siteID : Z) (st : St) (rows : list Row) :
  db st = Table rows ->
  runUpdate verbose w siteID st
  = match extraction verbose w siteID with
    | inl e =>
        (inl e,
         mkSt (Table rows) (logged st ++ entryLog verbose w siteID (cursor rows)))
    | inr (newDate, numbers) =>
        compareAndInsert (cursor rows) newDate numbers
          (mkSt (Table rows) (logged st ++ entryLog verbose w siteID (cursor rows)))
    end.
Proof.
  intros H. destruct st as [d l]. simpl in H. subst d.
  unfold runUpdate, bind at 1 2. unfold logPrint at 1. cbn [db logged].
  rewrite queryOldDate_Table.
  unfold bind at 1. unfold logVerbose, entryLog.
  destruct verbose; cbn [logPrint ret db logged];
    unfold bind at 1; rewrite switch_siteID_frame; cbn [db logged];
    rewrite <- ?app_assoc; cbn [app];
    destruct (extraction _ w siteID) as [e|[n ns]]; reflexivity.
Qed.

Lemma compareAndInsert_same (d : string) (numbers : list string) (st : St) :
  compareAndInsert d d numbers st
  = (inr tt, mkSt (db st) (logged st ++ [Exiting_the_date_is_the_same d])).
Proof.
  unfold compareAndInsert. rewrite String.eqb_refl. reflexivity.
Qed.

Lemma compareAndInsert_stale (oldDate newDate : string) (numbers : list string)
    (st : St) :
  (oldDate <? newDate)%string = false -> newDate <> oldDate ->
  compareAndInsert oldDate newDate numbers st
  = (inr tt, mkSt (db st) (logged st ++ [Exiting_the_old_date_is_more_recent])).
Proof.
  intros Hlt Hne. unfold compareAndInsert.
  apply String.eqb_neq in Hne. rewrite Hne, Hlt. reflexivity.
Qed.

Lemma compareAndInsert_count (oldDate newDate : string) (numbers : list string)
    (st : St) :
  (oldDate <? newDate)%string = true -> List.length numbers <> 7%nat ->
  compareAndInsert oldDate newDate numbers st
  = (inl (invalid_number_of_results (Z.of_nat (List.length numbers))),
     mkSt (db st) (logged st ++ [OK_New_date newDate; Numbers numbers])).
Proof.
  intros Hlt Hlen. unfold compareAndInsert.
  rewrite (ltb_neq _ _ Hlt), Hlt.
  unfold bind, logPrint. cbn [db logged]. rewrite <- app_assoc. cbn [app].
  do 8 (destruct numbers as [|? numbers]; try reflexivity).
  simpl in Hlen. lia.
Qed.

Lemma compareAndInsert_insert (oldDate newDate : string)
    (n0 n1 n2 n3 n4 n5 n6 : string) (v0 v1 v2 v3 v4 v5 v6 : Z)
    (rows : list Row) (l : list LogEvent) :
  (oldDate <? newDate)%string = true ->
  hasDate newDate rows = false ->
  integerOfText n0 = Some v0 -> integerOfText n1 = Some v1 ->
  integerOfText n2 = Some v2 -> integerOfText n3 = Some v3 ->
  integerOfText n4 = Some v4 -> integerOfText n5 = Some v5 ->
  integerOfText n6 = Some v6 ->
  compareAndInsert oldDate newDate [n0; n1; n2; n3; n4; n5; n6]
    (mkSt (Table rows) l)
  = (inr tt,
     mkSt (Table (rows ++ [mkRow newDate v0 v1 v2 v3 v4 v5 v6]))
       (l ++ [OK_New_date newDate; Numbers [n0; n1; n2; n3; n4; n5; n6];
              Data_inserted_successfully])).
Proof.
  intros Hlt Hnew E0 E1 E2 E3 E4 E5 E6. unfold compareAndInsert.
  rewrite (ltb_neq _ _ Hlt), Hlt.
  unfold bind, logPrint, prepareInsert, execInsert, insertRow, ret.
  cbn [db logged]. rewrite E0, E1, E2, E3, E4, E5, E6, Hnew.
  cbn [db logged]. rewrite <- !app_assoc. reflexivity.
Qed.

(** What the comparison and insertion can do: leave the database as it
    is, or append the one row of the extracted date, which was not
    stored. *)
Lemma compareAndInsert_cases (oldDate newDate : string) (numbers : list string)
    (st : St) :
  let '(r, st') := compareAndInsert oldDate newDate numbers st in
  db st' = db st
  \/ (r = inr tt /\ (oldDate <? newDate)%string = true
      /\ exists rows row,
          db st = Table rows /\ db st' = Table (rows ++ [row])
          /\ date row = newDate /\ hasDate newDate rows = false
          /\ exists n0 n1 n2 n3 n4 n5 n6,
               numbers = [n0; n1; n2; n3; n4; n5; n6]
               /\ integerOfText n0 = Some (number_1 row)
               /\ integerOfText n1 = Some (number_2 row)
               /\ integerOfText n2 = Some (number_3 row)
               /\ integerOfText n3 = Some (number_4 row)
               /\ integerOfText n4 = Some (number_5 row)
               /\ integerOfText n5 = Some (star_1 row)
               /\ integerOfText n6 = Some (star_2 row)).
Proof.
  unfold compareAndInsert.
  destruct (newDate =? oldDate)%string; [left; reflexivity|].
  destruct (oldDate <? newDate)%string eqn:Hlt; [|left; reflexivity].
  unfold bind, logPrint. cbn [db logged].
  do 8 (destruct numbers as [|? numbers]; try (left; reflexivity)).
  unfold prepareInsert, execInsert, insertRow, ret. cbn [db logged].
  destruct (db st) as [|rows] eqn:D; [left; reflexivity|].
  cbn [db logged].
  destruct (integerOfText s) as [v0|] eqn:E0; [|left; reflexivity].
  destruct (integerOfText s0) as [v1|] eqn:E1; [|left; reflexivity].
  destruct (integerOfText s1) as [v2|] eqn:E2; [|left; reflexivity].
  destruct (integerOfText s2) as [v3|] eqn:E3; [|left; reflexivity].
  destruct (integerOfText s3) as [v4|] eqn:E4; [|left; reflexivity].
  destruct (integerOfText s4) as [v5|] eqn:E5; [|left; reflexivity].
  destruct (integerOfText s5) as [v6|] eqn:E6; [|left; reflexivity].
  destruct (hasDate newDate rows) eqn:Hd; [left; reflexivity|].
  right. cbn [db]. split; [reflexivity|]. split; [reflexivity|].
  exists rows, (mkRow newDate v0 v1 v2 v3 v4 v5 v6).
  repeat (split; [first [reflexivity | assumption]|]).
  exists s, s0, s1, s2, s3, s4, s5. cbn.
  repeat (split; [first [reflexivity | assumption]|]). assumption.
Qed.

(** An attempt that returns an error has written nothing. *)
Lemma compareAndInsert_error (oldDate newDate : string) (numbers : list string)
    (st st' : St) (e : error) :
  compareAndInsert oldDate newDate numbers st = (inl e, st') -> db st' = db st.
Proof.
  intros H. pose proof (compareAndInsert_cases oldDate newDate numbers st) as C.
  rewrite H in C. destruct C as [C | (C & _)]; [exact C | discriminate C].
Qed.

Lemma runUpdate_error (siteID : Z) (st st' : St) (e : error) :
  runUpdate verbose w siteID st = (inl e, st') -> db st' = db st.
Proof.
  destruct (db st) as [|rows] eqn:D.
  - rewrite (runUpdate_NoTable siteID st D). now intros [= _ <-].
  - rewrite (runUpdate_Table siteID st rows D).
    destruct (extraction verbose w siteID) as [e'|[n ns]].
    + now intros [= _ <-].
    + intros H. now apply compareAndInsert_error in H.
Qed.

(** The database after an attempt: unchanged, or one row longer, the row
    holding the extracted date and the integers the seven tokens spell, in
    their order. *)
Lemma runUpdate_cases (siteID : Z) (st : St) :
  let '(r, st') := runUpdate verbose w siteID st in
  db st' = db st
  \/ (r = inr tt
      /\ exists rows newDate n0 n1 n2 n3 n4 n5 n6 v0 v1 v2 v3 v4 v5 v6,
           db st = Table rows
           /\ db st' = Table (rows ++ [mkRow newDate v0 v1 v2 v3 v4 v5 v6])
           /\ extraction verbose w siteID
              = inr (newDate, [n0; n1; n2; n3; n4; n5; n6])
           /\ (cursor rows <? newDate)%string = true
           /\ hasDate newDate rows = false
           /\ integerOfText n0 = Some v0 /\ integerOfText n1 = Some v1
           /\ integerOfText n2 = Some v2 /\ integerOfText n3 = Some v3
           /\ integerOfText n4 = Some v4 /\ integerOfText n5 = Some v5
           /\ integerOfText n6 = Some v6).
Proof.
  destruct (db st) as [|rows] eqn:D.
  - rewrite (runUpdate_NoTable siteID st D). left. reflexivity.
  - rewrite (runUpdate_Table siteID st rows D).
    destruct (extraction verbose w siteID) as [e'|[n ns]] eqn:X.
    + left. reflexivity.
    + pose proof (compareAndInsert_cases (cursor rows) n ns
             (mkSt (Table rows)
                (logged st ++ entryLog verbose w siteID (cursor rows)))) as C.
      destruct (compareAndInsert _ _ _ _) as [r st'].
      destruct C as [C | (Hr & Hlt & rows' & row & E1 & E2 & E3 & E4 & T)].
      * left. exact C.
      * right. split; [exact Hr|]. cbn [db] in E1. injection E1 as <-.
        destruct T as (n0 & n1 & n2 & n3 & n4 & n5 & n6 & -> & T).
        destruct row as [d v0 v1 v2 v3 v4 v5 v6]. cbn in E3, T. subst d.
        exists rows, n, n0, n1, n2, n3, n4, n5, n6, v0, v1, v2, v3, v4, v5, v6.
        tauto.
Qed.

(** The comparison and insertion, from any log: the result, the database
    left and the lines added depend on the dates, the numbers and the
    database only, and no line starts an attempt. *)
Lemma compareAndInsert_frame (oldDate newDate : string) (numbers : list string)
    (d : DB) :
  exists r d' added,
    attempted added = [] /\
    forall l,
      compareAndInsert oldDate newDate numbers (mkSt d l)
      = (r, mkSt d' (l ++ added)).
Proof.
  unfold compareAndInsert.
  destruct (newDate =? oldDate)%string.
  { exists (inr tt), d, [Exiting_the_date_is_the_same newDate].
    split; [reflexivity|]. intros l. reflexivity. }
  destruct (oldDate <? newDate)%string.
  2:{ exists (inr tt), d, [Exiting_the_old_date_is_more_recent].
      split; [reflexivity|]. intros l. reflexivity. }
  unfold bind, logPrint, prepareInsert, execInsert, ret. cbn [db logged].
  assert (F : forall (e : error),
    exists r d' added, attempted added = [] /\
      forall l : list LogEvent,
        (inl e : error + unit,
         mkSt d ((l ++ [OK_New_date newDate]) ++ [Numbers numbers]))
        = (r, mkSt d' (l ++ added))).
  { intros e. exists (inl e), d, [OK_New_date newDate; Numbers numbers].
    split; [reflexivity|]. intros l. now rewrite <- app_assoc. }
  do 8 (destruct numbers as [|? numbers]; try apply F).
  destruct d as [|rows]; [apply F|]. cbn [db logged].
  destruct (insertRow rows newDate s s0 s1 s2 s3 s4 s5) as [e|rows'].
  - apply F.
  - exists (inr tt), (Table rows'),
      [OK_New_date newDate; Numbers [s; s0; s1; s2; s3; s4; s5];
       Data_inserted_successfully].
    split; [reflexivity|]. intros l. cbn [db logged].
    now rewrite <- !app_assoc.
Qed.

(** An attempt, from any log: its result and the database it leaves
    depend on the database it finds only, and its lines start exactly one
    attempt, its own. *)
Lemma runUpdate_frame (siteID : Z) (d : DB) :
  exists r d' added,
    attempted added = [siteID] /\
    forall l,
      runUpdate verbose w siteID (mkSt d l) = (r, mkSt d' (l ++ added)).
Proof.
  destruct d as [|rows].
  - exists (inl (database_query_error (sql_Error NoSuchTable))), NoTable,
      [Executing_option_for_Site_ID siteID].
    split; [reflexivity|]. intros l. now rewrite runUpdate_NoTable.
  - destruct (extraction verbose w siteID) as [e|[n ns]] eqn:X.
    + exists (inl e), (Table rows), (entryLog verbose w siteID (cursor rows)).
      split.
      2:{ intros l. rewrite (runUpdate_Table siteID (mkSt (Table rows) l) rows eq_refl), X.
          reflexivity. }
      unfold entryLog. cbn [app attempted].
      rewrite attempted_app, extractionLog_attempted.
      now destruct verbose.
    + destruct (compareAndInsert_frame (cursor rows) n ns (Table rows))
        as (r & d' & added & Q & F).
      exists r, d', (entryLog verbose w siteID (cursor rows) ++ added)%list.
      split.
      2:{ intros l. rewrite (runUpdate_Table siteID (mkSt (Table rows) l) rows eq_refl), X, F.
          cbn [logged]. now rewrite <- app_assoc. }
      unfold entryLog. cbn [app attempted].
      rewrite !attempted_app, extractionLog_attempted, Q.
      now destruct verbose.
Qed.

(** Two attempts on one source that find the same database return the
    same result and leave the same database. *)
Lemma runUpdate_deterministic (siteID : Z) (st1 st2 : St) :
  db st1 = db st2 ->
  fst (runUpdate verbose w siteID st1) = fst (runUpdate verbose w siteID st2)
  /\ db (snd (runUpdate verbose w siteID st1))
     = db (snd (runUpdate verbose w siteID st2)).
Proof.
  destruct st1 as [d l1], st2 as [d2 l2]. cbn [db]. intros <-.
  destruct (runUpdate_frame siteID d) as (r & d' & added & _ & F).
  rewrite (F l1), (F l2). split; reflexivity.
Qed.

End Attempts.

(* ================================================================== *)
(** * The freshness decision                                           *)
(* ================================================================== *)

Section Freshness.
Import Store Update Fixtures.

(** C1 (as amended).  An attempt that reaches the comparison (the table
    answers the query and the [switch] yields a date and numbers) decides
    by byte-wise comparison of the extracted date with the latest stored
    date: when they are equal it returns success and writes nothing;
    when the extracted date is strictly greater and the extraction holds
    exactly seven tokens, each spelling an integer, the row is appended
    to the store; when it is neither equal nor greater it returns
    success and writes nothing. *)
Theorem freshness_decision (verbose : bool) (w : World) (siteID : Z) (st : St)
    (rows : list Row) (newDate : string) (numbers : list string) :
  db st = Table rows ->
  extraction verbose w siteID = inr (newDate, numbers) ->
  let reached := (logged st ++ entryLog verbose w siteID (cursor rows))%list in
  (newDate = cursor rows ->
     runUpdate verbose w siteID st
     = (inr tt,
        mkSt (Table rows) (reached ++ [Exiting_the_date_is_the_same newDate])))
  /\ ((cursor rows <? newDate)%string = true ->
      forall n0 n1 n2 n3 n4 n5 n6 v0 v1 v2 v3 v4 v5 v6,
        numbers = [n0; n1; n2; n3; n4; n5; n6] ->
        integerOfText n0 = Some v0 -> integerOfText n1 = Some v1 ->
        integerOfText n2 = Some v2 -> integerOfText n3 = Some v3 ->
        integerOfText n4 = Some v4 -> integerOfText n5 = Some v5 ->
        integerOfText n6 = Some v6 ->
        runUpdate verbose w siteID st
        = (inr tt,
           mkSt (Table (rows ++ [mkRow newDate v0 v1 v2 v3 v4 v5 v6]))
             (reached ++ [OK_New_date newDate; Numbers numbers;
                          Data_inserted_successfully])))
  /\ (newDate <> cursor rows -> (cursor rows <? newDate)%string = false ->
      runUpdate verbose w siteID st
      = (inr tt,
         mkSt (Table rows) (reached ++ [Exiting_the_old_date_is_more_recent]))).
Proof.
  intros D X reached. rewrite (runUpdate_Table verbose w siteID st rows D), X.
  split; [|split].
  - intros ->. apply compareAndInsert_same.
  - intros Hlt n0 n1 n2 n3 n4 n5 n6 v0 v1 v2 v3 v4 v5 v6 -> E0 E1 E2 E3 E4 E5 E6.
    apply compareAndInsert_insert; auto.
    now apply above_cursor_not_stored.
  - intros Hne Hlt. now apply compareAndInsert_stale.
Qed.

Lemma freshness_decision_witness :
  fst (runUpdate false (serving url5 scenarioB_csv) 5
         (mkSt (Table [row_2024_01_15]) []))
  = inr tt
  /\ db (snd (runUpdate false (serving url5 scenarioB_csv) 5
                (mkSt (Table [row_2024_01_15]) [])))
     = Table [row_2024_01_15; mkRow "2024-01-22" 3 17 22 41 49 5 11].
Proof.
  destruct (freshness_decision false (serving url5 scenarioB_csv) 5
              (mkSt (Table [row_2024_01_15]) []) [row_2024_01_15]
              "2024-01-22" ["3"; "17"; "22"; "41"; "49"; "5"; "11"]
              eq_refl eq_refl) as (_ & H & _).
  rewrite (H eq_refl "3" "17" "22" "41" "49" "5" "11" 3 17 22 41 49 5 11
             eq_refl eq_refl eq_refl eq_refl eq_refl eq_refl eq_refl eq_refl).
  split; reflexivity.
Defined.

(** C1 as stated fails: source 2 serves a page dated 22-01-2024 with six
    numbers while the latest stored date is 2024-01-15; the attempt
    reaches the comparison with a strictly greater date, and returns the
    count error without appending. *)
Lemma greater_date_not_appended :
  extraction false
    (serving url2 (euro_millions "22-01-2024" ["3"; "17"; "22"; "41"; "49"; "5"])) 2
  = inr ("2024-01-22", ["3"; "17"; "22"; "41"; "49"; "5"])
  /\ (cursor [row_2024_01_15] <? "2024-01-22")%string = true
  /\ runUpdate false
       (serving url2 (euro_millions "22-01-2024" ["3"; "17"; "22"; "41"; "49"; "5"]))
       2 (mkSt (Table [row_2024_01_15]) [])
     = (inl (invalid_number_of_results 6),
        mkSt (Table [row_2024_01_15])
          [Executing_option_for_Site_ID 2; OK_New_date "2024-01-22";
           Numbers ["3"; "17"; "22"; "41"; "49"; "5"]]).
Proof. repeat split; vm_compute; reflexivity. Qed.

(** C3.  A record whose date is strictly earlier than the latest stored
    date is never persisted, whatever its numbers: the attempt logs that
    the old date is more recent, returns success, and leaves the store as
    it was. *)
Theorem stale_record_never_persisted (verbose : bool) (w : World) (siteID : Z)
    (st : St) (rows : list Row) (newDate : string) (numbers : list string) :
  db st = Table rows ->
  extraction verbose w siteID = inr (newDate, numbers) ->
  (newDate <? cursor rows)%string = true ->
  runUpdate verbose w siteID st
  = (inr tt,
     mkSt (Table rows)
       ((logged st ++ entryLog verbose w siteID (cursor rows))
        ++ [Exiting_the_old_date_is_more_recent])).
Proof.
  intros D X Hlt.
  rewrite (runUpdate_Table verbose w siteID st rows D), X.
  apply compareAndInsert_stale.
  - now apply ltb_asym.
  - intros E. rewrite E, ltb_irrefl in Hlt. discriminate.
Qed.

Lemma stale_record_never_persisted_witness :
  runUpdate false
    (serving url1 (euromilhoes "08.01.2024" ["3"; "17"; "22"; "41"; "49"; "5"; "11"]))
    1 (mkSt (Table [row_2024_01_15]) [])
  = (inr tt,
     mkSt (Table [row_2024_01_15])
       [Executing_option_for_Site_ID 1; Exiting_the_old_date_is_more_recent]).
Proof.
  exact (stale_record_never_persisted false
           (serving url1 (euromilhoes "08.01.2024"
                            ["3"; "17"; "22"; "41"; "49"; "5"; "11"]))
           1 (mkSt (Table [row_2024_01_15]) []) [row_2024_01_15]
           "2024-01-08" ["3"; "17"; "22"; "41"; "49"; "5"; "11"]
           eq_refl eq_refl eq_refl).
Defined.

(** C9.  On a table without rows the query's no-row outcome is not an
    error and leaves the cursor empty; every extracted date is above the
    empty string, so an extraction of seven integer tokens is persisted
    as the first row. *)
Theorem empty_store_first_record_persisted (verbose : bool) (w : World)
    (siteID : Z) (st : St) (newDate : string)
    (n0 n1 n2 n3 n4 n5 n6 : string) (v0 v1 v2 v3 v4 v5 v6 : Z) :
  db st = Table [] ->
  extraction verbose w siteID = inr (newDate, [n0; n1; n2; n3; n4; n5; n6]) ->
  integerOfText n0 = Some v0 -> integerOfText n1 = Some v1 ->
  integerOfText n2 = Some v2 -> integerOfText n3 = Some v3 ->
  integerOfText n4 = Some v4 -> integerOfText n5 = Some v5 ->
  integerOfText n6 = Some v6 ->
  queryOldDate st = (inr EmptyString, st)
  /\ (EmptyString <? newDate)%string = true
  /\ runUpdate verbose w siteID st
     = (inr tt,
        mkSt (Table [mkRow newDate v0 v1 v2 v3 v4 v5 v6])
          ((logged st ++ entryLog verbose w siteID EmptyString)
           ++ [OK_New_date newDate; Numbers [n0; n1; n2; n3; n4; n5; n6];
               Data_inserted_successfully])).
Proof.
  intros D X E0 E1 E2 E3 E4 E5 E6.
  assert (Hlt : (EmptyString <? newDate)%string = true).
  { destruct (extraction_date verbose w siteID _ _ X) as (t & _ & ->).
    destruct (Format_nonempty t) as (c & s & ->). apply empty_ltb. }
  split; [|split].
  - unfold queryOldDate. now rewrite D.
  - exact Hlt.
  - rewrite (runUpdate_Table verbose w siteID st [] D), X.
    change (cursor []) with EmptyString.
    apply (compareAndInsert_insert EmptyString newDate
             n0 n1 n2 n3 n4 n5 n6 v0 v1 v2 v3 v4 v5 v6 []); auto.
Qed.

Lemma empty_store_first_record_persisted_witness :
  db (snd (runUpdate false (serving url5 scenarioB_csv) 5 (mkSt (Table []) [])))
  = Table [mkRow "2024-01-22" 3 17 22 41 49 5 11].
Proof.
  destruct (empty_store_first_record_persisted false
              (serving url5 scenarioB_csv) 5 (mkSt (Table []) [])
              "2024-01-22" "3" "17" "22" "41" "49" "5" "11"
              3 17 22 41 49 5 11
              eq_refl eq_refl eq_refl eq_refl eq_refl eq_refl eq_refl
              eq_refl eq_refl) as (_ & _ & H).
  rewrite H. reflexivity.
Defined.

End Freshness.

(* ================================================================== *)
(** * Validation of the token count                                    *)
(* ================================================================== *)

Section Validation.
Import Store Update Fixtures.

Lemma checkNumbers_first_bad (pre : list string) (num : string)
    (post : list string) (i : Z) (st : St) :
  Forall (fun x => strconv.Atoi x <> None) pre ->
  strconv.Atoi num = None ->
  checkNumbers i (pre ++ num :: post) st
  = (inl (invalid_number_at_position (i + Z.of_nat (List.length pre) + 1) num), st).
Proof.
  intros Hpre Hnum. revert i.
  induction Hpre as [|x pre Hx Hpre IH]; intros i.
  - simpl. rewrite Hnum, Z.add_0_r. reflexivity.
  - cbn [app checkNumbers]. destruct (strconv.Atoi x); [|contradiction].
    rewrite IH.
    replace (i + 1 + Z.of_nat (List.length pre) + 1)
      with (i + Z.of_nat (List.length (x :: pre)) + 1)
      by (cbn [List.length]; lia).
    reflexivity.
Qed.

(** C4 (as amended).  For every source, an extraction that does not hold
    exactly 7 tokens never causes an insert: the store is left as it was.
    When its date is strictly greater than the latest stored date the
    attempt is rejected with the invalid-number-of-results error, which
    carries the number of tokens found (fewer or more than 7); when its
    date is equal or earlier the attempt returns success as a skip.  The
    numeric check of the CSV source rejects the first value [strconv.Atoi]
    refuses with an error naming its position (from 1) and its text. *)
Theorem wrong_count_never_inserted (verbose : bool) (w : World) (siteID : Z)
    (st : St) (rows : list Row) (newDate : string) (numbers : list string) :
  db st = Table rows ->
  extraction verbose w siteID = inr (newDate, numbers) ->
  List.length numbers <> 7%nat ->
  db (snd (runUpdate verbose w siteID st)) = Table rows
  /\ ((cursor rows <? newDate)%string = true ->
      fst (runUpdate verbose w siteID st)
      = inl (invalid_number_of_results (Z.of_nat (List.length numbers))))
  /\ ((cursor rows <? newDate)%string = false ->
      fst (runUpdate verbose w siteID st) = inr tt)
  /\ (forall pre num post s,
        Forall (fun x => strconv.Atoi x <> None) pre ->
        strconv.Atoi num = None ->
        checkNumbers 0 (pre ++ num :: post) s
        = (inl (invalid_number_at_position (Z.of_nat (List.length pre) + 1) num), s))
  /\ siteID <> 3 /\ siteID <> 5
  /\ (siteID = 4 -> (7 < List.length numbers)%nat).
Proof.
  intros D X Hlen.
  destruct (extraction_count verbose w siteID newDate numbers X) as [C35 C4].
  assert (Sites : siteID <> 3 /\ siteID <> 5
                  /\ (siteID = 4 -> (7 < List.length numbers)%nat)).
  { repeat split.
    - intros E. apply Hlen, C35. now left.
    - intros E. apply Hlen, C35. now right.
    - intros E. specialize (C4 E). lia. }
  destruct Sites as (S3 & S5 & S4).
  assert (CN : forall pre num post s,
    Forall (fun x => strconv.Atoi x <> None) pre ->
    strconv.Atoi num = None ->
    checkNumbers 0 (pre ++ num :: post) s
    = (inl (invalid_number_at_position (Z.of_nat (List.length pre) + 1) num), s)).
  { intros pre num post s Hpre Hnum.
    now rewrite (checkNumbers_first_bad pre num post 0 s Hpre Hnum). }
  rewrite (runUpdate_Table verbose w siteID st rows D), X.
  destruct (cursor rows <? newDate)%string eqn:Hlt.
  - rewrite compareAndInsert_count by assumption. cbn [fst snd db].
    repeat split; try reflexivity; try discriminate; assumption.
  - destruct (String.eqb_spec newDate (cursor rows)) as [->|Hne].
    + rewrite compareAndInsert_same. cbn [fst snd db].
      repeat split; try reflexivity; try discriminate; assumption.
    + rewrite compareAndInsert_stale by assumption. cbn [fst snd db].
      repeat split; try reflexivity; try discriminate; assumption.
Qed.

Lemma wrong_count_never_inserted_witness :
  fst (runUpdate false
         (serving url2 (euro_millions "22-01-2024" ["3"; "17"; "22"; "41"; "49"; "5"]))
         2 (mkSt (Table [row_2024_01_15]) []))
  = inl (invalid_number_of_results 6).
Proof.
  destruct (wrong_count_never_inserted false
              (serving url2 (euro_millions "22-01-2024"
                               ["3"; "17"; "22"; "41"; "49"; "5"]))
              2 (mkSt (Table [row_2024_01_15]) []) [row_2024_01_15]
              "2024-01-22" ["3"; "17"; "22"; "41"; "49"; "5"]
              eq_refl eq_refl) as (_ & H & _).
  - simpl. lia.
  - exact (H eq_refl).
Defined.

(** C4 as stated fails: source 2 serves six numbers under the date that is
    already the latest stored one; the attempt is not rejected, it returns
    success as a same-date skip. *)
Lemma short_list_not_rejected :
  extraction false
    (serving url2 (euro_millions "15-01-2024" ["3"; "17"; "22"; "41"; "49"; "5"])) 2
  = inr ("2024-01-15", ["3"; "17"; "22"; "41"; "49"; "5"])
  /\ runUpdate false
       (serving url2 (euro_millions "15-01-2024" ["3"; "17"; "22"; "41"; "49"; "5"]))
       2 (mkSt (Table [row_2024_01_15]) [])
     = (inr tt,
        mkSt (Table [row_2024_01_15])
          [Executing_option_for_Site_ID 2;
           Exiting_the_date_is_the_same "2024-01-15"]).
Proof. split; vm_compute; reflexivity. Qed.

End Validation.

(* ================================================================== *)
(** * Idempotence                                                      *)
(* ================================================================== *)

Section Idempotence.
Import Store Update Fixtures.

(** C2.  Running an attempt twice on unchanged source content: the second
    run writes nothing, whatever the first did.  When the first run
    persisted the record, the second re-reads the latest stored date, finds
    it equal to the extracted date, logs that the date is the same and
    returns success, so that exactly one row of that date is stored.  When
    the first run already found the extracted date as the latest stored
    one, both runs end in that same way.  When the extracted date is below
    the latest stored one, both runs end on the message that the old date
    is more recent, and the table stays as it was. *)
Theorem ingestion_idempotent (verbose : bool) (w : World) (siteID : Z)
    (st st1 st2 : St) (r1 r2 : error + unit) :
  runUpdate verbose w siteID st = (r1, st1) ->
  runUpdate verbose w siteID st1 = (r2, st2) ->
  db st2 = db st1
  /\ (forall rows row,
       db st = Table rows -> db st1 = Table (rows ++ [row]) ->
       r2 = inr tt
       /\ logged st2
          = ((logged st1 ++ entryLog verbose w siteID (date row))
             ++ [Exiting_the_date_is_the_same (date row)])%list
       /\ countDate (date row) (rows ++ [row]) = 1%nat)
  /\ (forall rows numbers,
        db st = Table rows ->
        extraction verbose w siteID = inr (cursor rows, numbers) ->
        r1 = inr tt /\ r2 = inr tt /\ db st2 = Table rows
        /\ logged st2
           = ((logged st1 ++ entryLog verbose w siteID (cursor rows))
              ++ [Exiting_the_date_is_the_same (cursor rows)])%list)
  /\ (forall rows newDate numbers,
        db st = Table rows ->
        extraction verbose w siteID = inr (newDate, numbers) ->
        (newDate <? cursor rows)%string = true ->
        r1 = inr tt /\ r2 = inr tt /\ db st1 = Table rows /\ db st2 = Table rows
        /\ logged st2
           = ((logged st1 ++ entryLog verbose w siteID (cursor rows))
              ++ [Exiting_the_old_date_is_more_recent])%list).
Proof.
  intros R1 R2.
  pose proof (runUpdate_cases verbose w siteID st) as C. rewrite R1 in C.
  assert (Second : forall rows newDate numbers v0 v1 v2 v3 v4 v5 v6,
    db st1 = Table (rows ++ [mkRow newDate v0 v1 v2 v3 v4 v5 v6]) ->
    extraction verbose w siteID = inr (newDate, numbers) ->
    (cursor rows <? newDate)%string = true ->
    (r2, st2)
    = (inr tt,
       mkSt (Table (rows ++ [mkRow newDate v0 v1 v2 v3 v4 v5 v6]))
         ((logged st1 ++ entryLog verbose w siteID newDate)
          ++ [Exiting_the_date_is_the_same newDate]))).
  { intros rows newDate numbers v0 v1 v2 v3 v4 v5 v6 D1 X Hlt.
    rewrite <- R2, (runUpdate_Table verbose w siteID st1 _ D1), X.
    rewrite (cursor_snoc rows (mkRow newDate v0 v1 v2 v3 v4 v5 v6) Hlt).
    apply compareAndInsert_same. }
  split; [|split; [|split]].
  - destruct C as [Same | (_ & rows & n & n0 & n1 & n2 & n3 & n4 & n5 & n6
                             & v0 & v1 & v2 & v3 & v4 & v5 & v6
                             & D & D1 & X & Hlt & _)].
    + destruct (runUpdate_deterministic verbose w siteID st1 st Same) as [_ E].
      rewrite R1, R2 in E. cbn [snd] in E. exact E.
    + specialize (Second _ _ _ _ _ _ _ _ _ _ D1 X Hlt).
      injection Second as _ ->. cbn [db]. now rewrite D1.
  - intros rows row D D1.
    destruct C as [Same | (_ & rows' & n & n0 & n1 & n2 & n3 & n4 & n5 & n6
                             & v0 & v1 & v2 & v3 & v4 & v5 & v6
                             & D' & D1' & X & Hlt & Hnew & _)].
    + rewrite Same, D in D1. injection D1 as E.
      symmetry in E. now apply snoc_neq in E.
    + rewrite D in D'. injection D' as <-.
      rewrite D1 in D1'. injection D1' as E.
      apply app_inj_tail in E as [_ ->]. cbn [date].
      specialize (Second _ _ _ _ _ _ _ _ _ _ D1 X Hlt).
      injection Second as -> ->. cbn [logged].
      repeat split. now apply (countDate_snoc rows (mkRow n v0 v1 v2 v3 v4 v5 v6)).
  - intros rows numbers D X.
    rewrite (runUpdate_Table verbose w siteID st rows D), X,
      compareAndInsert_same in R1.
    injection R1 as <- <-.
    rewrite (runUpdate_Table verbose w siteID (mkSt (Table rows) _) rows eq_refl),
      X, compareAndInsert_same in R2.
    injection R2 as <- <-. repeat split.
  - intros rows newDate numbers D X Hlt.
    assert (Hge : (cursor rows <? newDate)%string = false) by now apply ltb_asym.
    assert (Hne : newDate <> cursor rows).
    { intros E. rewrite E, ltb_irrefl in Hlt. discriminate. }
    rewrite (runUpdate_Table verbose w siteID st rows D), X,
      (compareAndInsert_stale _ _ _ _ Hge Hne) in R1.
    injection R1 as <- <-.
    rewrite (runUpdate_Table verbose w siteID (mkSt (Table rows) _) rows eq_refl),
      X, (compareAndInsert_stale _ _ _ _ Hge Hne) in R2.
    injection R2 as <- <-. repeat split.
Qed.

Lemma ingestion_idempotent_witness :
  countDate "2024-01-22"
    ([row_2024_01_15] ++ [mkRow "2024-01-22" 3 17 22 41 49 5 11]) = 1%nat.
Proof.
  destruct (ingestion_idempotent false (serving url5 scenarioB_csv) 5
              (mkSt (Table [row_2024_01_15]) [])
              (mkSt (Table [row_2024_01_15; mkRow "2024-01-22" 3 17 22 41 49 5 11])
                 [Executing_option_for_Site_ID 5; OK_New_date "2024-01-22";
                  Numbers ["3"; "17"; "22"; "41"; "49"; "5"; "11"];
                  Data_inserted_successfully])
              (mkSt (Table [row_2024_01_15; mkRow "2024-01-22" 3 17 22 41 49 5 11])
                 [Executing_option_for_Site_ID 5; OK_New_date "2024-01-22";
                  Numbers ["3"; "17"; "22"; "41"; "49"; "5"; "11"];
                  Data_inserted_successfully;
                  Executing_option_for_Site_ID 5;
                  Exiting_the_date_is_the_same "2024-01-22"])
              (inr tt) (inr tt) eq_refl eq_refl) as (_ & H & _).
  exact (proj2 (proj2 (H [row_2024_01_15]
                         (mkRow "2024-01-22" 3 17 22 41 49 5 11)
                         eq_refl eq_refl))).
Defined.

(** C2 as stated fails: source 1 serves, on both runs, the page of the
    draw of 08.01.2024 while the latest stored date is 2024-01-15.  Both
    runs end on the message that the old date is more recent, not on the
    one that the date is the same, and no row of 2024-01-08 is stored. *)
Lemma unchanged_stale_content_never_stored :
  runUpdate false (serving url1 (euromilhoes "08.01.2024" seven)) 1
    (mkSt (Table [row_2024_01_15]) [])
  = (inr tt,
     mkSt (Table [row_2024_01_15])
       [Executing_option_for_Site_ID 1; Exiting_the_old_date_is_more_recent])
  /\ runUpdate false (serving url1 (euromilhoes "08.01.2024" seven)) 1
       (mkSt (Table [row_2024_01_15])
          [Executing_option_for_Site_ID 1; Exiting_the_old_date_is_more_recent])
     = (inr tt,
        mkSt (Table [row_2024_01_15])
          [Executing_option_for_Site_ID 1; Exiting_the_old_date_is_more_recent;
           Executing_option_for_Site_ID 1; Exiting_the_old_date_is_more_recent])
  /\ extraction false (serving url1 (euromilhoes "08.01.2024" seven)) 1
     = inr ("2024-01-08", seven)
  /\ countDate "2024-01-08" [row_2024_01_15] = 0%nat.
Proof. repeat split; vm_compute; reflexivity. Qed.

End Idempotence.

(* ================================================================== *)
(** * From the updater to the read service                             *)
(* ================================================================== *)

Section RoundTrip.
Import Store Update Fixtures.

Lemma sliceFrom_date_path (d : string) :
  GoStrings.sliceFrom ("/results/date/" ++ d) (String.length "/results/date/") = d.
Proof. reflexivity. Qed.

(** The exact-date lookup of a date that [Format] wrote and that is stored
    once, at the end of the table. *)
Lemma dateHandler_last_row (rows : list Row) (row : Row) (t : time.Time)
    (fmt : string) :
  time.validDate t ->
  date row = time.Format_2006_01_02 t ->
  hasDate (date row) rows = false ->
  Api.dateHandler (Table (rows ++ [row]))
    (Api.mkRequest "GET" ("/results/date/" ++ date row) fmt)
  = Api.sendResponse (Api.mkRequest "GET" ("/results/date/" ++ date row) fmt)
      [Api.scanRow row].
Proof.
  intros Hv Hd Hnew. unfold Api.dateHandler.
  cbn [Api.Method Api.Path]. rewrite sliceFrom_date_path.
  change (negb ("GET" =? "GET")%string) with false. cbn iota.
  destruct (Format_nonempty t) as (c & s & E).
  assert (Hne : (date row =? EmptyString)%string = false)
    by (rewrite Hd, E; reflexivity).
  assert (HP : time.Parse time.layout_2006_01_02 (date row) = Some t)
    by (rewrite Hd; now apply Parse_Format_2006_01_02).
  rewrite Hne, HP.
  now rewrite (selectByDate_snoc rows row Hnew).
Qed.

(** C5.  A record the updater persisted (the row appended by a successful
    attempt holds the extracted date and the integers the seven extracted
    tokens spell, in their order) is returned by the read service's
    exact-date lookup with the same date, the same five main numbers in
    their order and the same two star numbers in their order. *)
Theorem persisted_round_trip (verbose : bool) (w : World) (siteID : Z)
    (st st' : St) (rows : list Row) (row : Row) :
  db st = Table rows ->
  runUpdate verbose w siteID st = (inr tt, st') ->
  db st' = Table (rows ++ [row]) ->
  (exists n0 n1 n2 n3 n4 n5 n6,
      extraction verbose w siteID = inr (date row, [n0; n1; n2; n3; n4; n5; n6])
      /\ strconv.Atoi n0 = Some (number_1 row)
      /\ strconv.Atoi n1 = Some (number_2 row)
      /\ strconv.Atoi n2 = Some (number_3 row)
      /\ strconv.Atoi n3 = Some (number_4 row)
      /\ strconv.Atoi n4 = Some (number_5 row)
      /\ strconv.Atoi n5 = Some (star_1 row)
      /\ strconv.Atoi n6 = Some (star_2 row))
  /\ (forall fmt,
        Api.dateHandler (db st')
          (Api.mkRequest "GET" ("/results/date/" ++ date row) fmt)
        = Api.sendResponse
            (Api.mkRequest "GET" ("/results/date/" ++ date row) fmt)
            [Api.mkResult (date row)
               [number_1 row; number_2 row; number_3 row; number_4 row;
                number_5 row]
               [star_1 row; star_2 row]])
  /\ Api.dateHandler (db st')
       (Api.mkRequest "GET" ("/results/date/" ++ date row) EmptyString)
     = Api.mkResponse Api.StatusOK "application/json"
         (Api.json_Result
            (Api.mkResult (date row)
               [number_1 row; number_2 row; number_3 row; number_4 row;
                number_5 row]
               [star_1 row; star_2 row])).
Proof.
  intros D R D1.
  pose proof (runUpdate_cases verbose w siteID st) as C. rewrite R in C.
  destruct C as [Same | (_ & rows' & n & n0 & n1 & n2 & n3 & n4 & n5 & n6
                           & v0 & v1 & v2 & v3 & v4 & v5 & v6
                           & D' & D1' & X & Hlt & Hnew & T)].
  { rewrite Same, D in D1. injection D1 as E.
    symmetry in E. now apply snoc_neq in E. }
  rewrite D in D'. injection D' as <-.
  rewrite D1 in D1'. injection D1' as E.
  apply app_inj_tail in E as [_ ->]. cbn [date number_1 number_2 number_3
    number_4 number_5 star_1 star_2].
  destruct (extraction_date verbose w siteID _ _ X) as (t & Hv & Hd).
  assert (L : forall fmt,
    Api.dateHandler (db st') (Api.mkRequest "GET" ("/results/date/" ++ n) fmt)
    = Api.sendResponse (Api.mkRequest "GET" ("/results/date/" ++ n) fmt)
        [Api.mkResult n [v0; v1; v2; v3; v4] [v5; v6]]).
  { intros fmt. rewrite D1.
    exact (dateHandler_last_row rows (mkRow n v0 v1 v2 v3 v4 v5 v6) t fmt
             Hv Hd Hnew). }
  split; [|split].
  - exists n0, n1, n2, n3, n4, n5, n6. unfold integerOfText in T. tauto.
  - exact L.
  - rewrite L. reflexivity.
Qed.

Lemma persisted_round_trip_witness :
  Api.dateHandler
    (Table [row_2024_01_15; mkRow "2024-01-22" 3 17 22 41 49 5 11])
    (Api.mkRequest "GET" "/results/date/2024-01-22" EmptyString)
  = Api.mkResponse Api.StatusOK "application/json"
      (Api.json_Result
         (Api.mkResult "2024-01-22" [3; 17; 22; 41; 49] [5; 11])).
Proof.
  exact (proj2 (proj2
    (persisted_round_trip false (serving url5 scenarioB_csv) 5
       (mkSt (Table [row_2024_01_15]) [])
       (mkSt (Table [row_2024_01_15; mkRow "2024-01-22" 3 17 22 41 49 5 11])
          [Executing_option_for_Site_ID 5; OK_New_date "2024-01-22";
           Numbers ["3"; "17"; "22"; "41"; "49"; "5"; "11"];
           Data_inserted_successfully])
       [row_2024_01_15] (mkRow "2024-01-22" 3 17 22 41 49 5 11)
       eq_refl eq_refl eq_refl))).
Defined.

(** C6.  The CSV source on the payload of Scenario B: the first [Read]
    returns the header row, which the code discards; the second returns the
    data row; its first column [22-Jan-2024] parses to 22 January 2024 and
    is written as [2024-01-22]; columns 1 to 7 are the numbers.  With
    2024-01-15 as the latest stored date the attempt stores the row, which
    the read service returns with main numbers 3, 17, 22, 41, 49 and star
    numbers 5, 11. *)
Theorem scenarioB_csv_extraction :
  fst (csv.Read (csv.NewReader scenarioB_csv))
  = csv.Ok ["DrawDate"; "Ball1"; "Ball2"; "Ball3"; "Ball4"; "Ball5";
            "Star1"; "Star2"]
  /\ fst (csv.Read (snd (csv.Read (csv.NewReader scenarioB_csv))))
     = csv.Ok ["22-Jan-2024"; "3"; "17"; "22"; "41"; "49"; "5"; "11"]
  /\ time.Parse time.layout_02_Jan_2006 "22-Jan-2024"
     = Some (time.mkTime 2024 1 22)
  /\ extraction false (serving url5 scenarioB_csv) 5
     = inr ("2024-01-22", ["3"; "17"; "22"; "41"; "49"; "5"; "11"])
  /\ runUpdate false (serving url5 scenarioB_csv) 5
       (mkSt (Table [row_2024_01_15]) [])
     = (inr tt,
        mkSt (Table [row_2024_01_15; mkRow "2024-01-22" 3 17 22 41 49 5 11])
          [Executing_option_for_Site_ID 5; OK_New_date "2024-01-22";
           Numbers ["3"; "17"; "22"; "41"; "49"; "5"; "11"];
           Data_inserted_successfully])
  /\ Api.dateHandler
       (Table [row_2024_01_15; mkRow "2024-01-22" 3 17 22 41 49 5 11])
       (Api.mkRequest "GET" "/results/date/2024-01-22" EmptyString)
     = Api.mkResponse Api.StatusOK "application/json"
         (Api.json_Result
            (Api.mkResult "2024-01-22" [3; 17; 22; 41; 49] [5; 11])).
Proof. repeat split; vm_compute; reflexivity. Qed.

End RoundTrip.

(* ================================================================== *)
(** * Runs over all sources                                            *)
(* ================================================================== *)

Section AllSources.
Import Store Update Fixtures.

Variable verbose : bool.
Variable web : Z -> World.

Lemma updateSite_db (id : Z) (st : St) :
  db (updateSite verbose web id st)
  = db (snd (runUpdate verbose (web id) id st)).
Proof.
  unfold updateSite.
  destruct (runUpdate verbose (web id) id st) as [[e|u] st']; reflexivity.
Qed.

Lemma updateSites_app (a b : list Z) (st : St) :
  updateSites verbose web (a ++ b) st
  = updateSites verbose web b (updateSites verbose web a st).
Proof.
  revert st. induction a as [|id a IH]; intros st; simpl; [reflexivity|].
  apply IH.
Qed.

(** The store only grows: a stored date stays stored through an attempt. *)
Lemma updateSite_keeps_date (id : Z) (st : St) (rows : list Row) (d : string) :
  db st = Table rows -> hasDate d rows = true ->
  exists rows',
    db (updateSite verbose web id st) = Table rows' /\ hasDate d rows' = true.
Proof.
  intros D H. rewrite updateSite_db.
  pose proof (runUpdate_cases verbose (web id) id st) as C.
  destruct (runUpdate verbose (web id) id st) as [r st']. cbn [snd].
  destruct C as [Same | (_ & rows0 & n & n0 & n1 & n2 & n3 & n4 & n5 & n6
                           & v0 & v1 & v2 & v3 & v4 & v5 & v6
                           & D0 & D1 & _)].
  - exists rows. split; [congruence | exact H].
  - rewrite D in D0. injection D0 as <-.
    eexists. split; [exact D1|]. rewrite hasDate_app, H. reflexivity.
Qed.

Lemma updateSites_keeps_date (ids : list Z) (st : St) (rows : list Row)
    (d : string) :
  db st = Table rows -> hasDate d rows = true ->
  exists rows',
    db (updateSites verbose web ids st) = Table rows' /\ hasDate d rows' = true.
Proof.
  revert st rows. induction ids as [|id ids IH]; intros st rows D H; simpl.
  - eauto.
  - destruct (updateSite_keeps_date id st rows d D H) as (rows1 & D1 & H1).
    eapply IH; eauto.
Qed.

Lemma updateSite_attempted (id : Z) (st : St) :
  attempted (logged (updateSite verbose web id st))
  = (attempted (logged st) ++ [id])%list.
Proof.
  destruct st as [d l]. unfold updateSite.
  destruct (runUpdate_frame verbose (web id) id d) as (r & d' & added & Q & F).
  rewrite (F l). cbn [logged].
  destruct r as [e|u]; cbn [logged db]; rewrite ?attempted_app, Q;
    cbn [attempted]; now rewrite ?app_nil_r.
Qed.

Lemma updateSites_attempted (ids : list Z) (st : St) :
  attempted (logged (updateSites verbose web ids st))
  = (attempted (logged st) ++ ids)%list.
Proof.
  revert st. induction ids as [|id ids IH]; intros st; simpl.
  - now rewrite app_nil_r.
  - rewrite IH, updateSite_attempted, <- app_assoc. reflexivity.
Qed.

(** C7 (as amended).  The cursor is read from the store at the start of
    every attempt.  In a run over several sources in which an earlier
    source inserted the draw of some date, every later source that extracts
    that same date finds the date stored and a cursor that is not below it:
    it returns success and writes nothing, as a same-date skip when the
    cursor is that date (which it is when nothing was stored in between),
    and as an older-date skip when a source in between stored a later
    date. *)
Theorem later_source_never_reinserts (first : Z) (between : list Z) (later : Z)
    (st : St) (rows : list Row) (row : Row) (numbers : list string) :
  db st = Table rows ->
  db (updateSite verbose web first st) = Table (rows ++ [row]) ->
  extraction verbose (web later) later = inr (date row, numbers) ->
  let before :=
    updateSites verbose web between (updateSite verbose web first st) in
  exists rows',
    db before = Table rows'
    /\ hasDate (date row) rows' = true
    /\ (cursor rows' <? date row)%string = false
    /\ (cursor rows' = date row ->
        runUpdate verbose (web later) later before
        = (inr tt,
           mkSt (Table rows')
             ((logged before ++ entryLog verbose (web later) later (cursor rows'))
              ++ [Exiting_the_date_is_the_same (date row)])))
    /\ (cursor rows' <> date row ->
        runUpdate verbose (web later) later before
        = (inr tt,
           mkSt (Table rows')
             ((logged before ++ entryLog verbose (web later) later (cursor rows'))
              ++ [Exiting_the_old_date_is_more_recent])))
    /\ (rows' = (rows ++ [row])%list -> cursor rows' = date row).
Proof.
  intros D D1 X before.
  assert (Stored : hasDate (date row) (rows ++ [row]) = true).
  { rewrite hasDate_app. simpl. now rewrite String.eqb_refl, orb_true_r. }
  destruct (updateSites_keeps_date between _ _ _ D1 Stored) as (rows' & Db & Hs).
  fold before in Db. exists rows'.
  pose proof (stored_not_above_cursor rows' (date row) Hs) as Hle.
  repeat split; try assumption.
  - intros E. rewrite (runUpdate_Table verbose (web later) later before rows' Db), X.
    rewrite E. apply compareAndInsert_same.
  - intros Hne. rewrite (runUpdate_Table verbose (web later) later before rows' Db), X.
    apply compareAndInsert_stale; [assumption | congruence].
  - intros ->. apply cursor_snoc.
    rewrite updateSite_db in D1.
    pose proof (runUpdate_cases verbose (web first) first st) as C.
    destruct (runUpdate verbose (web first) first st) as [r st1]. cbn [snd] in D1.
    destruct C as [Same | (_ & rows0 & n & n0 & n1 & n2 & n3 & n4 & n5 & n6
                             & v0 & v1 & v2 & v3 & v4 & v5 & v6
                             & D0 & D1' & _ & Hlt & _)].
    + rewrite Same, D in D1. injection D1 as E.
      symmetry in E. now apply snoc_neq in E.
    + rewrite D in D0. injection D0 as <-.
      rewrite D1 in D1'. injection D1' as E.
      apply app_inj_tail in E as [_ ->]. exact Hlt.
Qed.

(** C8.  Errors stay within the attempt they arise in.  An attempt that
    returns an error has written nothing to the store.  In a run over a
    list of sources the error is logged and the run goes on with the
    remaining sources from the store as it was; in "all" mode the sources
    attempted are 1, 2, 3, 4, 5 in that order, whatever fails, and the
    run ends with status 0.  In single-source mode the error is logged and
    the run ends with status 1. *)
Theorem errors_isolated_per_source :
  (forall pre id post st e st',
      runUpdate verbose (web id) id (updateSites verbose web pre st) = (inl e, st') ->
      db st' = db (updateSites verbose web pre st)
      /\ updateSites verbose web (pre ++ id :: post) st
         = updateSites verbose web post
             (mkSt (db st') (logged st' ++ [Error_processing_site id e])))
  /\ (forall flags st,
        databasePath flags <> EmptyString ->
        siteIDStr flags = "all" ->
        verboseFlag flags = verbose ->
        main flags web st = (0, updateSites verbose web [1; 2; 3; 4; 5] st)
        /\ attempted (logged (snd (main flags web st)))
           = (attempted (logged st) ++ [1; 2; 3; 4; 5])%list)
  /\ (forall flags st siteID e st',
        databasePath flags <> EmptyString ->
        strconv.Atoi (siteIDStr flags) = Some siteID ->
        verboseFlag flags = verbose ->
        runUpdate verbose (web siteID) siteID st = (inl e, st') ->
        main flags web st = (1, mkSt (db st') (logged st' ++ [Fatal e]))
        /\ db st' = db st).
Proof.
  split; [|split].
  - intros pre id post st e st' R. split.
    + exact (runUpdate_error verbose (web id) id _ _ _ R).
    + rewrite updateSites_app. cbn [updateSites]. unfold updateSite.
      now rewrite R.
  - intros flags st Hdb Hall Hv. unfold main.
    apply String.eqb_neq in Hdb. rewrite Hdb, Hall, Hv. cbn [String.eqb orb].
    change (("all" =? "all")%string) with true. cbn iota. split; [reflexivity|].
    cbn [snd]. apply updateSites_attempted.
  - intros flags st siteID e st' Hdb HA Hv R. unfold main.
    assert (Hall : (siteIDStr flags =? "all")%string = false).
    { apply String.eqb_neq. intros E. rewrite E in HA. discriminate HA. }
    apply String.eqb_neq in Hdb. rewrite Hdb, Hall, HA, Hv, R.
    assert (Hs : (siteIDStr flags =? EmptyString)%string = false).
    { apply String.eqb_neq. intros E. rewrite E in HA. discriminate HA. }
    rewrite Hs. split; [reflexivity|].
    exact (runUpdate_error verbose (web siteID) siteID _ _ _ R).
Qed.

End AllSources.

Section AllSourcesExamples.
Import Store Update Fixtures.

Lemma later_source_never_reinserts_witness :
  exists rows',
    db (updateSites false scenarioC_web [2; 3]
          (updateSite false scenarioC_web 1 store_2024_01_15))
    = Table rows'
    /\ runUpdate false (scenarioC_web 4) 4
         (updateSites false scenarioC_web [2; 3]
            (updateSite false scenarioC_web 1 store_2024_01_15))
       = (inr tt,
          mkSt (Table rows')
            ((logged (updateSites false scenarioC_web [2; 3]
                        (updateSite false scenarioC_web 1 store_2024_01_15))
              ++ entryLog false (scenarioC_web 4) 4 (cursor rows'))
             ++ [Exiting_the_date_is_the_same "2024-02-05"])).
Proof.
  destruct (later_source_never_reinserts false scenarioC_web 1 [2; 3] 4
              store_2024_01_15 [row_2024_01_15] row_2024_02_05 seven
              eq_refl eq_refl eq_refl)
    as (rows' & Db & _ & _ & Same & _ & Last).
  exists rows'. split; [exact Db|].
  apply Same. apply Last.
  assert (E : db (updateSites false scenarioC_web [2; 3]
                    (updateSite false scenarioC_web 1 store_2024_01_15))
              = Table ([row_2024_01_15] ++ [row_2024_02_05]))
    by reflexivity.
  rewrite E in Db. now injection Db.
Defined.

(** C7 as stated fails: source 1 inserts the draw of 2024-02-05, source 2
    then inserts the draw of 2024-02-09; source 4 extracts 2024-02-05
    again, reads 2024-02-09 as the latest stored date and ends as an
    older-date skip, not as a same-date skip. *)
Lemma later_source_sees_newer_date :
  db (updateSite false source2_ahead_web 1 store_2024_01_15)
  = Table [row_2024_01_15; row_2024_02_05]
  /\ extraction false (source2_ahead_web 4) 4 = inr ("2024-02-05", seven)
  /\ db (updateSites false source2_ahead_web [2; 3]
           (updateSite false source2_ahead_web 1 store_2024_01_15))
     = Table [row_2024_01_15; row_2024_02_05; row_2024_02_09]
  /\ cursor [row_2024_01_15; row_2024_02_05; row_2024_02_09] = "2024-02-09"
  /\ runUpdate false (source2_ahead_web 4) 4
       (mkSt (Table [row_2024_01_15; row_2024_02_05; row_2024_02_09]) [])
     = (inr tt,
        mkSt (Table [row_2024_01_15; row_2024_02_05; row_2024_02_09])
          [Executing_option_for_Site_ID 4;
           Exiting_the_old_date_is_more_recent]).
Proof. repeat split; vm_compute; reflexivity. Qed.

Lemma errors_isolated_per_source_witness :
  updateSites false (fun _ => offline) ([] ++ 1 :: [2; 3; 4; 5]) store_2024_01_15
  = updateSites false (fun _ => offline) [2; 3; 4; 5]
      (mkSt (Table [row_2024_01_15])
         ([Executing_option_for_Site_ID 1]
          ++ [Error_processing_site 1
                (failed_to_fetch_page (transportError url1))])).
Proof.
  exact (proj2 (proj1 (errors_isolated_per_source false (fun _ => offline))
                  [] 1 [2; 3; 4; 5] store_2024_01_15
                  (failed_to_fetch_page (transportError url1))
                  (mkSt (Table [row_2024_01_15]) [Executing_option_for_Site_ID 1])
                  eq_refl)).
Defined.

End AllSourcesExamples.

(* ================================================================== *)
(** * The shape of the read service's responses                        *)
(* ================================================================== *)

Section ResponseShape.
Import Store Api.

(** C10.  For the JSON and XML formats the body depends on the number of
    results: exactly one result is encoded as that bare record, any other
    number as the array (JSON) or under the [results] root element (XML).
    So [GET /results] on a store of exactly one row answers with a single
    object, not with a one-element list. *)
Theorem single_result_is_bare_object (r : Request) (results : list Result) :
  (GoStrings.ToLower (format r) = "xml" ->
     (forall one, results = [one] ->
        sendResponse r results = mkResponse StatusOK "application/xml" (xml_Result one))
     /\ (List.length results <> 1%nat ->
         sendResponse r results
         = mkResponse StatusOK "application/xml"
             (xml_AllResults (mkAllResults results)))
     /\ (forall row,
           Method r = "GET" ->
           resultsHandler (Table [row]) r
           = mkResponse StatusOK "application/xml" (xml_Result (scanRow row))))
  /\ (GoStrings.ToLower (format r) <> "xml" ->
      GoStrings.ToLower (format r) <> "plaintext" ->
      (forall one, results = [one] ->
         sendResponse r results
         = mkResponse StatusOK "application/json" (json_Result one))
      /\ (List.length results <> 1%nat ->
          sendResponse r results
          = mkResponse StatusOK "application/json" (json_Results results))
      /\ (forall row,
            Method r = "GET" ->
            resultsHandler (Table [row]) r
            = mkResponse StatusOK "application/json" (json_Result (scanRow row)))).
Proof.
  split.
  - intros Hx.
    assert (X : forall rs, sendResponse r rs
                = match rs with
                  | [one] => mkResponse StatusOK "application/xml" (xml_Result one)
                  | _ => mkResponse StatusOK "application/xml"
                           (xml_AllResults (mkAllResults rs))
                  end).
    { intros rs. unfold sendResponse. now rewrite Hx. }
    split; [|split].
    + intros one ->. apply X.
    + intros Hlen. rewrite X. destruct results as [|a [|b l]]; try reflexivity.
      now destruct Hlen.
    + intros row HG. unfold resultsHandler, getAllResults. rewrite HG.
      change (negb ("GET" =? "GET")%string) with false. cbn iota.
      cbn [orderByDateDesc fold_right insertDesc map]. apply X.
  - intros Hx Hp.
    apply String.eqb_neq in Hx, Hp.
    assert (J : forall rs, sendResponse r rs
                = match rs with
                  | [one] => mkResponse StatusOK "application/json" (json_Result one)
                  | _ => mkResponse StatusOK "application/json" (json_Results rs)
                  end).
    { intros rs. unfold sendResponse. now rewrite Hx, Hp. }
    split; [|split].
    + intros one ->. apply J.
    + intros Hlen. rewrite J. destruct results as [|a [|b l]]; try reflexivity.
      now destruct Hlen.
    + intros row HG. unfold resultsHandler, getAllResults. rewrite HG.
      change (negb ("GET" =? "GET")%string) with false. cbn iota.
      cbn [orderByDateDesc fold_right insertDesc map]. apply J.
Qed.

(** The selector is compared after [strings.ToLower], which lowers more
    than the ASCII letters: written with U+0130 (bytes C4 B0) for its [i],
    or in capitals, [plaintext] still selects the plain text format, and
    [XML] the XML format. *)
Lemma selector_is_lowered_by_rune :
  GoStrings.ToLower ("pla" ++ String "196" (String "176" "ntext")) = "plaintext"
  /\ GoStrings.ToLower "PlainText" = "plaintext"
  /\ GoStrings.ToLower "XML" = "xml"
  /\ sendResponse
       (mkRequest "GET" "/results"
          ("pla" ++ String "196" (String "176" "ntext")))
       [scanRow Fixtures.row_2024_01_15]
     = mkResponse StatusOK "text/plain"
         (plaintext [plainLineOf Fixtures.row_2024_01_15]).
Proof. repeat split; vm_compute; reflexivity. Qed.

Lemma single_result_is_bare_object_witness :
  resultsHandler (Table [Fixtures.row_2024_01_15])
    (mkRequest "GET" "/results" EmptyString)
  = mkResponse StatusOK "application/json"
      (json_Result (mkResult "2024-01-15" [1; 2; 3; 4; 5] [6; 7])).
Proof.
  refine (proj2 (proj2 (proj2 (single_result_is_bare_object
            (mkRequest "GET" "/results" EmptyString) []) _ _))
            Fixtures.row_2024_01_15 eq_refl); discriminate.
Defined.

End ResponseShape.

(* ================================================================== *)
(** * Dates: what is parsed, what is written, and their order          *)
(* ================================================================== *)

Section DateText.
Import GoStrings time.

Lemma digitChar_digitVal (c : ascii) :
  isDigit c = true -> digitChar (digitVal c) = c.
Proof.
  intros H. apply isDigit_range in H. unfold digitChar, digitVal in *.
  replace (48 + (byteVal c - 48)) with (byteVal c) by lia.
  unfold byteVal. rewrite N2Z.id. apply ascii_N_embedding.
Qed.

Lemma cutPrefix_Some (p s r : string) :
  cutPrefix p s = Some r -> s = p ++ r.
Proof.
  revert s. induction p as [|a p IH]; intros s; simpl.
  - now intros [= ->].
  - destruct s as [|c s]; [discriminate|].
    destruct (Ascii.eqb_spec a c) as [->|]; [|discriminate].
    intros H. now rewrite (IH _ H).
Qed.

Lemma cutPrefix_app (p r : string) : cutPrefix p (p ++ r) = Some r.
Proof.
  induction p as [|a p IH]; simpl; [reflexivity|].
  now rewrite Ascii.eqb_refl.
Qed.

Lemma getnum2_Some (s : string) (n : Z) (r : string) :
  getnum2 s = Some (n, r) -> s = pad2 n ++ r.
Proof.
  destruct s as [|a [|b s]]; simpl; try discriminate.
  destruct (isDigit a) eqn:Ha; destruct (isDigit b) eqn:Hb; simpl;
    try discriminate.
  intros [= <- <-]. unfold pad2.
  pose proof (isDigit_range a Ha). pose proof (isDigit_range b Hb).
  replace ((digitVal a * 10 + digitVal b) / 10 mod 10) with (digitVal a)
    by (Z.to_euclidean_division_equations; lia).
  replace ((digitVal a * 10 + digitVal b) mod 10) with (digitVal b)
    by (Z.to_euclidean_division_equations; lia).
  now rewrite !digitChar_digitVal.
Qed.

Lemma getyear_Some (s : string) (y : Z) (r : string) :
  getyear s = Some (y, r) -> s = pad4 y ++ r.
Proof.
  destruct s as [|a [|b [|c [|d s]]]]; simpl; try discriminate.
  destruct (isDigit a) eqn:Ha; destruct (isDigit b) eqn:Hb;
    destruct (isDigit c) eqn:Hc; destruct (isDigit d) eqn:Hd; simpl;
    try discriminate.
  intros [= <- <-]. unfold pad4, pad2.
  pose proof (isDigit_range a Ha). pose proof (isDigit_range b Hb).
  pose proof (isDigit_range c Hc). pose proof (isDigit_range d Hd).
  set (x := ((digitVal a * 10 + digitVal b) * 10 + digitVal c) * 10
            + digitVal d).
  replace (x / 1000 mod 10) with (digitVal a)
    by (subst x; Z.to_euclidean_division_equations; lia).
  replace (x / 100 mod 10) with (digitVal b)
    by (subst x; Z.to_euclidean_division_equations; lia).
  replace (x / 10 mod 10) with (digitVal c)
    by (subst x; Z.to_euclidean_division_equations; lia).
  replace (x mod 10) with (digitVal d)
    by (subst x; Z.to_euclidean_division_equations; lia).
  now rewrite !digitChar_digitVal.
Qed.

Lemma append_nil_r (s : string) : s ++ EmptyString = s.
Proof. induction s as [|c s IH]; simpl; congruence. Qed.

Lemma append_assoc (a b c : string) : (a ++ b) ++ c = a ++ (b ++ c).
Proof. induction a as [|x a IH]; simpl; congruence. Qed.

(** [time.Parse] is strict on the day-month-year layouts of sources 1 to
    4: it accepts a text exactly when the text is a two-digit day, the
    separator, a two-digit month, the separator and a four-digit year that
    together name an existing day; nothing is read leniently. *)
Theorem Parse_day_month_year_exact (sep1 sep2 value : string) (t : Time) :
  Parse [stdZeroDay; literal sep1; stdZeroMonth; literal sep2; stdLongYear] value
    = Some t
  <-> (validDate t
       /\ value = pad2 (Day t) ++ sep1 ++ pad2 (Month t) ++ sep2 ++ pad4 (Year t)).
Proof.
  split.
  - intros H. split; [exact (Parse_day_month_year_valid _ _ _ _ H)|].
    revert H. unfold Parse. cbn [parseChunks].
    destruct (getnum2 value) as [[d r1]|] eqn:Hd; try discriminate.
    destruct (cutPrefix sep1 r1) as [r2|] eqn:C1; try discriminate.
    destruct (getnum2 r2) as [[m r3]|] eqn:Hm; try discriminate.
    destruct ((m <=? 0) || (12 <? m)) eqn:Hrange; try discriminate.
    destruct (cutPrefix sep2 r3) as [r4|] eqn:C2; try discriminate.
    destruct (getyear r4) as [[y r5]|] eqn:Hy; try discriminate.
    destruct r5; try discriminate. cbn [fYear fMonth fDay].
    apply orb_false_iff in Hrange as [H1 H2].
    pose proof (getnum2_range _ _ _ Hd).
    destruct (m <? 0) eqn:Hm0; [lia|].
    destruct (d <? 0) eqn:Hd0; [lia|].
    destruct ((d <? 1) || (daysIn m y <? d)); try discriminate.
    intros [= <-]. cbn [Year Month Day].
    apply getnum2_Some in Hd, Hm. apply getyear_Some in Hy.
    apply cutPrefix_Some in C1, C2. subst.
    now rewrite append_nil_r.
  - intros ((Hy & Hm & Hd) & ->).
    pose proof (daysIn_le_31 (Month t) (Year t)) as H31.
    unfold Parse. cbn [parseChunks].
    rewrite getnum2_pad2 by lia. rewrite cutPrefix_app.
    rewrite getnum2_pad2 by lia.
    replace ((Month t <=? 0) || (12 <? Month t)) with false
      by (symmetry; apply orb_false_iff; split; lia).
    rewrite cutPrefix_app.
    rewrite <- (append_nil_r (pad4 (Year t))), getyear_pad4 by assumption.
    cbn [fYear fMonth fDay].
    replace (Month t <? 0) with false by (symmetry; apply Z.ltb_ge; lia).
    replace (Day t <? 0) with false by (symmetry; apply Z.ltb_ge; lia).
    replace ((Day t <? 1) || (daysIn (Month t) (Year t) <? Day t)) with false
      by (symmetry; apply orb_false_iff; split; apply Z.ltb_ge; lia).
    destruct t; reflexivity.
Qed.

Lemma Parse_day_month_year_exact_witness :
  Parse layout_02_01_2006_dots "22.01.2024" = Some (mkTime 2024 1 22).
Proof.
  apply (proj2 (Parse_day_month_year_exact "." "." "22.01.2024" (mkTime 2024 1 22))).
  split; [|reflexivity].
  unfold validDate; vm_compute; repeat split; discriminate.
Defined.

Lemma lookup_shortMonthName (m : Z) (r : string) :
  1 <= m <= 12 ->
  lookup shortMonthNames 1 (shortMonthName m ++ "-" ++ r) = Some (m, "-" ++ r).
Proof.
  intros H.
  assert (C : m = 1 \/ m = 2 \/ m = 3 \/ m = 4 \/ m = 5 \/ m = 6 \/ m = 7
              \/ m = 8 \/ m = 9 \/ m = 10 \/ m = 11 \/ m = 12) by lia.
  repeat (destruct C as [-> | C]; [reflexivity|]).
  subst m; reflexivity.
Qed.

(** The layout of the CSV source reads every existing day written as a
    two-digit day, the month's three-letter English abbreviation and a
    four-digit year, and the date it returns is that day. *)
Theorem Parse_02_Jan_2006_reads_every_day (t : Time) :
  validDate t ->
  Parse layout_02_Jan_2006
    (pad2 (Day t) ++ "-" ++ shortMonthName (Month t) ++ "-" ++ pad4 (Year t))
  = Some t.
Proof.
  intros (Hy & Hm & Hd).
  pose proof (daysIn_le_31 (Month t) (Year t)) as H31.
  unfold Parse, layout_02_Jan_2006. cbn [parseChunks].
  rewrite getnum2_pad2 by lia. rewrite cutPrefix_app.
  rewrite lookup_shortMonthName by assumption. rewrite cutPrefix_app.
  rewrite <- (append_nil_r (pad4 (Year t))), getyear_pad4 by assumption.
  cbn [fYear fMonth fDay].
  replace (Month t <? 0) with false by (symmetry; apply Z.ltb_ge; lia).
  replace (Day t <? 0) with false by (symmetry; apply Z.ltb_ge; lia).
  replace ((Day t <? 1) || (daysIn (Month t) (Year t) <? Day t)) with false
    by (symmetry; apply orb_false_iff; split; apply Z.ltb_ge; lia).
  destruct t; reflexivity.
Qed.

Lemma Parse_02_Jan_2006_reads_every_day_witness :
  Parse layout_02_Jan_2006 "29-Feb-2024" = Some (mkTime 2024 2 29).
Proof.
  apply (Parse_02_Jan_2006_reads_every_day (mkTime 2024 2 29)).
  unfold validDate; vm_compute; repeat split; discriminate.
Defined.

End DateText.

Section DateOrder.
Import GoStrings time.

Lemma digitChar_compare (a b : Z) :
  0 <= a <= 9 -> 0 <= b <= 9 ->
  Ascii.compare (digitChar a) (digitChar b) = (a ?= b).
Proof.
  intros Ha Hb.
  assert (A : a = 0 \/ a = 1 \/ a = 2 \/ a = 3 \/ a = 4 \/ a = 5 \/ a = 6
              \/ a = 7 \/ a = 8 \/ a = 9) by lia.
  assert (B : b = 0 \/ b = 1 \/ b = 2 \/ b = 3 \/ b = 4 \/ b = 5 \/ b = 6
              \/ b = 7 \/ b = 8 \/ b = 9) by lia.
  clear Ha Hb.
  repeat (destruct A as [-> | A]);
    repeat (destruct B as [-> | B]); subst; reflexivity.
Qed.

(** Two digits in front of two texts compare as the numbers they spell,
    then as the texts. *)
Lemma compare_pad2 (x y : Z) (r1 r2 : string) :
  0 <= x <= 99 -> 0 <= y <= 99 ->
  String.compare (pad2 x ++ r1) (pad2 y ++ r2)
  = match x ?= y with
    | Eq => String.compare r1 r2
    | c => c
    end.
Proof.
  intros Hx Hy. unfold pad2. cbn [append String.compare].
  rewrite !digitChar_compare
    by (Z.to_euclidean_division_equations; lia).
  destruct (Z.compare_spec (x / 10 mod 10) (y / 10 mod 10));
    destruct (Z.compare_spec (x mod 10) (y mod 10));
    destruct (Z.compare_spec x y);
    try reflexivity; exfalso; Z.to_euclidean_division_equations; lia.
Qed.

Lemma compare_pad4 (x y : Z) (r1 r2 : string) :
  0 <= x <= 9999 -> 0 <= y <= 9999 ->
  String.compare (pad4 x ++ r1) (pad4 y ++ r2)
  = match x ?= y with
    | Eq => String.compare r1 r2
    | c => c
    end.
Proof.
  intros Hx Hy. unfold pad4.
  change (String.compare
            (String (digitChar (x / 1000 mod 10))
               (String (digitChar (x / 100 mod 10)) (pad2 x ++ r1)))
            (String (digitChar (y / 1000 mod 10))
               (String (digitChar (y / 100 mod 10)) (pad2 y ++ r2)))
          = match x ?= y with Eq => String.compare r1 r2 | c => c end).
  cbn [String.compare].
  rewrite !digitChar_compare
    by (Z.to_euclidean_division_equations; lia).
  assert (P : String.compare (pad2 x ++ r1) (pad2 y ++ r2)
              = match (x mod 100 ?= y mod 100) with
                | Eq => String.compare r1 r2
                | c => c
                end).
  { rewrite <- (compare_pad2 (x mod 100) (y mod 100) r1 r2)
      by (Z.to_euclidean_division_equations; lia).
    unfold pad2.
    replace (x mod 100 / 10 mod 10) with (x / 10 mod 10)
      by (Z.to_euclidean_division_equations; lia).
    replace (y mod 100 / 10 mod 10) with (y / 10 mod 10)
      by (Z.to_euclidean_division_equations; lia).
    replace (x mod 100 mod 10) with (x mod 10)
      by (Z.to_euclidean_division_equations; lia).
    replace (y mod 100 mod 10) with (y mod 10)
      by (Z.to_euclidean_division_equations; lia).
    reflexivity. }
  rewrite P.
  destruct (Z.compare_spec (x / 1000 mod 10) (y / 1000 mod 10));
    destruct (Z.compare_spec (x / 100 mod 10) (y / 100 mod 10));
    destruct (Z.compare_spec (x mod 100) (y mod 100));
    destruct (Z.compare_spec x y);
    try reflexivity; exfalso; Z.to_euclidean_division_equations; lia.
Qed.

Lemma compare_Format (t1 t2 : Time) :
  validDate t1 -> validDate t2 ->
  String.compare (Format_2006_01_02 t1) (Format_2006_01_02 t2)
  = match Year t1 ?= Year t2 with
    | Eq =>
        match Month t1 ?= Month t2 with
        | Eq => Day t1 ?= Day t2
        | c => c
        end
    | c => c
    end.
Proof.
  intros (Hy1 & Hm1 & Hd1) (Hy2 & Hm2 & Hd2).
  pose proof (daysIn_le_31 (Month t1) (Year t1)).
  pose proof (daysIn_le_31 (Month t2) (Year t2)).
  unfold Format_2006_01_02.
  rewrite compare_pad4 by assumption.
  destruct (Year t1 ?= Year t2); try reflexivity.
  change (String.compare ("-" ++ pad2 (Month t1) ++ "-" ++ pad2 (Day t1))
            ("-" ++ pad2 (Month t2) ++ "-" ++ pad2 (Day t2)))
    with (String.compare (pad2 (Month t1) ++ "-" ++ pad2 (Day t1))
            (pad2 (Month t2) ++ "-" ++ pad2 (Day t2))).
  rewrite compare_pad2 by lia.
  destruct (Month t1 ?= Month t2); try reflexivity.
  change (String.compare ("-" ++ pad2 (Day t1)) ("-" ++ pad2 (Day t2)))
    with (String.compare (pad2 (Day t1) ++ EmptyString)
            (pad2 (Day t2) ++ EmptyString)).
  rewrite compare_pad2 by lia.
  now destruct (Day t1 ?= Day t2).
Qed.

(** The dates the updater stores are ordered as the days they name: for
    two existing days, the byte order of the written dates is the
    calendar order, and two written dates are equal only for the same
    day.  So the string comparison of [runUpdate] compares days. *)
Theorem written_dates_order_as_days (t1 t2 : Time) :
  validDate t1 -> validDate t2 ->
  (Format_2006_01_02 t1 <? Format_2006_01_02 t2)%string = before t1 t2
  /\ (Format_2006_01_02 t1 = Format_2006_01_02 t2 -> t1 = t2).
Proof.
  intros V1 V2. split.
  - unfold String.ltb, before. rewrite (compare_Format t1 t2 V1 V2).
    destruct (Z.compare_spec (Year t1) (Year t2));
      destruct (Z.compare_spec (Month t1) (Month t2));
      destruct (Z.compare_spec (Day t1) (Day t2));
      repeat match goal with
             | |- context [(?a <? ?b)] => destruct (Z.ltb_spec a b)
             | |- context [(?a =? ?b)] => destruct (Z.eqb_spec a b)
             end; try reflexivity; lia.
  - intros E.
    pose proof (Parse_Format_2006_01_02 t1 V1) as P1.
    rewrite E, (Parse_Format_2006_01_02 t2 V2) in P1. now injection P1.
Qed.

Lemma written_dates_order_as_days_witness :
  ("2023-12-31" <? "2024-01-01")%string = true.
Proof.
  refine (proj1 (written_dates_order_as_days (mkTime 2023 12 31)
                   (mkTime 2024 1 1) _ _));
    unfold validDate; vm_compute; repeat split; discriminate.
Defined.

End DateOrder.

(* ================================================================== *)
(** * getBetween                                                       *)
(* ================================================================== *)

Section GetBetween.
Import GoStrings Update.

Lemma split_at (s : string) (n : nat) :
  s = substring 0 n s ++ sliceFrom s n.
Proof.
  revert s. induction n as [|n IH]; intros s.
  - now destruct s.
  - destruct s as [|c s]; [reflexivity|].
    cbn [substring sliceFrom append]. now rewrite <- IH.
Qed.

Lemma substring_sliceFrom (s : string) (i n : nat) :
  substring i n s = substring 0 n (sliceFrom s i).
Proof.
  revert s. induction i as [|i IH]; intros s.
  - reflexivity.
  - destruct s as [|c s]; cbn [substring sliceFrom].
    + now destruct n.
    + apply IH.
Qed.

Lemma substring_length_le (s : string) (n : nat) :
  (String.length (substring 0 n s) <= n)%nat.
Proof.
  revert s. induction n as [|n IH]; intros [|c s]; simpl; try lia.
  specialize (IH s). lia.
Qed.

(** An occurrence found by [strings.Index]: what is before it, the
    occurrence, and what is after it. *)
Lemma Index_Some (s sub : string) (i : nat) :
  Index s sub = Some i ->
  s = substring 0 i s ++ sub ++ sliceFrom s (i + String.length sub).
Proof.
  unfold Index. intros H. apply index_correct1 in H.
  rewrite (split_at s i) at 1. f_equal.
  rewrite substring_sliceFrom in H.
  rewrite (split_at (sliceFrom s i) (String.length sub)) at 1.
  rewrite H. f_equal.
  clear H. revert s. induction i as [|i IH]; intros s.
  - reflexivity.
  - destruct s as [|c s]; cbn [sliceFrom Nat.add].
    + now destruct (String.length sub).
    + apply IH.
Qed.

Lemma substring_prefix (u post : string) :
  substring 0 (String.length u) (u ++ post) = u.
Proof.
  induction u as [|x u IH]; cbn [String.length append substring].
  - now destruct post.
  - now rewrite IH.
Qed.

Lemma substring_skip (pre t : string) (n : nat) :
  substring (String.length pre) n (pre ++ t) = substring 0 n t.
Proof. induction pre as [|a pre IH]; [reflexivity | exact IH]. Qed.

(** A text that occurs is found. *)
Lemma Index_occurs (pre sub post : string) :
  Index (pre ++ sub ++ post) sub <> None.
Proof.
  unfold Index. intros H.
  destruct sub as [|c sub].
  - apply index_correct4 in H. lia.
  - apply (index_correct3 0 (String.length pre)) in H; try discriminate; try lia.
    apply H. rewrite substring_skip. apply substring_prefix.
Qed.

(** [getBetween] returns the text between the first [start] and the first
    [end_] after it: whenever both are found the input is what precedes,
    [start], the result, [end_], and what follows; when [start] does not
    occur, or [end_] does not occur after the first [start], the result is
    empty. *)
Theorem getBetween_cuts (s start end_ : string) :
  (forall i j,
      Index s start = Some i ->
      Index (sliceFrom s (i + String.length start)) end_ = Some j ->
      exists post,
        s = substring 0 i s ++ start ++ getBetween s start end_ ++ end_ ++ post
        /\ String.length (getBetween s start end_) <= j)%nat
  /\ (getBetween s start end_ <> EmptyString ->
      exists pre post, s = pre ++ start ++ getBetween s start end_ ++ end_ ++ post)
  /\ ((forall pre post, s <> pre ++ start ++ post) ->
      getBetween s start end_ = EmptyString)
  /\ (forall i,
        Index s start = Some i ->
        (forall mid post,
            sliceFrom s (i + String.length start) <> mid ++ end_ ++ post) ->
        getBetween s start end_ = EmptyString).
Proof.
  assert (Found : forall i j,
    Index s start = Some i ->
    Index (sliceFrom s (i + String.length start)) end_ = Some j ->
    exists post,
      s = substring 0 i s ++ start ++ getBetween s start end_ ++ end_ ++ post
      /\ (String.length (getBetween s start end_) <= j)%nat).
  { intros i j Hi Hj. unfold getBetween. rewrite Hi, Hj.
    exists (sliceFrom (sliceFrom s (i + String.length start))
              (j + String.length end_)).
    unfold slice.
    replace (i + String.length start + j - (i + String.length start))%nat
      with j by lia.
    split; [|rewrite substring_sliceFrom; apply substring_length_le].
    rewrite (Index_Some s start i Hi) at 1. do 2 f_equal.
    rewrite substring_sliceFrom.
    exact (Index_Some _ end_ j Hj). }
  split; [exact Found|]. split; [|split].
  - intros Hne.
    destruct (Index s start) as [i|] eqn:Hi.
    + destruct (Index (sliceFrom s (i + String.length start)) end_) as [j|] eqn:Hj.
      * destruct (Found i j eq_refl Hj) as (post & E & _). eauto.
      * exfalso. apply Hne. unfold getBetween. now rewrite Hi, Hj.
    + exfalso. apply Hne. unfold getBetween. now rewrite Hi.
  - intros Hno. unfold getBetween.
    destruct (Index s start) as [i|] eqn:Hi; [|reflexivity].
    exfalso. exact (Hno _ _ (Index_Some s start i Hi)).
  - intros i Hi Hno. unfold getBetween. rewrite Hi.
    destruct (Index (sliceFrom s (i + String.length start)) end_) as [j|] eqn:Hj;
      [|reflexivity].
    exfalso. exact (Hno _ _ (Index_Some _ end_ j Hj)).
Qed.

Lemma getBetween_cuts_witness :
  exists pre post,
    "a<b>text</b>z"
    = pre ++ "<b>" ++ getBetween "a<b>text</b>z" "<b>" "</b>" ++ "</b>" ++ post.
Proof.
  apply (proj1 (proj2 (getBetween_cuts "a<b>text</b>z" "<b>" "</b>"))).
  discriminate.
Defined.

End GetBetween.

(* ================================================================== *)
(** * What the sources can yield                                       *)
(* ================================================================== *)

Section Tokens.
Import GoStrings Store Update.

Lemma allDigits_snoc (ds : string) (c : ascii) :
  allDigits ds = true -> isDigit c = true ->
  allDigits (ds ++ String c EmptyString) = true.
Proof.
  intros H Hc. induction ds as [|a ds IH]; simpl in *.
  - now rewrite Hc.
  - apply andb_true_iff in H as [Ha Hds]. now rewrite Ha, IH.
Qed.

Lemma snoc_nonempty (ds : string) (c : ascii) :
  ds ++ String c EmptyString <> EmptyString.
Proof. now destruct ds. Qed.

(** Every text [>(\d+)<] captures is a non-empty run of digits. *)
Lemma gtDigitsLt_scan_digits (s : string) (open : option string) :
  match open with
  | Some ds => allDigits ds = true
  | None => True
  end ->
  Forall (fun t => t <> EmptyString /\ allDigits t = true)
    (regexp.gtDigitsLt_scan open s).
Proof.
  revert open. induction s as [|c s IH]; intros open Hopen; simpl.
  - constructor.
  - destruct (Ascii.eqb c ">"); [apply IH; reflexivity|].
    destruct open as [ds|]; [|apply IH; exact I].
    destruct (isDigit c) eqn:Hc.
    + apply IH. now apply allDigits_snoc.
    + destruct (Ascii.eqb c "<"); [|apply IH; exact I].
      destruct ds as [|a ds]; [apply IH; exact I|].
      constructor; [split; [discriminate | exact Hopen]|].
      apply IH. exact I.
Qed.

Lemma digits12_digits (s d r : string) :
  regexp.digits12 s = Some (d, r) ->
  d <> EmptyString /\ allDigits d = true /\ (String.length d <= 2)%nat.
Proof.
  unfold regexp.digits12.
  destruct s as [|a [|b s]]; try discriminate.
  - destruct (isDigit a) eqn:Ha; [|discriminate].
    intros [= <- <-]. simpl. rewrite Ha. repeat split; [discriminate | lia].
  - destruct (isDigit a) eqn:Ha; [|discriminate].
    destruct (isDigit b) eqn:Hb; intros [= <- <-]; simpl; rewrite Ha, ?Hb;
      repeat split; try discriminate; lia.
Qed.

Lemma numThenSpaces_digits (s d r : string) :
  regexp.numThenSpaces s = Some (d, r) ->
  d <> EmptyString /\ allDigits d = true /\ (String.length d <= 2)%nat.
Proof.
  unfold regexp.numThenSpaces.
  destruct (regexp.digits12 s) as [[d' r']|] eqn:E; [|discriminate].
  destruct (regexp.spaces1 r'); [|discriminate].
  intros [= <- _]. exact (digits12_digits _ _ _ E).
Qed.

Lemma liNumbers_FindFirst_digits (s : string) (l : list string) :
  regexp.liNumbers_FindFirst s = Some l ->
  Forall (fun t => t <> EmptyString /\ allDigits t = true
                   /\ (String.length t <= 2)%nat) l.
Proof.
  intros H. apply findFirst_Some in H as (t & H).
  unfold regexp.liNumbers_here in H.
  repeat match type of H with
         | match ?x with _ => _ end = _ =>
             destruct x as [[? ?]|] eqn:?; try discriminate H
         | match ?x with _ => _ end = _ =>
             destruct x eqn:?; try discriminate H
         end.
  injection H as <-.
  repeat match goal with
         | E : regexp.numThenSpaces _ = Some _ |- _ =>
             apply numThenSpaces_digits in E
         | E : regexp.digits12 _ = Some _ |- _ => apply digits12_digits in E
         end.
  repeat (constructor; [assumption|]). constructor.
Qed.

Lemma checkNumbers_ok (numbers : list string) (i : Z) (st st' : St) (u : unit) :
  checkNumbers i numbers st = (inr u, st') ->
  Forall (fun t => strconv.Atoi t <> None) numbers.
Proof.
  revert i. induction numbers as [|num rest IH]; intros i; simpl.
  - constructor.
  - destruct (strconv.Atoi num) eqn:E; [|discriminate].
    intros H. constructor; [congruence | eauto].
Qed.

Variable verbose : bool.
Variable w : World.

Ltac split_match H :=
  match type of H with
  | context [match ?x with _ => _ end] =>
      lazymatch x with
      | context [match _ with _ => _ end] => fail
      | _ => destruct x eqn:?; cbn beta iota in H; try discriminate H
      end
  end.

Ltac run_case H :=
  cbv [extraction st0 case1 case2 case3 case4 case5 bind wrapping getWebPage
       getCSV logVerbose orReturn ret fail logPrint fst snd] in H;
  repeat split_match H.

Lemma switch_siteID_by_id (siteID : Z) :
  (siteID = 1 /\ switch_siteID verbose w siteID = case1 verbose w)
  \/ (siteID = 2 /\ switch_siteID verbose w siteID = case2 verbose w)
  \/ (siteID = 3 /\ switch_siteID verbose w siteID = case3 verbose w)
  \/ (siteID = 4 /\ switch_siteID verbose w siteID = case4 verbose w)
  \/ (siteID = 5 /\ switch_siteID verbose w siteID = case5 verbose w)
  \/ ((siteID < 1 \/ 5 < siteID)
      /\ switch_siteID verbose w siteID = fail (unsupported_site_ID siteID)).
Proof.
  destruct siteID as [|[[p|p|]|[p|p|]|]|p]; cbn [switch_siteID];
    try (destruct p);
    first [ do 5 right; split; [lia | reflexivity]
          | left; split; reflexivity
          | right; left; split; reflexivity
          | right; right; left; split; reflexivity
          | right; right; right; left; split; reflexivity
          | right; right; right; right; left; split; reflexivity ].
Qed.

Lemma extraction_tokens (siteID : Z) (newDate : string)
    (numbers : list string) :
  extraction verbose w siteID = inr (newDate, numbers) ->
  (siteID <> 5 ->
     Forall (fun t => t <> EmptyString /\ allDigits t = true) numbers)
  /\ (siteID = 3 -> Forall (fun t => (String.length t <= 2)%nat) numbers)
  /\ (siteID = 5 -> Forall (fun t => strconv.Atoi t <> None) numbers).
Proof.
  intros H. unfold extraction in H.
  assert (G : forall s, Forall (fun t => t <> EmptyString /\ allDigits t = true)
                          (regexp.gtDigitsLt_FindAll s)).
  { intros s. apply gtDigitsLt_scan_digits. exact I. }
  destruct (switch_siteID_by_id siteID)
    as [[-> E]|[[-> E]|[[-> E]|[[-> E]|[[-> E]|[_ E]]]]]]; rewrite E in H.
  - run_case H; injection H as _ <-;
      (split; [intros _; apply G | split; intros N; discriminate N]).
  - run_case H; injection H as _ <-;
      (split; [intros _; apply G | split; intros N; discriminate N]).
  - run_case H; injection H as _ <-;
      match goal with
      | L : regexp.liNumbers_FindFirst _ = Some _ |- _ =>
          apply liNumbers_FindFirst_digits in L
      end;
      (split; [|split]); intros N; try discriminate N;
      (eapply Forall_impl; [|eassumption]); cbv beta; tauto.
  - run_case H; injection H as _ <-;
      (split; [intros _; apply G | split; intros N; discriminate N]).
  - run_case H; injection H as _ <-;
      (split; [intros N; now destruct N | split; intros N; try discriminate N]);
      match goal with
      | C : checkNumbers _ _ _ = (inr _, _) |- _ =>
          exact (checkNumbers_ok _ _ _ _ _ C)
      end.
  - discriminate H.
Qed.

(** The tokens the [switch] leaves in [numbers]: for the HTML sources,
    non-empty runs of ASCII digits, of at most two digits for source 3; for
    the CSV source, texts [strconv.Atoi] accepts. *)
Theorem extracted_tokens_are_numeric (siteID : Z) (newDate : string)
    (numbers : list string) :
  extraction verbose w siteID = inr (newDate, numbers) ->
  (siteID <> 5 ->
     Forall (fun t => t <> EmptyString /\ allDigits t = true) numbers)
  /\ (siteID = 3 -> Forall (fun t => (String.length t <= 2)%nat) numbers)
  /\ (siteID = 5 -> Forall (fun t => strconv.Atoi t <> None) numbers).
Proof. exact (extraction_tokens siteID newDate numbers). Qed.

Lemma Atoi_unsigned (a : ascii) (r : string) :
  isDigit a = true ->
  strconv.Atoi (String a r)
  = if allDigits (String a r)
    then (if (strconv.minInt64 <=? digitsValue 0 (String a r))
             && (digitsValue 0 (String a r) <=? strconv.maxInt64)
          then Some (digitsValue 0 (String a r)) else None)
    else None.
Proof.
  intros H.
  destruct a as [[] [] [] [] [] [] [] []];
    try (vm_compute in H; discriminate H); reflexivity.
Qed.

Lemma small_in_int64 (v : Z) :
  0 <= v <= 99 ->
  (strconv.minInt64 <=? v) && (v <=? strconv.maxInt64) = true.
Proof.
  intros H. unfold strconv.minInt64, strconv.maxInt64.
  assert (P : 2 ^ 63 = 9223372036854775808) by reflexivity.
  apply andb_true_iff; split; apply Z.leb_le; lia.
Qed.

(** One or two digits always spell an integer. *)
Lemma Atoi_two_digits (t : string) :
  t <> EmptyString -> allDigits t = true -> (String.length t <= 2)%nat ->
  strconv.Atoi t <> None.
Proof.
  intros Hne Hd Hlen.
  destruct t as [|a [|b [|c t]]]; [now destruct Hne| | |simpl in Hlen; lia].
  - pose proof Hd as Hd'. simpl in Hd. apply andb_true_iff in Hd as [Ha _].
    rewrite (Atoi_unsigned a EmptyString Ha), Hd'.
    rewrite small_in_int64; [discriminate|].
    apply isDigit_range in Ha. cbn [digitsValue]. lia.
  - pose proof Hd as Hd'. simpl in Hd. apply andb_true_iff in Hd as [Ha Hb].
    apply andb_true_iff in Hb as [Hb _].
    rewrite (Atoi_unsigned a (String b EmptyString) Ha), Hd'.
    rewrite small_in_int64; [discriminate|].
    apply isDigit_range in Ha, Hb. cbn [digitsValue]. lia.
Qed.

(** Seven tokens that spell integers, under a date above the cursor, are
    inserted. *)
Lemma runUpdate_inserts (siteID : Z) (st : St) (rows : list Row)
    (newDate : string) (numbers : list string) :
  db st = Table rows ->
  extraction verbose w siteID = inr (newDate, numbers) ->
  (cursor rows <? newDate)%string = true ->
  List.length numbers = 7%nat ->
  Forall (fun t => strconv.Atoi t <> None) numbers ->
  exists v0 v1 v2 v3 v4 v5 v6,
    map strconv.Atoi numbers
    = [Some v0; Some v1; Some v2; Some v3; Some v4; Some v5; Some v6]
    /\ runUpdate verbose w siteID st
       = (inr tt,
          mkSt (Table (rows ++ [mkRow newDate v0 v1 v2 v3 v4 v5 v6]))
            ((logged st ++ entryLog verbose w siteID (cursor rows))
             ++ [OK_New_date newDate; Numbers numbers;
                 Data_inserted_successfully])).
Proof.
  intros D X Hlt Hlen Hnum.
  do 8 (destruct numbers as [|? numbers]; try discriminate Hlen).
  repeat match goal with
         | F : Forall _ (_ :: _) |- _ => inversion F; subst; clear F
         end.
  repeat match goal with
         | N : strconv.Atoi ?t <> None |- _ =>
             destruct (strconv.Atoi t) eqn:?; [clear N | now destruct N]
         end.
  do 7 eexists. split; [cbn [map]; repeat f_equal; eassumption|].
  rewrite (runUpdate_Table verbose w siteID st rows D), X.
  apply compareAndInsert_insert; auto.
  now apply above_cursor_not_stored.
Qed.

(** Sources 3 and 5 cannot fail validation: whenever their extraction
    succeeds with a date above the latest stored one, the attempt inserts
    the row of that date and of the seven integers the tokens spell, and
    returns success. *)
Theorem sources_3_and_5_insert_every_new_date (siteID : Z) (st : St)
    (rows : list Row) (newDate : string) (numbers : list string) :
  siteID = 3 \/ siteID = 5 ->
  db st = Table rows ->
  extraction verbose w siteID = inr (newDate, numbers) ->
  (cursor rows <? newDate)%string = true ->
  exists v0 v1 v2 v3 v4 v5 v6,
    map strconv.Atoi numbers
    = [Some v0; Some v1; Some v2; Some v3; Some v4; Some v5; Some v6]
    /\ runUpdate verbose w siteID st
       = (inr tt,
          mkSt (Table (rows ++ [mkRow newDate v0 v1 v2 v3 v4 v5 v6]))
            ((logged st ++ entryLog verbose w siteID (cursor rows))
             ++ [OK_New_date newDate; Numbers numbers;
                 Data_inserted_successfully])).
Proof.
  intros Hid D X Hlt.
  destruct (extraction_count verbose w siteID newDate numbers X) as [Hlen _].
  destruct (extraction_tokens siteID newDate numbers X) as (Hd & H3 & H5).
  apply (runUpdate_inserts siteID st rows newDate numbers D X Hlt (Hlen Hid)).
  destruct Hid as [-> | ->].
  - specialize (Hd ltac:(discriminate)). specialize (H3 eq_refl).
    clear -Hd H3. induction numbers as [|t l IH]; constructor.
    + inversion Hd; inversion H3; subst.
      apply Atoi_two_digits; tauto.
    + inversion Hd; inversion H3; subst. auto.
  - exact (H5 eq_refl).
Qed.

End Tokens.

Section TokensExamples.
Import GoStrings Store Update Fixtures.

Lemma extracted_tokens_are_numeric_witness :
  Forall (fun t => t <> EmptyString /\ allDigits t = true) seven.
Proof.
  refine (proj1 (extracted_tokens_are_numeric false
                   (serving url1 (euromilhoes "05.02.2024" seven)) 1
                   "2024-02-05" seven eq_refl) _).
  discriminate.
Defined.

Lemma sources_3_and_5_insert_every_new_date_witness :
  exists v0 v1 v2 v3 v4 v5 v6,
    map strconv.Atoi ["3"; "17"; "22"; "41"; "49"; "5"; "11"]
    = [Some v0; Some v1; Some v2; Some v3; Some v4; Some v5; Some v6]
    /\ runUpdate false (serving url5 scenarioB_csv) 5 store_2024_01_15
       = (inr tt,
          mkSt (Table ([row_2024_01_15]
                       ++ [mkRow "2024-01-22" v0 v1 v2 v3 v4 v5 v6]))
            ((logged store_2024_01_15
              ++ entryLog false (serving url5 scenarioB_csv) 5
                   (cursor [row_2024_01_15]))
             ++ [OK_New_date "2024-01-22";
                 Numbers ["3"; "17"; "22"; "41"; "49"; "5"; "11"];
                 Data_inserted_successfully])).
Proof.
  exact (sources_3_and_5_insert_every_new_date false
           (serving url5 scenarioB_csv) 5 store_2024_01_15 [row_2024_01_15]
           "2024-01-22" ["3"; "17"; "22"; "41"; "49"; "5"; "11"]
           (or_intror eq_refl) eq_refl eq_refl eq_refl).
Defined.

End TokensExamples.

(* ================================================================== *)
(** * The verbose flag                                                 *)
(* ================================================================== *)

Section Verbose.
Import GoStrings Store Update.

Variable w : World.

Ltac same_value :=
  cbv [case1 case2 case3 case4 case5 bind wrapping getWebPage getCSV
       logVerbose orReturn ret fail logPrint fst snd];
  repeat first
    [ match goal with
      | |- context [checkNumbers ?i ?l ?st] =>
          lazymatch st with
          | st0 => fail
          | _ => rewrite (proj2 (onlyLogs_checkNumbers l i) st);
                 cbv beta iota delta [fst snd]
          end
      end
    | match goal with
      | |- context [match ?x with _ => _ end] =>
          lazymatch x with
          | context [match _ with _ => _ end] => fail
          | checkNumbers _ _ st0 => destruct x; cbv beta iota delta [fst snd]
          | checkNumbers _ _ _ => fail
          | _ => destruct x; cbv beta iota delta [fst snd]
          end
      end ];
  reflexivity.

(** What the [switch] extracts does not depend on the verbose flag. *)
Lemma extraction_verbose (siteID : Z) :
  extraction true w siteID = extraction false w siteID.
Proof.
  unfold extraction.
  destruct (switch_siteID_by_id true w siteID)
    as [[-> E]|[[-> E]|[[-> E]|[[-> E]|[[-> E]|[R E]]]]]].
  - change (fst (case1 true w st0) = fst (case1 false w st0)). same_value.
  - change (fst (case2 true w st0) = fst (case2 false w st0)). same_value.
  - change (fst (case3 true w st0) = fst (case3 false w st0)). same_value.
  - change (fst (case4 true w st0) = fst (case4 false w st0)). same_value.
  - change (fst (case5 true w st0) = fst (case5 false w st0)). same_value.
  - rewrite E.
    destruct (switch_siteID_by_id false w siteID)
      as [[K _]|[[K _]|[[K _]|[[K _]|[[K _]|[_ E']]]]]]; try lia.
    rewrite E'. reflexivity.
Qed.

(** The verbose flag only adds log lines: with or without it an attempt
    returns the same result and leaves the same database. *)
Theorem verbose_changes_only_the_log (siteID : Z) (st : St) :
  fst (runUpdate true w siteID st) = fst (runUpdate false w siteID st)
  /\ db (snd (runUpdate true w siteID st))
     = db (snd (runUpdate false w siteID st)).
Proof.
  destruct (db st) as [|rows] eqn:D.
  - rewrite !(runUpdate_NoTable _ w siteID st D). split; reflexivity.
  - rewrite !(runUpdate_Table _ w siteID st rows D), extraction_verbose.
    destruct (extraction false w siteID) as [e|[n ns]]; [split; reflexivity|].
    destruct (compareAndInsert_frame (cursor rows) n ns (Table rows))
      as (r & d' & added & _ & F).
    rewrite !F. split; reflexivity.
Qed.

End Verbose.

(* ================================================================== *)
(** * The history the updater keeps                                    *)
(* ================================================================== *)

Section History.
Import Store Update.

Variable verbose : bool.
Variable web : Z -> World.

Lemma ltb_le_trans (a b c : string) :
  (a <? b)%string = true -> (c <? b)%string = false -> (c <? a)%string = false.
Proof.
  intros Hab Hcb. destruct (c <? a)%string eqn:Hca; [|reflexivity].
  pose proof (string_compare_lt_trans _ _ _
                (proj1 (ltb_lt _ _) Hca) (proj1 (ltb_lt _ _) Hab)) as T.
  apply ltb_lt in T. congruence.
Qed.

Lemma uniqueDates_snoc (rows : list Row) (row : Row) :
  uniqueDates rows -> hasDate (date row) rows = false ->
  uniqueDates (rows ++ [row]).
Proof.
  unfold uniqueDates. intros U H. rewrite map_app. cbn [map].
  apply (Permutation_NoDup (Permutation_cons_append (map date rows) (date row))).
  constructor; [|exact U].
  intros I. apply in_map_iff in I as (r & E & Hr).
  assert (T : hasDate (date row) rows = true) by (apply hasDate_In; eauto).
  congruence.
Qed.

(** One attempt of the loop: the table is left as it was, or one row is
    appended, of a date above the cursor and not stored before. *)
Lemma updateSite_step (id : Z) (st : St) (rows : list Row) :
  db st = Table rows ->
  db (updateSite verbose web id st) = Table rows
  \/ exists row,
       db (updateSite verbose web id st) = Table (rows ++ [row])
       /\ (cursor rows <? date row)%string = true
       /\ hasDate (date row) rows = false.
Proof.
  intros D. rewrite updateSite_db.
  pose proof (runUpdate_cases verbose (web id) id st) as C.
  destruct (runUpdate verbose (web id) id st) as [r st']. cbn [snd].
  destruct C as [Same | (_ & rows0 & n & n0 & n1 & n2 & n3 & n4 & n5 & n6
                           & v0 & v1 & v2 & v3 & v4 & v5 & v6
                           & D0 & D1 & _ & Hlt & Hnew & _)].
  - left. congruence.
  - right. rewrite D in D0. injection D0 as <-.
    exists (mkRow n v0 v1 v2 v3 v4 v5 v6). auto.
Qed.

Lemma updateSite_NoTable (id : Z) (st : St) :
  db st = NoTable -> db (updateSite verbose web id st) = NoTable.
Proof.
  intros D. rewrite updateSite_db, (runUpdate_NoTable _ _ id st D). reflexivity.
Qed.

Lemma updateSites_NoTable (ids : list Z) (st : St) :
  db st = NoTable -> db (updateSites verbose web ids st) = NoTable.
Proof.
  revert st. induction ids as [|id ids IH]; intros st D; simpl; [exact D|].
  apply IH. now apply updateSite_NoTable.
Qed.

Lemma updateSites_history (ids : list Z) (st : St) (rows : list Row) :
  db st = Table rows ->
  exists added,
    db (updateSites verbose web ids st) = Table (rows ++ added)
    /\ ascendingFrom (cursor rows) added
    /\ (uniqueDates rows -> uniqueDates (rows ++ added))
    /\ (List.length added <= List.length ids)%nat.
Proof.
  revert st rows. induction ids as [|id ids IH]; intros st rows D.
  - exists []. rewrite app_nil_r. simpl. auto.
  - cbn [updateSites].
    destruct (updateSite_step id st rows D) as [D1 | (row & D1 & Hlt & Hnew)].
    + destruct (IH _ _ D1) as (added & E & A & U & L).
      exists added. repeat split; auto. simpl. lia.
    + destruct (IH _ _ D1) as (added & E & A & U & L).
      exists (row :: added).
      rewrite <- app_assoc in E. cbn [app] in E.
      rewrite (cursor_snoc rows row Hlt) in A.
      split; [exact E|]. split; [split; assumption|]. split.
      * intros U0. change (row :: added) with ([row] ++ added)%list.
        rewrite app_assoc. apply U. now apply uniqueDates_snoc.
      * simpl. lia.
Qed.

Lemma cursor_ascending (added rows : list Row) :
  ascendingFrom (cursor rows) added ->
  (cursor (rows ++ added) <? cursor rows)%string = false.
Proof.
  revert rows. induction added as [|r added IH]; intros rows A.
  - rewrite app_nil_r. apply ltb_irrefl.
  - destruct A as [Hlt A].
    change (r :: added) with ([r] ++ added)%list. rewrite app_assoc.
    rewrite <- (cursor_snoc rows r Hlt) in A.
    specialize (IH _ A). rewrite (cursor_snoc rows r Hlt) in IH.
    exact (ltb_le_trans _ _ _ Hlt IH).
Qed.

End History.

Section HistoryOfMain.
Import Store Update.

Variable web : Z -> World.

(** The store [main] leaves is the one the loop over the selected sources
    leaves. *)
Lemma main_db (flags : Flags) (st : St) :
  db (snd (main flags web st))
  = db (updateSites (verboseFlag flags) web (sitesSelected flags) st).
Proof.
  unfold main, sitesSelected.
  destruct ((databasePath flags =? EmptyString)%string
            || (siteIDStr flags =? EmptyString)%string); [reflexivity|].
  destruct (siteIDStr flags =? "all")%string; [reflexivity|].
  destruct (strconv.Atoi (siteIDStr flags)) as [siteID|]; [|reflexivity].
  cbn [updateSites]. rewrite updateSite_db.
  destruct (runUpdate (verboseFlag flags) (web siteID) siteID st)
    as [[e|u] st']; reflexivity.
Qed.

Lemma sitesSelected_length (flags : Flags) :
  (List.length (sitesSelected flags) <= 5)%nat.
Proof.
  unfold sitesSelected.
  repeat match goal with
         | |- context [if ?b then _ else _] => destruct b
         | |- context [match ?x with _ => _ end] => destruct x
         end; simpl; lia.
Qed.

(** What [main] does to the store, in every mode: without the table
    nothing is created; with it, rows are only appended, at most one per
    source attempted, each of a date strictly above every date stored
    before it, so that dates that were unique stay unique. *)
Theorem history_is_append_only (flags : Flags) (st : St) :
  (db st = NoTable -> db (snd (main flags web st)) = NoTable)
  /\ (forall rows,
        db st = Table rows ->
        exists added,
          db (snd (main flags web st)) = Table (rows ++ added)
          /\ ascendingFrom (cursor rows) added
          /\ (uniqueDates rows -> uniqueDates (rows ++ added))
          /\ (List.length added <= 5)%nat).
Proof.
  rewrite main_db. pose proof (sitesSelected_length flags) as L. split.
  - apply updateSites_NoTable.
  - intros rows D.
    destruct (updateSites_history (verboseFlag flags) web (sitesSelected flags)
                st rows D) as (added & E & A & U & La).
    exists added. repeat split; auto. lia.
Qed.

End HistoryOfMain.

Section Rerun.
Import Store Update.

Variable verbose : bool.
Variable web : Z -> World.

(** After an attempt on a source, that source has nothing to add. *)
Lemma settled_after_attempt (id : Z) (st : St) (rows rows1 : list Row) :
  db st = Table rows ->
  db (updateSite verbose web id st) = Table rows1 ->
  settled verbose (web id) id rows1.
Proof.
  intros D D1 l. rewrite updateSite_db in D1.
  pose proof (runUpdate_cases verbose (web id) id st) as C.
  destruct (runUpdate verbose (web id) id st) as [r st'] eqn:R. cbn [snd] in D1.
  destruct C as [Same | (_ & rows0 & n & n0 & n1 & n2 & n3 & n4 & n5 & n6
                           & v0 & v1 & v2 & v3 & v4 & v5 & v6
                           & D0 & D1' & X & Hlt & _)].
  - assert (rows1 = rows) as -> by congruence.
    destruct (runUpdate_deterministic verbose (web id) id
                (mkSt (Table rows) l) st (eq_sym D)) as [_ E].
    rewrite E, R. cbn [snd]. congruence.
  - rewrite D in D0. injection D0 as <-.
    assert (rows1 = rows ++ [mkRow n v0 v1 v2 v3 v4 v5 v6])%list as ->
      by congruence.
    rewrite (runUpdate_Table verbose (web id) id (mkSt _ l) _ eq_refl), X.
    rewrite (cursor_snoc rows (mkRow n v0 v1 v2 v3 v4 v5 v6) Hlt).
    cbn [date]. rewrite compareAndInsert_same. reflexivity.
Qed.

(** A source that has nothing to add still has nothing to add once the
    cursor has moved up. *)
Lemma settled_monotone (id : Z) (rows rows' : list Row) :
  settled verbose (web id) id rows ->
  (cursor rows' <? cursor rows)%string = false ->
  settled verbose (web id) id rows'.
Proof.
  intros S Hle l.
  pose proof (runUpdate_cases verbose (web id) id (mkSt (Table rows') l)) as C.
  destruct (runUpdate verbose (web id) id (mkSt (Table rows') l)) as [r st'].
  cbn [snd].
  destruct C as [Same | (_ & rows0 & n & n0 & n1 & n2 & n3 & n4 & n5 & n6
                           & v0 & v1 & v2 & v3 & v4 & v5 & v6
                           & D0 & D1 & X & Hlt & _ & T)]; [exact Same|].
  exfalso. cbn [db] in D0. injection D0 as <-.
  assert (Hlt0 : (cursor rows <? n)%string = true).
  { destruct (cursor rows <? n)%string eqn:C0; [reflexivity|].
    pose proof (ltb_le_trans _ _ _ Hlt C0) as Hge.
    destruct (String.eqb_spec (cursor rows') (cursor rows)) as [Q|Q].
    - rewrite Q in Hlt. congruence.
    - apply String.eqb_neq in Q.
      pose proof (ltb_total _ _ Hge Q). congruence. }
  specialize (S []).
  rewrite (runUpdate_Table verbose (web id) id (mkSt (Table rows) []) rows eq_refl),
    X in S.
  rewrite (compareAndInsert_insert (cursor rows) n n0 n1 n2 n3 n4 n5 n6
             v0 v1 v2 v3 v4 v5 v6 rows) in S;
    try tauto; try (now apply above_cursor_not_stored).
  cbn [snd db] in S. injection S as S. now apply snoc_neq in S.
Qed.

Lemma updateSites_settles (ids : list Z) (st : St) (rows rows' : list Row) :
  db st = Table rows ->
  db (updateSites verbose web ids st) = Table rows' ->
  forall id, In id ids -> settled verbose (web id) id rows'.
Proof.
  revert st rows. induction ids as [|i ids IH]; intros st rows D D'; [contradiction|].
  cbn [updateSites] in D'.
  destruct (updateSite_step verbose web i st rows D)
    as [D1 | (row & D1 & _)];
    (intros id [<- | Hin]; [|exact (IH _ _ D1 D' id Hin)]);
    (destruct (updateSites_history verbose web ids _ _ D1)
       as (added & E & A & _);
     rewrite D' in E; injection E as ->;
     eapply settled_monotone;
     [exact (settled_after_attempt i st rows _ D D1)
     | exact (cursor_ascending added _ A)]).
Qed.

Lemma updateSites_settled (ids : list Z) (st : St) (rows : list Row) :
  db st = Table rows ->
  (forall id, In id ids -> settled verbose (web id) id rows) ->
  db (updateSites verbose web ids st) = Table rows.
Proof.
  revert st. induction ids as [|i ids IH]; intros st D S; [exact D|].
  cbn [updateSites]. apply IH.
  - rewrite updateSite_db.
    destruct (runUpdate_deterministic verbose (web i) i st
                (mkSt (Table rows) []) D) as [_ E].
    rewrite E. apply (S i). now left.
  - intros id Hin. apply S. now right.
Qed.

(** Running the loop again over the same sources, with unchanged
    content, stores nothing more: the second pass leaves the store as the
    first one left it. *)
Lemma updateSites_twice (ids : list Z) (st : St) :
  db (updateSites verbose web ids (updateSites verbose web ids st))
  = db (updateSites verbose web ids st).
Proof.
  destruct (db st) as [|rows] eqn:D.
  - rewrite !updateSites_NoTable; auto using updateSites_NoTable.
  - destruct (updateSites_history verbose web ids st rows D) as (added & E & _).
    rewrite E. apply updateSites_settled; [exact E|].
    exact (updateSites_settles ids st rows _ D E).
Qed.

End Rerun.

Section RerunOfMain.
Import Store Update.

Lemma updateSites_db_only (verbose : bool) (web : Z -> World) (ids : list Z)
    (st1 st2 : St) :
  db st1 = db st2 ->
  db (updateSites verbose web ids st1) = db (updateSites verbose web ids st2).
Proof.
  revert st1 st2. induction ids as [|i ids IH]; intros st1 st2 E; [exact E|].
  cbn [updateSites]. apply IH. rewrite !updateSite_db.
  exact (proj2 (runUpdate_deterministic verbose (web i) i st1 st2 E)).
Qed.

(** Running the updater twice with the same command line against unchanged
    source content stores nothing the second time, in every mode: the
    second run leaves the store as the first one left it. *)
Theorem second_run_stores_nothing (flags : Flags) (web : Z -> World) (st : St) :
  db (snd (main flags web (snd (main flags web st))))
  = db (snd (main flags web st)).
Proof.
  rewrite (main_db web flags (snd (main flags web st))).
  rewrite (updateSites_db_only _ web _ _ _ (main_db web flags st)).
  rewrite updateSites_twice. symmetry. apply main_db.
Qed.

End RerunOfMain.

(* ================================================================== *)
(** * The read service                                                 *)
(* ================================================================== *)

Section ReadService.
Import GoStrings Store Api.

Lemma insertDesc_perm (r : Row) (l : list Row) :
  Permutation (insertDesc r l) (r :: l).
Proof.
  induction l as [|x l IH]; simpl; [reflexivity|].
  destruct (date x <? date r)%string; [reflexivity|].
  rewrite IH. apply perm_swap.
Qed.

Lemma orderByDateDesc_perm (rows : list Row) :
  Permutation (orderByDateDesc rows) rows.
Proof.
  induction rows as [|x rows IH]; simpl; [reflexivity|].
  rewrite insertDesc_perm. now constructor.
Qed.

Lemma insertDesc_sorted (r : Row) (l : list Row) :
  Sorted notBefore l -> Sorted notBefore (insertDesc r l).
Proof.
  induction l as [|x l IH]; intros S; simpl.
  - repeat constructor.
  - destruct (date x <? date r)%string eqn:C.
    + constructor; [exact S|]. constructor. now apply ltb_asym.
    + inversion S as [|? ? S' H]; subst.
      constructor; [auto|].
      destruct l as [|y l]; simpl.
      * constructor. exact C.
      * destruct (date y <? date r)%string; constructor;
          [exact C | now inversion H].
Qed.

Lemma notBefore_trans (a b c : Row) :
  notBefore a b -> notBefore b c -> notBefore a c.
Proof.
  unfold notBefore. intros Hab Hbc.
  destruct (date a <? date c)%string eqn:Hac; [|reflexivity].
  pose proof (ltb_le_trans _ _ _ Hac Hbc) as Hba.
  destruct (String.eqb_spec (date b) (date a)) as [E|N].
  - rewrite E in Hbc. congruence.
  - apply String.eqb_neq in N. pose proof (ltb_total _ _ Hab N). congruence.
Qed.

(** [ORDER BY date DESC] returns the same rows, every row before the rows
    of earlier dates. *)
Lemma orderByDateDesc_sorted (rows : list Row) :
  StronglySorted notBefore (orderByDateDesc rows).
Proof.
  apply Sorted_StronglySorted.
  - intros a b c. apply notBefore_trans.
  - induction rows as [|x rows IH]; simpl; [constructor|].
    now apply insertDesc_sorted.
Qed.

Lemma plainLines_scanned (rows : list Row) :
  plainLines (map scanRow rows) = Some (map plainLineOf rows).
Proof.
  induction rows as [|x rows IH]; simpl; [reflexivity|].
  now rewrite IH.
Qed.

(** The response to results that were scanned from rows: always status
    200, and in the plain text format one line per row. *)
Lemma sendResponse_scanned (r : Request) (rows : list Row) :
  StatusCode (sendResponse r (map scanRow rows)) = StatusOK
  /\ body (sendResponse r (map scanRow rows)) <> panic_index_out_of_range
  /\ (ToLower (format r) = "plaintext" ->
      sendResponse r (map scanRow rows)
      = mkResponse StatusOK "text/plain" (plaintext (map plainLineOf rows))).
Proof.
  unfold sendResponse. rewrite plainLines_scanned.
  destruct (ToLower (format r) =? "xml")%string eqn:X.
  - apply String.eqb_eq in X. rewrite X.
    destruct (map scanRow rows) as [|a [|b l]]; repeat split;
      try discriminate.
  - destruct (String.eqb_spec (ToLower (format r)) "plaintext") as [P|P].
    + repeat split; discriminate.
    + destruct (map scanRow rows) as [|a [|b l]]; repeat split;
        try discriminate; intros Q; now destruct P.
Qed.

(** [GET /results]: without rows the answer is 404; otherwise it is 200
    and lists every stored row exactly once, latest date first.  Other
    methods are refused with 405, and a database without the table gives
    500. *)
Theorem results_lists_every_row_latest_first (d : DB) (r : Request) :
  (Method r <> "GET" ->
     resultsHandler d r = http_Error "Method Not Allowed" StatusMethodNotAllowed)
  /\ (Method r = "GET" ->
      (d = NoTable ->
         resultsHandler d r
         = http_Error "Error querying database" StatusInternalServerError)
      /\ (d = Table [] ->
          resultsHandler d r = http_Error "No results found" StatusNotFound)
      /\ (forall rows,
            d = Table rows -> rows <> [] ->
            exists sorted,
              Permutation sorted rows
              /\ StronglySorted notBefore sorted
              /\ resultsHandler d r = sendResponse r (map scanRow sorted)
              /\ StatusCode (resultsHandler d r) = StatusOK)).
Proof.
  unfold resultsHandler. split.
  - intros H. apply String.eqb_neq in H. now rewrite H.
  - intros H. rewrite H. change (negb ("GET" =? "GET")%string) with false.
    cbn iota. split; [|split].
    + now intros ->.
    + now intros ->.
    + intros rows -> Hne. exists (orderByDateDesc rows).
      pose proof (orderByDateDesc_perm rows) as P.
      split; [exact P|]. split; [apply orderByDateDesc_sorted|].
      unfold getAllResults.
      destruct (orderByDateDesc rows) as [|x l] eqn:E.
      * apply Permutation_nil in P. now destruct Hne.
      * cbn [map]. split; [reflexivity|].
        exact (proj1 (sendResponse_scanned r (x :: l))).
Qed.

Lemma results_lists_every_row_latest_first_witness :
  resultsHandler (Table [Fixtures.row_2024_01_15])
    (mkRequest "POST" "/results" EmptyString)
  = http_Error "Method Not Allowed" StatusMethodNotAllowed.
Proof.
  apply (proj1 (results_lists_every_row_latest_first
                  (Table [Fixtures.row_2024_01_15])
                  (mkRequest "POST" "/results" EmptyString))).
  discriminate.
Defined.

Lemma selectByDate_In (d : string) (rows : list Row) :
  match selectByDate d rows with
  | Some row => In row rows /\ date row = d /\ hasDate d rows = true
  | None => hasDate d rows = false
  end.
Proof.
  induction rows as [|x rows IH]; simpl; [reflexivity|].
  destruct (String.eqb_spec (date x) d) as [E|N]; simpl.
  - auto.
  - destruct (selectByDate d rows); [|exact IH].
    destruct IH as (I & E & H). auto.
Qed.

(** [GET /results/date/{date}] on a database with the table: a text that
    [time.Parse] refuses as a date gives 400 (the empty text included); a
    date that parses but is not stored gives 404; a stored date gives 200
    with a stored row of that date.  Other methods are refused with 405. *)
Theorem date_lookup_statuses (rows : list Row) (r : Request) :
  let date := sliceFrom (Path r) (String.length "/results/date/") in
  (Method r <> "GET" ->
     dateHandler (Table rows) r
     = http_Error "Method Not Allowed" StatusMethodNotAllowed)
  /\ (Method r = "GET" ->
      (time.Parse time.layout_2006_01_02 date = None ->
         StatusCode (dateHandler (Table rows) r) = StatusBadRequest)
      /\ (time.Parse time.layout_2006_01_02 date <> None ->
          hasDate date rows = false ->
          dateHandler (Table rows) r
          = http_Error "No results found for the specified date" StatusNotFound)
      /\ (time.Parse time.layout_2006_01_02 date <> None ->
          hasDate date rows = true ->
          exists row,
            In row rows /\ Store.date row = date
            /\ dateHandler (Table rows) r = sendResponse r [scanRow row]
            /\ StatusCode (dateHandler (Table rows) r) = StatusOK)).
Proof.
  intros date. unfold dateHandler. fold date. split.
  - intros H. apply String.eqb_neq in H. now rewrite H.
  - intros H. rewrite H. change (negb ("GET" =? "GET")%string) with false.
    cbn iota.
    pose proof (selectByDate_In date rows) as S.
    destruct (String.eqb_spec date EmptyString) as [E|N].
    + rewrite E. change (time.Parse time.layout_2006_01_02 EmptyString)
        with (@None time.Time).
      repeat split; try reflexivity; try discriminate;
        intros P; now destruct P.
    + destruct (time.Parse time.layout_2006_01_02 date) as [t|] eqn:P.
      * destruct (selectByDate date rows) as [row|].
        -- destruct S as (I & E & Hs).
           pose proof (sendResponse_scanned r [row]) as (C & _).
           cbn [map] in C.
           repeat split; try discriminate; try congruence.
           intros _ _. exists row. auto.
        -- repeat split; try discriminate; try congruence.
      * repeat split; try reflexivity; try discriminate;
          intros Q; now destruct Q.
Qed.

Lemma date_lookup_statuses_witness :
  dateHandler (Table [Fixtures.row_2024_01_15])
    (mkRequest "GET" "/results/date/2024-01-16" EmptyString)
  = http_Error "No results found for the specified date" StatusNotFound.
Proof.
  refine (proj1 (proj2 (proj2 (date_lookup_statuses [Fixtures.row_2024_01_15]
            (mkRequest "GET" "/results/date/2024-01-16" EmptyString)) eq_refl))
            _ eq_refl).
  discriminate.
Defined.

End ReadService.

(* ================================================================== *)
(** * The latest draw, as the updater and the service see it           *)
(* ================================================================== *)

Section LatestDraw.
Import GoStrings Store Update Api.

Lemma fold_laterDate_In (rows : list Row) (m m' : string) :
  fold_left laterDate rows (Some m) = Some m' ->
  m' = m \/ exists r, In r rows /\ date r = m'.
Proof.
  revert m. induction rows as [|x rows IH]; intros m; simpl.
  - intros [= ->]. now left.
  - destruct (m <? date x)%string; intros H; apply IH in H;
      destruct H as [-> | (r & I & E)]; eauto.
Qed.

Lemma latestDate_In (rows : list Row) (m : string) :
  latestDate rows = Some m -> exists r, In r rows /\ date r = m.
Proof.
  unfold latestDate. destruct rows as [|x rows]; simpl; [discriminate|].
  intros H. apply fold_laterDate_In in H.
  destruct H as [-> | (r & I & E)]; eauto.
Qed.

Lemma ltb_antisym (a b : string) :
  (a <? b)%string = false -> (b <? a)%string = false -> a = b.
Proof.
  intros Hab Hba. destruct (String.eqb_spec b a) as [E|N]; [auto|].
  apply String.eqb_neq in N. pose proof (ltb_total _ _ Hab N). congruence.
Qed.

(** The row [ORDER BY date DESC LIMIT 1] selects is a stored row of the
    date [SELECT date ... LIMIT 1] returns. *)
Lemma selectLatestRow_latestDate (rows : list Row) :
  match selectLatestRow rows with
  | Some row => In row rows /\ latestDate rows = Some (date row)
  | None => rows = [] /\ latestDate rows = None
  end.
Proof.
  unfold selectLatestRow.
  pose proof (orderByDateDesc_perm rows) as P.
  pose proof (orderByDateDesc_sorted rows) as S.
  destruct (orderByDateDesc rows) as [|x l]; cbn [hd_error].
  - apply Permutation_nil in P. now subst rows.
  - assert (Ix : In x rows) by (apply (Permutation_in _ P); now left).
    split; [exact Ix|].
    destruct (latestDate rows) as [m|] eqn:L.
    + f_equal. apply ltb_antisym.
      * exact (latestDate_upper_bound _ _ L x Ix).
      * destruct (latestDate_In _ _ L) as (r & Ir & <-).
        apply (Permutation_in _ (Permutation_sym P)) in Ir.
        destruct Ir as [<- | Ir]; [apply ltb_irrefl|].
        inversion S as [|? ? _ F]; subst.
        rewrite Forall_forall in F. exact (F _ Ir).
    + apply latestDate_None in L. now subst rows.
Qed.

(** The updater and the service agree on the latest draw: on a table with
    rows, [GET /results/latest] answers with a stored row whose date is
    the date the updater compares a new draw with; on a table without
    rows the updater starts from the empty date and the service answers
    404. *)
Theorem latest_served_is_the_updaters_latest (rows : list Row) (r : Request) :
  Method r = "GET" ->
  (rows = []
   /\ cursor rows = EmptyString
   /\ latestHandler (Table rows) r = http_Error "No results found" StatusNotFound)
  \/ (exists row,
        In row rows /\ date row = cursor rows
        /\ selectLatestDate (Table rows) = inr (date row)
        /\ latestHandler (Table rows) r = sendResponse r [scanRow row]).
Proof.
  intros G. unfold latestHandler, cursor, selectLatestDate. rewrite G.
  change (negb ("GET" =? "GET")%string) with false. cbn iota.
  pose proof (selectLatestRow_latestDate rows) as H.
  destruct (selectLatestRow rows) as [row|].
  - right. destruct H as (I & ->). exists row. auto.
  - left. destruct H as (-> & ->). auto.
Qed.

Lemma latest_served_is_the_updaters_latest_witness :
  exists row,
    In row [Fixtures.row_2024_01_15; Fixtures.row_2024_02_09;
            Fixtures.row_2024_02_05]
    /\ date row = "2024-02-09".
Proof.
  destruct (latest_served_is_the_updaters_latest
              [Fixtures.row_2024_01_15; Fixtures.row_2024_02_09;
               Fixtures.row_2024_02_05]
              (mkRequest "GET" "/results/latest" EmptyString) eq_refl)
    as [(E & _) | (row & I & E & _)].
  - discriminate E.
  - exists row. split; [exact I | exact E].
Defined.

(** Every attempt of the updater either leaves the table as it was, or
    appends one row, and then [GET /results/latest] and [GET /] answer
    with exactly that row. *)
Theorem stored_draw_is_served_as_latest (verbose : bool) (w : World)
    (siteID : Z) (st : St) (r : Request) :
  Method r = "GET" ->
  let st' := snd (runUpdate verbose w siteID st) in
  db st' = db st
  \/ exists rows row,
       db st = Table rows /\ db st' = Table (rows ++ [row])
       /\ latestHandler (db st') r = sendResponse r [scanRow row]
       /\ (Path r = "/" -> defaultHandler (db st') r = sendResponse r [scanRow row]).
Proof.
  intros G st'. subst st'.
  pose proof (runUpdate_cases verbose w siteID st) as C.
  destruct (runUpdate verbose w siteID st) as [res st']. cbn [snd].
  destruct C as [C | (_ & rows & newDate & n0 & n1 & n2 & n3 & n4 & n5 & n6
                      & v0 & v1 & v2 & v3 & v4 & v5 & v6
                      & D & D' & _ & Lt & Fresh & _)]; [now left|].
  right. exists rows, (mkRow newDate v0 v1 v2 v3 v4 v5 v6).
  split; [exact D|]. split; [exact D'|].
  assert (L : latestHandler (db st') r
              = sendResponse r [scanRow (mkRow newDate v0 v1 v2 v3 v4 v5 v6)]).
  { rewrite D'. unfold latestHandler. rewrite G.
    change (negb ("GET" =? "GET")%string) with false. cbn iota.
    pose proof (selectLatestRow_latestDate
                  (rows ++ [mkRow newDate v0 v1 v2 v3 v4 v5 v6])) as H.
    destruct (selectLatestRow (rows ++ [mkRow newDate v0 v1 v2 v3 v4 v5 v6]))
      as [row|].
    - destruct H as (I & L).
      pose proof (cursor_snoc rows (mkRow newDate v0 v1 v2 v3 v4 v5 v6) Lt) as Cs.
      unfold cursor in Cs at 1. rewrite L in Cs. cbn [date] in Cs.
      apply in_app_or in I. destruct I as [I | [<- | []]]; [|reflexivity].
      assert (hasDate newDate rows = true) by (apply hasDate_In; eauto).
      congruence.
    - destruct H as (H & _). now destruct rows. }
  split; [exact L|].
  intros P. unfold defaultHandler. rewrite G, P.
  change (negb ("GET" =? "GET")%string || negb ("/" =? "/")%string) with false.
  cbn iota. exact L.
Qed.

Lemma stored_draw_is_served_as_latest_witness :
  latestHandler
    (db (snd (runUpdate false
                (Fixtures.serving Fixtures.url1
                   (Fixtures.euromilhoes "05.02.2024" Fixtures.seven))
                1 Fixtures.store_2024_01_15)))
    (mkRequest "GET" "/results/latest" EmptyString)
  = sendResponse (mkRequest "GET" "/results/latest" EmptyString)
      [scanRow Fixtures.row_2024_02_05].
Proof.
  destruct (stored_draw_is_served_as_latest false
              (Fixtures.serving Fixtures.url1
                 (Fixtures.euromilhoes "05.02.2024" Fixtures.seven))
              1 Fixtures.store_2024_01_15
              (mkRequest "GET" "/results/latest" EmptyString) eq_refl)
    as [E | (rows & row & _ & _ & _ & _)].
  - vm_compute in E. discriminate E.
  - vm_compute. reflexivity.
Defined.

(** No handler reads past the end of [Numbers] or [Stars]: every result a
    handler passes to [sendResponse] was scanned from a row, so it holds
    five numbers and two stars.  The statuses a handler answers with are
    200, 400, 404, 405 and 500. *)
Theorem handlers_never_index_out_of_range (d : DB) (r : Request) :
  forall h, In h [resultsHandler; dateHandler; latestHandler; defaultHandler] ->
    body (h d r) <> panic_index_out_of_range
    /\ In (StatusCode (h d r))
         [StatusOK; StatusBadRequest; StatusNotFound; StatusMethodNotAllowed;
          StatusInternalServerError].
Proof.
  assert (Hs : forall rows,
             body (sendResponse r (map scanRow rows)) <> panic_index_out_of_range
             /\ In (StatusCode (sendResponse r (map scanRow rows)))
                  [StatusOK; StatusBadRequest; StatusNotFound;
                   StatusMethodNotAllowed; StatusInternalServerError]).
  { intros rows. destruct (sendResponse_scanned r rows) as (C & B & _).
    split; [exact B|]. rewrite C. now left. }
  assert (He : forall msg code,
             In code [StatusOK; StatusBadRequest; StatusNotFound;
                      StatusMethodNotAllowed; StatusInternalServerError] ->
             body (http_Error msg code) <> panic_index_out_of_range
             /\ In (StatusCode (http_Error msg code))
                  [StatusOK; StatusBadRequest; StatusNotFound;
                   StatusMethodNotAllowed; StatusInternalServerError]).
  { intros msg code I. split; [discriminate | exact I]. }
  assert (Hl : body (latestHandler d r) <> panic_index_out_of_range
               /\ In (StatusCode (latestHandler d r))
                    [StatusOK; StatusBadRequest; StatusNotFound;
                     StatusMethodNotAllowed; StatusInternalServerError]).
  { unfold latestHandler.
    destruct (negb (Method r =? "GET")%string); [apply He; simpl; tauto|].
    destruct d as [|rows]; [apply He; simpl; tauto|].
    destruct (selectLatestRow rows) as [row|]; [|apply He; simpl; tauto].
    exact (Hs [row]). }
  intros h [<- | [<- | [<- | [<- | []]]]].
  - unfold resultsHandler, getAllResults.
    destruct (negb (Method r =? "GET")%string); [apply He; simpl; tauto|].
    destruct d as [|rows]; [apply He; simpl; tauto|].
    destruct (map scanRow (orderByDateDesc rows)) eqn:E;
      [apply He; simpl; tauto|].
    rewrite <- E. apply Hs.
  - unfold dateHandler.
    destruct (negb (Method r =? "GET")%string); [apply He; simpl; tauto|].
    cbv zeta.
    destruct (_ =? EmptyString)%string; [apply He; simpl; tauto|].
    destruct (time.Parse _ _); [|apply He; simpl; tauto].
    destruct d as [|rows]; [apply He; simpl; tauto|].
    destruct (selectByDate _ rows) as [row|]; [|apply He; simpl; tauto].
    exact (Hs [row]).
  - exact Hl.
  - unfold defaultHandler, http_NotFound.
    destruct (_ || _); [apply He; simpl; tauto | exact Hl].
Qed.

Lemma handlers_never_index_out_of_range_witness :
  body (resultsHandler (Table [Fixtures.row_2024_01_15; Fixtures.row_2024_02_05])
          (mkRequest "GET" "/results" "PlainText"))
  <> panic_index_out_of_range.
Proof.
  apply (handlers_never_index_out_of_range
           (Table [Fixtures.row_2024_01_15; Fixtures.row_2024_02_05])
           (mkRequest "GET" "/results" "PlainText") resultsHandler).
  simpl. auto.
Defined.

End LatestDraw.

(* ================================================================== *)
(** * The exit status of the updater                                   *)
(* ================================================================== *)

Section ExitStatus.
Import GoStrings Store Update.

Lemma runUpdate_error_keeps_db (verbose : bool) (w : World) (siteID : Z)
    (st st' : St) (e : error) :
  runUpdate verbose w siteID st = (inl e, st') -> db st' = db st.
Proof.
  intros H. pose proof (runUpdate_cases verbose w siteID st) as C.
  rewrite H in C. destruct C as [C | (C & _)]; [exact C | discriminate C].
Qed.

Lemma runUpdate_unsupported (verbose : bool) (w : World) (siteID : Z) (st : St) :
  siteID < 1 \/ 5 < siteID ->
  exists e, fst (runUpdate verbose w siteID st) = inl e.
Proof.
  intros R. destruct (db st) as [|rows] eqn:D.
  - rewrite (runUpdate_NoTable verbose w siteID st D). cbn [fst]. eauto.
  - rewrite (runUpdate_Table verbose w siteID st rows D).
    unfold extraction.
    destruct (switch_siteID_by_id verbose w siteID)
      as [[E _]|[[E _]|[[E _]|[[E _]|[[E _]|[_ ->]]]]]]; try lia.
    cbn. eauto.
Qed.

(** What the exit status of the updater tells, from the start of the
    process: a run that ends with another status than 0 has left the table
    as it found it; a command line naming a site number outside 1..5 ends
    with status 1; with [-s all], a database path and a log file that
    opens (or none named) the run ends with status 0 whatever the sources
    answered. *)
Theorem nonzero_exit_stores_nothing (cl : CommandLine) (logFileOpens : bool)
    (web : Z -> World) (st : St) :
  (fst (process cl logFileOpens web st) <> 0 ->
     snd (process cl logFileOpens web st) = db st)
  /\ (forall flags siteID,
        cl = Parsed flags ->
        strconv.Atoi (siteIDStr flags) = Some siteID ->
        siteID < 1 \/ 5 < siteID ->
        process cl logFileOpens web st = (1, db st))
  /\ (forall flags,
        cl = Parsed flags ->
        databasePath flags <> EmptyString -> siteIDStr flags = "all" ->
        outputFile flags = EmptyString \/ logFileOpens = true ->
        fst (process cl logFileOpens web st) = 0).
Proof.
  split; [|split].
  - destruct cl as [| |flags]; cbn [process]; try reflexivity.
    destruct (_ || _); [reflexivity|].
    destruct (_ && _); [reflexivity|]. cbn [fst snd].
    unfold main.
    destruct (_ || _); [reflexivity|].
    destruct (siteIDStr flags =? "all")%string; [intros N; now destruct N|].
    destruct (strconv.Atoi (siteIDStr flags)) as [siteID|]; [|reflexivity].
    destruct (runUpdate (verboseFlag flags) (web siteID) siteID st)
      as [[e|u] st'] eqn:R; cbn [fst snd].
    + intros _. exact (runUpdate_error_keeps_db _ _ _ _ _ _ R).
    + intros N; now destruct N.
  - intros flags siteID -> A O. cbn [process].
    destruct (_ || _) eqn:M; [reflexivity|].
    destruct (_ && _); [reflexivity|].
    unfold main. rewrite M.
    destruct (String.eqb_spec (siteIDStr flags) "all") as [Ea|Na].
    + rewrite Ea in A. discriminate A.
    + rewrite A.
      destruct (runUpdate_unsupported (verboseFlag flags) (web siteID)
                  siteID st O) as (e & E).
      pose proof (runUpdate_error_keeps_db (verboseFlag flags) (web siteID)
                    siteID st) as K.
      destruct (runUpdate (verboseFlag flags) (web siteID) siteID st)
        as [[e'|u] st']; cbn [fst] in E; [|discriminate E].
      cbn [fst snd db]. now rewrite (K st' e' eq_refl).
  - intros flags -> Nd Ea L. cbn [process].
    apply String.eqb_neq in Nd. rewrite Nd, Ea. cbn [orb String.eqb Ascii.eqb].
    assert (F : negb (outputFile flags =? EmptyString)%string
                && negb logFileOpens = false).
    { destruct L as [-> | ->]; [reflexivity | apply andb_false_r]. }
    unfold main. rewrite F, Nd, Ea. reflexivity.
Qed.

Lemma nonzero_exit_stores_nothing_witness :
  process (Parsed (mkFlags "results.db" "6" false "update.log")) true
    (fun _ => Fixtures.offline) Fixtures.store_2024_01_15
  = (1, db Fixtures.store_2024_01_15).
Proof.
  apply (proj1 (proj2 (nonzero_exit_stores_nothing
           (Parsed (mkFlags "results.db" "6" false "update.log")) true
           (fun _ => Fixtures.offline) Fixtures.store_2024_01_15))
           (mkFlags "results.db" "6" false "update.log") 6 eq_refl eq_refl).
  right. lia.
Defined.

End ExitStatus.

(* ================================================================== *)
(** * Source 5: the draw history file                                  *)
(* ================================================================== *)

Section DrawHistoryFile.
Import GoStrings csv Store Update.

Lemma plainByte_true (c : ascii) :
  plainByte c = true ->
  Ascii.eqb c "013" = false /\ Ascii.eqb c "010" = false
  /\ Ascii.eqb c "," = false /\ Ascii.eqb c "034" = false.
Proof.
  unfold plainByte. rewrite negb_true_iff, !orb_false_iff. tauto.
Qed.

Lemma readRecord_InField (f : string) :
  plainField f = true ->
  forall done field rest,
    readRecord InField done field (f ++ String "010" rest)
    = Record_ (done ++ [field ++ f]) rest
    /\ readRecord InField done field (f ++ String "," rest)
       = readRecord StartField (done ++ [field ++ f]) EmptyString rest.
Proof.
  induction f as [|c f IH]; intros P done field rest.
  - rewrite append_nil_r. split; reflexivity.
  - cbn [plainField] in P. apply andb_true_iff in P. destruct P as [Pc Pf].
    destruct (plainByte_true c Pc) as (C1 & C2 & C3 & C4).
    specialize (IH Pf done (field ++ String c EmptyString)).
    rewrite append_assoc in IH. cbn [append] in IH.
    cbn [append readRecord]. rewrite C1, C2, C3, C4. cbn [andb].
    exact (IH rest).
Qed.

Lemma readRecord_StartField (f : string) :
  plainField f = true ->
  forall done field rest,
    readRecord StartField done field (f ++ String "010" rest)
    = Record_ (done ++ [f]) rest
    /\ readRecord StartField done field (f ++ String "," rest)
       = readRecord StartField (done ++ [f]) EmptyString rest.
Proof.
  destruct f as [|c f]; intros P done field rest.
  - split; reflexivity.
  - cbn [plainField] in P. apply andb_true_iff in P. destruct P as [Pc Pf].
    destruct (plainByte_true c Pc) as (C1 & C2 & C3 & C4).
    cbn [append readRecord]. rewrite C1, C2, C3, C4. cbn [andb].
    exact (readRecord_InField f Pf done (String c EmptyString) rest).
Qed.

Lemma readRecord_StartRecord (f : string) :
  plainField f = true ->
  forall done field rest,
    (f <> EmptyString ->
     readRecord StartRecord done field (f ++ String "010" rest)
     = Record_ (done ++ [f]) rest)
    /\ readRecord StartRecord done field (f ++ String "," rest)
       = readRecord StartField (done ++ [f]) EmptyString rest.
Proof.
  destruct f as [|c f]; intros P done field rest.
  - split; [intros N; now destruct N | reflexivity].
  - cbn [plainField] in P. apply andb_true_iff in P. destruct P as [Pc Pf].
    destruct (plainByte_true c Pc) as (C1 & C2 & C3 & C4).
    cbn [append readRecord]. rewrite C1, C2, C3, C4. cbn [andb].
    split; [intros _|];
      apply (readRecord_InField f Pf done (String c EmptyString) rest).
Qed.

Lemma concat_cons2 (f g : string) (fs : list string) (rest : string) :
  String.concat "," (f :: g :: fs) ++ rest
  = f ++ String "," (String.concat "," (g :: fs) ++ rest).
Proof.
  change (String.concat "," (f :: g :: fs))
    with (f ++ "," ++ String.concat "," (g :: fs)).
  now rewrite append_assoc.
Qed.

Lemma readRecord_fields (fs : list string) :
  forallb plainField fs = true -> fs <> [] ->
  forall done field rest,
    readRecord StartField done field
      (String.concat "," fs ++ String "010" rest)
    = Record_ (done ++ fs) rest.
Proof.
  induction fs as [|f fs IH]; intros P N done field rest; [now destruct N|].
  cbn [forallb] in P. apply andb_true_iff in P. destruct P as [Pf Pfs].
  destruct fs as [|g fs].
  - exact (proj1 (readRecord_StartField f Pf done field rest)).
  - rewrite concat_cons2.
    rewrite (proj2 (readRecord_StartField f Pf done field _)).
    rewrite IH by (auto; discriminate). now rewrite <- app_assoc.
Qed.

(** A record of fields without comma, quotation mark, carriage return and
    line feed, written on one line, is read back as it is; what follows
    the line is left for the next read.  (A line with nothing on it is
    skipped, so the record of one empty field is left out.) *)
Lemma readRecord_line (fs : list string) (rest : string) :
  forallb plainField fs = true -> fs <> [] -> fs <> [EmptyString] ->
  readRecord StartRecord [] EmptyString (line fs ++ rest) = Record_ fs rest.
Proof.
  intros P N1 N2. unfold line. rewrite append_assoc. cbn [append].
  destruct fs as [|f fs]; [now destruct N1|].
  cbn [forallb] in P. apply andb_true_iff in P. destruct P as [Pf Pfs].
  destruct fs as [|g fs].
  - apply (proj1 (readRecord_StartRecord f Pf [] EmptyString rest)).
    intros ->. now destruct N2.
  - rewrite concat_cons2.
    rewrite (proj2 (readRecord_StartRecord f Pf [] EmptyString _)).
    now rewrite readRecord_fields by (auto; discriminate).
Qed.

Lemma checkNumbers_pass (numbers : list string) (i : Z) (st : St) :
  (forall n, In n numbers -> strconv.Atoi n <> None) ->
  checkNumbers i numbers st = (inr tt, st).
Proof.
  revert i. induction numbers as [|num rest IH]; intros i H; [reflexivity|].
  cbn [checkNumbers].
  destruct (strconv.Atoi num) eqn:E.
  - apply IH. intros n I. apply H. now right.
  - destruct (H num (or_introl eq_refl) E).
Qed.

Variable verbose : bool.
Variable w : World.

Lemma case5_on_two_lines (header record : list string) (rest : string) :
  csvFile w "https://www.national-lottery.co.uk/results/euromillions/draw-history/csv"
  = Some (line header ++ line record ++ rest) ->
  forallb plainField header = true -> header <> [] -> header <> [EmptyString] ->
  forallb plainField record = true -> record <> [] -> record <> [EmptyString] ->
  extraction verbose w 5
  = if (Z.of_nat (List.length record) =? Z.of_nat (List.length header))
    then
      match record with
      | r0 :: r1 :: r2 :: r3 :: r4 :: r5 :: r6 :: r7 :: _ =>
          match time.Parse time.layout_02_Jan_2006 r0 with
          | None => inl (date_parsing_error (time_ParseError r0))
          | Some t =>
              match fst (checkNumbers 0 [r1; r2; r3; r4; r5; r6; r7] st0) with
              | inl e => inl e
              | inr _ =>
                  inr (time.Format_2006_01_02 t, [r1; r2; r3; r4; r5; r6; r7])
              end
          end
      | _ => inl (invalid_CSV_format (Z.of_nat (List.length record)))
      end
    else inl (failed_to_read_CSV_record (csv_ParseError ErrFieldCount)).
Proof.
  intros W Ph Nh1 Nh2 Pr Nr1 Nr2.
  assert (L : (0 <? Z.of_nat (List.length header)) = true).
  { destruct header; [now destruct Nh1 | apply Z.ltb_lt; cbn [List.length]; lia]. }
  assert (L0 : (Z.of_nat (List.length header) =? 0) = false).
  { apply Z.eqb_neq. apply Z.ltb_lt in L. lia. }
  unfold extraction. cbn [switch_siteID].
  unfold case5, bind, wrapping, getCSV, bind. rewrite W.
  unfold Read, NewReader. cbn [input FieldsPerRecord].
  assert (V : forall st, exists st',
             logVerbose verbose
               (Fetching_CSV_from_URL
                  "https://www.national-lottery.co.uk/results/euromillions/draw-history/csv")
               st = (inr tt, st')).
  { intros st. unfold logVerbose, logPrint, ret. destruct verbose; eauto. }
  destruct (V st0) as (st1 & ->). cbn [orReturn ret].
  rewrite (readRecord_line header (line record ++ rest) Ph Nh1 Nh2).
  cbn [Z.eqb]. cbn [input FieldsPerRecord].
  rewrite (readRecord_line record rest Pr Nr1 Nr2).
  rewrite L0.
  destruct (Z.of_nat (List.length record) =? Z.of_nat (List.length header));
    [|reflexivity].
  destruct record as [|r0 [|r1 [|r2 [|r3 [|r4 [|r5 [|r6 [|r7 more]]]]]]]];
    try reflexivity.
  destruct (time.Parse time.layout_02_Jan_2006 r0) as [t|]; [|reflexivity].
  cbn [orReturn ret].
  assert (C : forall sa sb,
             fst (checkNumbers 0 [r1; r2; r3; r4; r5; r6; r7] sa)
             = fst (checkNumbers 0 [r1; r2; r3; r4; r5; r6; r7] sb)).
  { intros sa sb. cbn [checkNumbers].
    repeat match goal with
           | |- context [strconv.Atoi ?x] =>
               destruct (strconv.Atoi x); [|reflexivity]
           end. reflexivity. }
  rewrite (C st0 st1).
  destruct (checkNumbers 0 [r1; r2; r3; r4; r5; r6; r7] st1) as [[e|u] st2];
    reflexivity.
Qed.

(** Source 5 takes the draw from the second line of the file and from
    nothing else: when the first two lines are plain records (no quoted
    field) and the second one starts with a date in the day-month-year
    layout followed by seven integers, the attempt extracts that date,
    rewritten as year-month-day, and those seven texts, whatever columns
    and lines follow; but only if the second line has as many columns as
    the header: otherwise the attempt fails on the record, also when the
    first eight columns are in order. *)
Theorem source5_reads_the_second_line (header more : list string)
    (r0 r1 r2 r3 r4 r5 r6 r7 rest : string) (t : time.Time) :
  let record := r0 :: r1 :: r2 :: r3 :: r4 :: r5 :: r6 :: r7 :: more in
  csvFile w "https://www.national-lottery.co.uk/results/euromillions/draw-history/csv"
  = Some (line header ++ line record ++ rest) ->
  forallb plainField header = true -> header <> [] -> header <> [EmptyString] ->
  forallb plainField record = true ->
  time.Parse time.layout_02_Jan_2006 r0 = Some t ->
  (forall n, In n [r1; r2; r3; r4; r5; r6; r7] -> strconv.Atoi n <> None) ->
  (List.length header = List.length record ->
   extraction verbose w 5
   = inr (time.Format_2006_01_02 t, [r1; r2; r3; r4; r5; r6; r7]))
  /\ (List.length header <> List.length record ->
      extraction verbose w 5
      = inl (failed_to_read_CSV_record (csv_ParseError ErrFieldCount))).
Proof.
  intros record W Ph Nh1 Nh2 Pr Pt Pn.
  rewrite (case5_on_two_lines header record rest W Ph Nh1 Nh2 Pr)
    by (subst record; discriminate).
  split; intros E.
  - rewrite E, Z.eqb_refl. subst record. cbv beta iota. rewrite Pt.
    now rewrite (checkNumbers_pass _ 0 st0 Pn).
  - destruct (Z.eqb_spec (Z.of_nat (List.length record))
                (Z.of_nat (List.length header))) as [Q|Q]; [|reflexivity].
    apply Nat2Z.inj in Q. now destruct E.
Qed.

End DrawHistoryFile.

Section DrawHistoryFileExamples.
Import GoStrings csv Store Update.

Lemma source5_reads_the_second_line_witness :
  extraction false
    (Fixtures.serving Fixtures.url5
       (line ["DrawDate"; "Ball 1"; "Ball 2"; "Ball 3"; "Ball 4"; "Ball 5";
              "Lucky Star 1"; "Lucky Star 2"; "UK Millionaire Maker";
              "DrawNumber"]
        ++ line ["26-Jan-2024"; "3"; "17"; "22"; "41"; "49"; "5"; "11";
                 "XYZW12345"; "1700"]
        ++ line ["23-Jan-2024"; "1"; "2"; "3"; "4"; "5"; "6"; "7";
                 "ABCD12345"; "1699"]))
    5
  = inr ("2024-01-26", ["3"; "17"; "22"; "41"; "49"; "5"; "11"]).
Proof.
  refine (proj1 (source5_reads_the_second_line false
            (Fixtures.serving Fixtures.url5 _)
            ["DrawDate"; "Ball 1"; "Ball 2"; "Ball 3"; "Ball 4"; "Ball 5";
             "Lucky Star 1"; "Lucky Star 2"; "UK Millionaire Maker";
             "DrawNumber"]
            ["XYZW12345"; "1700"]
            "26-Jan-2024" "3" "17" "22" "41" "49" "5" "11"
            (line ["23-Jan-2024"; "1"; "2"; "3"; "4"; "5"; "6"; "7";
                   "ABCD12345"; "1699"])
            (time.mkTime 2024 1 26)
            eq_refl eq_refl _ _ eq_refl eq_refl _) eq_refl).
  - discriminate.
  - discriminate.
  - intros n I. simpl in I.
    repeat (destruct I as [<- | I]; [vm_compute; discriminate|]).
    destruct I.
Defined.

Lemma history_is_append_only_witness :
  exists added,
    db (snd (main (mkFlags "results.db" "all" false EmptyString)
               Fixtures.scenarioC_web Fixtures.store_2024_01_15))
    = Table ([Fixtures.row_2024_01_15] ++ added)
    /\ (List.length added <= 5)%nat.
Proof.
  destruct (proj2 (history_is_append_only Fixtures.scenarioC_web
                     (mkFlags "results.db" "all" false EmptyString)
                     Fixtures.store_2024_01_15)
              [Fixtures.row_2024_01_15] eq_refl)
    as (added & E & _ & _ & L).
  exists added. split; [exact E | exact L].
Defined.

End DrawHistoryFileExamples.
